(** * cmQtAutoGeneratorInitializer: a shallow embedding and its properties

    The definitions below follow [Source/cmQtAutoGeneratorInitializer.cxx]
    function by function.  [std::vector<std::string>] is [list string],
    [std::map<std::string, std::string>] is [gmap string string], iterators
    are positions ([nat], the end iterator being the length), and every
    element access through an iterator is range checked, so that an access
    outside the vector shows up as the result [Fail OutOfRange]. *)

From Stdlib Require Import String Ascii List Lia.
From stdpp Require Import base option list strings gmap sorting.

Local Open Scope string_scope.
Local Open Scope list_scope.
Local Open Scope nat_scope.
Set Warnings "-clear-no-such-hyp".

(** ** Checked accesses *)

Inductive Failure : Type :=
  | OutOfRange     (* an element access outside its vector *)
  | NullPointer    (* a std::string built from a null pointer *)
  | OutOfFuel.     (* the embedding of a loop ran out of steps *)

Inductive Access (A : Type) : Type :=
  | Done (a : A)
  | Fail (e : Failure).
Arguments Done {A} a.
Arguments Fail {A} e.

#[global] Instance Access_ret : MRet Access := fun A a => Done a.
#[global] Instance Access_bind : MBind Access := fun A B f m =>
  match m with
  | Done a => f a
  | Fail e => Fail e
  end.

(** [*it] for an iterator at position [i] of [v]. *)
Definition deref (v : list string) (i : nat) : Access string :=
  match v !! i with
  | Some x => Done x
  | None => Fail OutOfRange
  end.

(** [*it = x] for an iterator at position [i] of [v]. *)
Definition assign (v : list string) (i : nat) (x : string)
  : Access (list string) :=
  if decide (i < length v) then Done (<[i:=x]> v) else Fail OutOfRange.

(** [std::find(v.begin(), v.end(), x)]: the position of the first element
    equal to [x], the end position when there is none. *)
Fixpoint std_find (x : string) (v : list string) : nat :=
  match v with
  | [] => 0
  | y :: r => if decide (y = x) then 0 else S (std_find x r)
  end.

(** [s.c_str()] read as a C string: the characters before the first NUL. *)
Fixpoint c_str (s : string) : string :=
  match s with
  | EmptyString => EmptyString
  | String c r =>
      if decide (c = "000"%char) then EmptyString else String c (c_str r)
  end.

(** Modelled from the spec: [cmJoin] (cmAlgorithms.h) is not under src/.
    It gives the separator-joined representation of a list: the elements
    in order with [sep] between them, the empty string for no element. *)
Fixpoint cmJoin (values : list string) (sep : string) : string :=
  match values with
  | [] => ""
  | [x] => x
  | x :: r => x +:+ sep +:+ cmJoin r sep
  end.

(** ** RccMergeOptions *)

Definition valueOptions : list string :=
  ["name"; "root"; "compress"; "threshold"].

(** The pointer [optName] after the dash skipping of lines 614-620: whether
    it moved away from [fit->c_str()], and the C string it points to. *)
Definition optName (isQt5 : bool) (tok : string) : bool * string :=
  match c_str tok with
  | String "-" r =>
      (true,
       if isQt5
       then match r with String "-" r' => r' | _ => r end
       else r)
  | s => (false, s)
  end.

(** The test of lines 622-624. *)
Definition isValueOption (isQt5 : bool) (tok : string) : bool :=
  let '(moved, name) := optName isQt5 tok in
  moved && bool_decide (name ∈ valueOptions).

Record MergeState : Type := mkMergeState {
  opts : list string;       (* the vector merged into *)
  extraOpts : list string;
  fit : nat                 (* position in fileOpts *)
}.

(** One pass through the body of the [for] loop, followed by its [++fit]. *)
Definition RccMergeBody (isQt5 : bool) (fileOpts : list string)
    (st : MergeState) : Access MergeState :=
  tok ← deref fileOpts (fit st);
  let existingIt := std_find tok (opts st) in
  if decide (existingIt ≠ length (opts st)) then
    if isValueOption isQt5 tok then
      let existValueIt := existingIt + 1 in
      let fileValueIt := fit st + 1 in
      if decide (existValueIt ≠ length (opts st)
                 ∧ fileValueIt ≠ length fileOpts) then
        v ← deref fileOpts fileValueIt;
        opts' ← assign (opts st) existValueIt v;
        mret (mkMergeState opts' (extraOpts st) (fit st + 1 + 1))
      else mret (mkMergeState (opts st) (extraOpts st) (fit st + 1))
    else mret (mkMergeState (opts st) (extraOpts st) (fit st + 1))
  else mret (mkMergeState (opts st) (extraOpts st ++ [tok]) (fit st + 1)).

(** The [for] loop: it runs while [fit != fileOpts.end()]. *)
Fixpoint RccMergeLoop (fuel : nat) (isQt5 : bool) (fileOpts : list string)
    (st : MergeState) : Access MergeState :=
  if decide (fit st = length fileOpts) then Done st
  else match fuel with
       | 0 => Fail OutOfFuel
       | S fuel' =>
           st' ← RccMergeBody isQt5 fileOpts st;
           RccMergeLoop fuel' isQt5 fileOpts st'
       end.

(** The value of [opts] when the function returns. *)
Definition RccMergeOptions (isQt5 : bool) (opts0 fileOpts : list string)
  : Access (list string) :=
  st ← RccMergeLoop (length fileOpts) isQt5 fileOpts (mkMergeState opts0 [] 0);
  mret (opts st ++ extraOpts st).

(** ** Data model *)

(** [cmSystemTools::FileFormat], as far as this file tells the formats
    apart: every other format of the enumeration is [OTHER_FILE_FORMAT]. *)
Inductive FileFormat : Type :=
  | CXX_FILE_FORMAT
  | HEADER_FILE_FORMAT
  | OTHER_FILE_FORMAT.

(** [cmPolicies::PolicyStatus]. *)
Inductive PolicyStatus : Type :=
  | OLD | WARN | NEW | REQUIRED_IF_USED | REQUIRED_ALWAYS.

(** [cmQtAutoGeneratorCommon::GeneratorType]. *)
Inductive GeneratorType : Type := MOC | UIC | RCC.

#[global] Instance FileFormat_eq_dec : EqDecision FileFormat.
Proof. solve_decision. Defined.
#[global] Instance PolicyStatus_eq_dec : EqDecision PolicyStatus.
Proof. solve_decision. Defined.
#[global] Instance GeneratorType_eq_dec : EqDecision GeneratorType.
Proof. solve_decision. Defined.

(** A [cmSourceFile]: its full path, the extension derived from it and its
    property bag. *)
Record cmSourceFile : Type := mkSourceFile {
  FullPath : string;
  Extension : string;
  SourceProperties : gmap string string
}.

(** What this file reads of a [cmMakefile], its local and its global
    generator, apart from the variable definitions (which are state). *)
Record cmMakefile : Type := mkMakefile {
  CurrentBinaryDirectory : string;
  CurrentSourceDirectory : string;
  CMakeFilesDirectory : string;
  (* makefile->GetConfigurations(configs): the vector and the return value *)
  Configurations : list string;
  BuildType : string;
  IsMultiConfig : bool;
  PolicyCMP0071 : PolicyStatus;
  (* FindGeneratorTargetToUse(name), with ImportedGetLocation("") of the
     target found (which may be null) *)
  ImportedTargets : gmap string (option string);
  (* FindTargetToUse(name) != nullptr *)
  KnownTargets : string → bool;
  QtUiFilesWithOptions : list cmSourceFile;
  (* whether an output stream on the file can be opened for appending *)
  OpenForAppend : string → bool
}.

(** What this file reads of a [cmGeneratorTarget]. *)
Record cmGeneratorTarget : Type := mkTarget {
  Name : string;
  Properties : gmap string string;
  Makefile : cmMakefile;
  ConfigCommonSourceFiles : list cmSourceFile;
  (* localGen->GetIncludeDirectories(dirs, target, "CXX", config, false) *)
  IncludeDirectories : string → list string;
  (* the definitions localGen->AddCompileDefinitions(defines, target,
     config, "CXX") inserts into [defines], in the order it inserts them *)
  CompileDefinitions : string → list string;
  (* target->GetAutoUicOptions(opts, config) *)
  AutoUicOptions : string → list string;
  LinkInterfaceDependentStringProperty : string → option string;
  (* target->Target->GetUtilities() and GetOriginalLinkLibraries() *)
  Utilities : list string;
  OriginalLinkLibraries : list string
}.

Record AutogenSetup : Type := mkSetup {
  sources : list string;
  headers : list string;
  mocSkip : list string;
  uicSkip : list string;
  configSuffix : gmap string string;
  configMocIncludes : gmap string string;
  configMocDefines : gmap string string;
  configUicOptions : gmap string string
}.

Definition emptySetup : AutogenSetup := mkSetup [] [] [] [] ∅ ∅ ∅ ∅.

(** Functions of other translation units, taken as given. *)
Class Collaborators : Type := {
  GetRealPath : string → string;             (* cmsys::SystemTools *)
  GetFileFormat : string → FileFormat;       (* cmSystemTools *)
  IsOn : string → bool;                      (* cmSystemTools *)
  StringToULong : string → option N;         (* cmSystemTools *)
  ExpandListArgument : string → list string; (* cmSystemTools *)
  CollapseFullPath : string → string → string;
  ReplaceString : string → string → string → string;
  GetFilenameWithoutLastExtension : string → string;
  GetCMakeRoot : string;
  GetCMakeCommand : string;
  EscapeForCMake : string → string;          (* cmOutputConverter *)
  GetPolicyWarningCMP0071 : string;          (* cmPolicies *)
  Quoted : string → string;                  (* cmQtAutoGeneratorCommon *)
  listSep : string;                          (* cmQtAutoGeneratorCommon *)
  (* RccListInputs(qtMajorVersion, rccCommand, fileName, files, &error):
     the files on success, the error text on failure *)
  RccListInputs : string → string → string → list string + string;
  fpathCheckSum_getPart : string → string;   (* cmFilePathChecksum *)
  (* the text of a template after the @VAR@ substitution of
     cmMakefile::ConfigureString, given the visible definitions *)
  ConfigureString : (string → option string) → string → string
}.

(** ** The state that is written *)

Record World : Type := mkWorld {
  (* variable definitions: the current scope and the enclosing ones *)
  CurrentScope : gmap string string;
  ParentScopes : list (gmap string string);
  ErrorLog : list string;            (* cmSystemTools::Error *)
  Messages : list string;            (* cmMakefile::IssueMessage *)
  Files : gmap string string;        (* file contents *)
  Permissions : gmap string N;       (* file mode bits *)
  CMakeDependFiles : list string;    (* cmMakefile::AddCMakeDependFile *)
  GeneratedSources : list (string * GeneratorType)
}.

Definition with_scopes (cur : gmap string string)
    (parents : list (gmap string string)) (w : World) : World :=
  mkWorld cur parents (ErrorLog w) (Messages w) (Files w) (Permissions w)
          (CMakeDependFiles w) (GeneratedSources w).
Definition with_ErrorLog (l : list string) (w : World) : World :=
  mkWorld (CurrentScope w) (ParentScopes w) l (Messages w) (Files w)
          (Permissions w) (CMakeDependFiles w) (GeneratedSources w).
Definition with_Messages (l : list string) (w : World) : World :=
  mkWorld (CurrentScope w) (ParentScopes w) (ErrorLog w) l (Files w)
          (Permissions w) (CMakeDependFiles w) (GeneratedSources w).
Definition with_Files (f : gmap string string) (w : World) : World :=
  mkWorld (CurrentScope w) (ParentScopes w) (ErrorLog w) (Messages w) f
          (Permissions w) (CMakeDependFiles w) (GeneratedSources w).
Definition with_Permissions (p : gmap string N) (w : World) : World :=
  mkWorld (CurrentScope w) (ParentScopes w) (ErrorLog w) (Messages w)
          (Files w) p (CMakeDependFiles w) (GeneratedSources w).
Definition with_CMakeDependFiles (l : list string) (w : World) : World :=
  mkWorld (CurrentScope w) (ParentScopes w) (ErrorLog w) (Messages w)
          (Files w) (Permissions w) l (GeneratedSources w).
Definition with_GeneratedSources (l : list (string * GeneratorType))
    (w : World) : World :=
  mkWorld (CurrentScope w) (ParentScopes w) (ErrorLog w) (Messages w)
          (Files w) (Permissions w) (CMakeDependFiles w) l.

(** Computations that read and write the [World] and may end in a failed
    access. *)
Definition M (A : Type) : Type := World → Access (A * World).

#[global] Instance M_ret : MRet M := fun A a w => Done (a, w).
#[global] Instance M_bind : MBind M := fun A B f m w =>
  match m w with
  | Done (a, w') => f a w'
  | Fail e => Fail e
  end.

Definition gets {A : Type} (f : World → A) : M A := fun w => Done (f w, w).
Definition modify (f : World → World) : M unit := fun w => Done (tt, f w).
Definition lift {A : Type} (a : Access A) : M A := fun w =>
  match a with
  | Done x => Done (x, w)
  | Fail e => Fail e
  end.

(** [for (it = v.begin(); it != v.end(); ++it)] over a vector that the body
    does not change, threading an accumulator. *)
Fixpoint forEach {A S : Type} (body : S → A → M S) (v : list A) (s : S)
  : M S :=
  match v with
  | [] => mret s
  | x :: r => s' ← body s x; forEach body r s'
  end.

(** Modelled from the spec: [cmSystemTools::Error] and
    [cmMakefile::IssueMessage] are not under src/.  Errors and warnings
    accumulate as diagnostics; the computation goes on. *)
Definition Error (msg : string) : M unit :=
  modify (fun w => with_ErrorLog (ErrorLog w ++ [msg]) w).

(** [makefile->IssueMessage(cmake::AUTHOR_WARNING, msg)]. *)
Definition IssueMessage (msg : string) : M unit :=
  modify (fun w => with_Messages (Messages w ++ [msg]) w).

(** Modelled from the spec: the variable scopes of [cmMakefile]
    ([ScopePushPop], [AddDefinition], [GetDefinition]) are not under src/.
    Definitions go to the current scope; a lookup goes through the current
    scope and then the enclosing ones; [ScopePushPop] opens a scope when it
    is constructed and drops it, with its definitions, when it is
    destroyed. *)
Definition AddDefinition (key value : string) : M unit :=
  modify (fun w => with_scopes (<[key:=value]> (CurrentScope w))
                               (ParentScopes w) w).

Fixpoint lookupScopes (key : string) (scopes : list (gmap string string))
  : option string :=
  match scopes with
  | [] => None
  | s :: r => match s !! key with
              | Some v => Some v
              | None => lookupScopes key r
              end
  end.

Definition GetDefinition (w : World) (key : string) : option string :=
  lookupScopes key (CurrentScope w :: ParentScopes w).

Definition PushScope : M unit :=
  modify (fun w => with_scopes ∅ (CurrentScope w :: ParentScopes w) w).

Definition PopScope : M unit :=
  modify (fun w => match ParentScopes w with
                   | p :: r => with_scopes p r w
                   | [] => w
                   end).

(** A [cmMakefile::ScopePushPop] object that lives while [body] runs. *)
Definition ScopePushPop {A : Type} (body : M A) : M A :=
  PushScope;;
  a ← body;
  PopScope;;
  mret a.

(** [makefile->GetSafeDefinition(key)]. *)
Definition GetSafeDefinition (w : World) (key : string) : string :=
  default "" (GetDefinition w key).

(** ** Containers of the standard library *)

(** [std::set<std::string>]: its elements in iteration order, which is
    increasing for [operator<] on strings. *)
Fixpoint std_set_insert (x : string) (s : list string) : list string :=
  match s with
  | [] => [x]
  | y :: r =>
      match String.compare x y with
      | Lt => x :: y :: r
      | Eq => y :: r
      | Gt => y :: std_set_insert x r
      end
  end.

(** [s.insert(first, last)] and the range constructor of a set. *)
Definition std_set_insert_range (v : list string) (s : list string)
  : list string :=
  fold_left (fun acc x => std_set_insert x acc) v s.

Definition std_set_of (v : list string) : list string :=
  std_set_insert_range v [].

(** The entries of a [std::map<std::string, std::string>] in iteration
    order (increasing keys). *)
Definition key_le (p q : string * string) : Prop :=
  Is_true (String.leb p.1 q.1).
#[global] Instance key_le_dec : RelDecision key_le.
Proof. intros p q. unfold key_le. apply _. Defined.

Definition std_map_items (m : gmap string string) : list (string * string) :=
  merge_sort key_le (map_to_list m).

Definition nl : string := String "010"%char "".

Section Initializer.
Context `{C : Collaborators}.

(** ** Small helpers (lines 37-198) *)

(** Modelled from the spec: [GetPropertyAsBool] of a target or of a source
    file is not under src/.  It reads a flag of the property bag:
    [cmSystemTools::IsOn] of the property, false when it is not set. *)
Definition GetPropertyAsBool (props : gmap string string) (key : string)
  : bool :=
  match props !! key with
  | Some v => IsOn v
  | None => false
  end.

Definition GetSafeProperty (target : cmGeneratorTarget) (key : string)
  : string :=
  default "" (Properties target !! key).

(** [makefile->IsOn(key)]: [cmSystemTools::IsOn] of the definition, false
    when there is none. *)
Definition MakefileIsOn (w : World) (key : string) : bool :=
  match GetDefinition w key with
  | Some v => IsOn v
  | None => false
  end.

Definition AutogenMultiConfig (makefile : cmMakefile) : bool :=
  IsMultiConfig makefile.

Definition GetAutogenTargetName (target : cmGeneratorTarget) : string :=
  Name target +:+ "_autogen".

Definition GetAutogenTargetFilesDir (target : cmGeneratorTarget) : string :=
  CurrentBinaryDirectory (Makefile target)
  +:+ CMakeFilesDirectory (Makefile target)
  +:+ "/" +:+ GetAutogenTargetName target +:+ ".dir".

Definition GetAutogenTargetBuildDir (target : cmGeneratorTarget) : string :=
  let targetDir := GetSafeProperty target "AUTOGEN_BUILD_DIR" in
  if decide (targetDir = "")
  then CurrentBinaryDirectory (Makefile target)
       +:+ "/" +:+ GetAutogenTargetName target
  else targetDir.

Definition GetQtMajorVersion (target : cmGeneratorTarget) (w : World)
  : string :=
  let qtMajorVersion := GetSafeDefinition w "QT_VERSION_MAJOR" in
  let qtMajorVersion :=
    if decide (qtMajorVersion = "")
    then GetSafeDefinition w "Qt5Core_VERSION_MAJOR"
    else qtMajorVersion in
  match LinkInterfaceDependentStringProperty target "QT_MAJOR_VERSION" with
  | Some targetQtVersion => targetQtVersion
  | None => qtMajorVersion
  end.

Definition GetQtMinorVersion (target : cmGeneratorTarget) (w : World)
    (qtMajorVersion : string) : string :=
  let qtMinorVersion :=
    if decide (qtMajorVersion = "5")
    then GetSafeDefinition w "Qt5Core_VERSION_MINOR"
    else "" in
  let qtMinorVersion :=
    if decide (qtMinorVersion = "")
    then GetSafeDefinition w "QT_VERSION_MINOR"
    else qtMinorVersion in
  match LinkInterfaceDependentStringProperty target "QT_MINOR_VERSION" with
  | Some targetQtVersion => targetQtVersion
  | None => qtMinorVersion
  end.

Definition QtVersionGreaterOrEqual (major minor : string)
    (requestMajor requestMinor : N) : bool :=
  match StringToULong (c_str major), StringToULong (c_str minor) with
  | Some majorUL, Some minorUL =>
      (requestMajor <? majorUL)%N
      || ((majorUL =? requestMajor)%N && (requestMinor <=? minorUL)%N)
  | _, _ => false
  end.

(** The strings [incs] and [defs] after the call, [defs] being appended
    to. *)
Definition GetCompileDefinitionsAndDirectories (target : cmGeneratorTarget)
    (config : string) (incs defs : string) : string * string :=
  let includeDirs := IncludeDirectories target config in
  let defines := std_set_insert_range (CompileDefinitions target config) [] in
  (cmJoin includeDirs ";", defs +:+ cmJoin defines ";").

(** The vector returned and the string stored through [config]. *)
Definition GetConfigurations (makefile : cmMakefile) : list string * string :=
  let configs := Configurations makefile in
  let cfg := BuildType makefile in
  (if decide (configs = []) then [""] else configs, cfg).

Definition GetConfigurationSuffixes (makefile : cmMakefile) : list string :=
  let suffixes :=
    if AutogenMultiConfig makefile
    then map (fun it => "_" +:+ it) (Configurations makefile)
    else [] in
  if decide (suffixes = []) then [""] else suffixes.

Definition AddDefinitionEscaped (key value : string) : M unit :=
  AddDefinition key (c_str (EscapeForCMake value)).

Definition AddDefinitionEscapedV (key : string) (values : list string)
  : M unit :=
  AddDefinition key (c_str (EscapeForCMake (cmJoin values ";"))).

(** [AddGeneratedSource], as far as the list of sources it registers. *)
Definition AddGeneratedSource (filename : string) (genType : GeneratorType)
  : M unit :=
  modify (fun w =>
    with_GeneratedSources (GeneratedSources w ++ [(filename, genType)]) w).

(** ** SetupAcquireScanFiles (lines 290-369) *)

Definition push_mocSkip (x : string) (s : AutogenSetup) : AutogenSetup :=
  mkSetup (sources s) (headers s) (mocSkip s ++ [x]) (uicSkip s)
          (configSuffix s) (configMocIncludes s) (configMocDefines s)
          (configUicOptions s).
Definition push_uicSkip (x : string) (s : AutogenSetup) : AutogenSetup :=
  mkSetup (sources s) (headers s) (mocSkip s) (uicSkip s ++ [x])
          (configSuffix s) (configMocIncludes s) (configMocDefines s)
          (configUicOptions s).
Definition push_sources (x : string) (s : AutogenSetup) : AutogenSetup :=
  mkSetup (sources s ++ [x]) (headers s) (mocSkip s) (uicSkip s)
          (configSuffix s) (configMocIncludes s) (configMocDefines s)
          (configUicOptions s).
Definition push_headers (x : string) (s : AutogenSetup) : AutogenSetup :=
  mkSetup (sources s) (headers s ++ [x]) (mocSkip s) (uicSkip s)
          (configSuffix s) (configMocIncludes s) (configMocDefines s)
          (configUicOptions s).

(** The body of the loop over [srcFiles]; a [continue] returns the setup
    as it is. *)
Definition SetupAcquireScanFile (target : cmGeneratorTarget)
    (mocEnabled uicEnabled : bool) (setup : AutogenSetup)
    (sf : cmSourceFile) : M AutogenSetup :=
  let CMP0071_status := PolicyCMP0071 (Makefile target) in
  let fPath := FullPath sf in
  let fileType := GetFileFormat (c_str (Extension sf)) in
  if negb (bool_decide (fileType = CXX_FILE_FORMAT))
     && negb (bool_decide (fileType = HEADER_FILE_FORMAT))
  then mret setup
  else
    let absFile := GetRealPath fPath in
    let skipAll := GetPropertyAsBool (SourceProperties sf) "SKIP_AUTOGEN" in
    let mocSkip :=
      skipAll || GetPropertyAsBool (SourceProperties sf) "SKIP_AUTOMOC" in
    let uicSkip :=
      skipAll || GetPropertyAsBool (SourceProperties sf) "SKIP_AUTOUIC" in
    let accept :=
      (mocEnabled && negb mocSkip) || (uicEnabled && negb uicSkip) in
    ignored ←
      (if accept && GetPropertyAsBool (SourceProperties sf) "GENERATED" then
         policyAccept ←
           match CMP0071_status with
           | WARN =>
               IssueMessage
                 (GetPolicyWarningCMP0071 +:+ nl
                  +:+ "AUTOMOC/AUTOUIC: Ignoring GENERATED source file:" +:+ nl
                  +:+ "  " +:+ Quoted absFile +:+ nl);;
               mret false
           | OLD => mret false
           | REQUIRED_IF_USED | REQUIRED_ALWAYS | NEW => mret true
           end;
         mret (negb policyAccept)
       else mret false);
    if ignored : bool then mret setup
    else
      let setup := if mocSkip then push_mocSkip absFile setup else setup in
      let setup := if uicSkip then push_uicSkip absFile setup else setup in
      mret (if accept then
              match fileType with
              | CXX_FILE_FORMAT => push_sources absFile setup
              | HEADER_FILE_FORMAT => push_headers absFile setup
              | OTHER_FILE_FORMAT => setup
              end
            else setup).

Definition SetupAcquireScanFiles (target : cmGeneratorTarget)
    (mocEnabled uicEnabled : bool) (srcFiles : list cmSourceFile)
    (setup : AutogenSetup) : M AutogenSetup :=
  forEach (SetupAcquireScanFile target mocEnabled uicEnabled) srcFiles setup.

(** ** SetupAutoTargetMoc (lines 371-452) *)

Definition set_configMocIncludes (k v : string) (s : AutogenSetup)
  : AutogenSetup :=
  mkSetup (sources s) (headers s) (mocSkip s) (uicSkip s) (configSuffix s)
          (<[k:=v]> (configMocIncludes s)) (configMocDefines s)
          (configUicOptions s).
Definition set_configMocDefines (k v : string) (s : AutogenSetup)
  : AutogenSetup :=
  mkSetup (sources s) (headers s) (mocSkip s) (uicSkip s) (configSuffix s)
          (configMocIncludes s) (<[k:=v]> (configMocDefines s))
          (configUicOptions s).
Definition set_configUicOptions (k v : string) (s : AutogenSetup)
  : AutogenSetup :=
  mkSetup (sources s) (headers s) (mocSkip s) (uicSkip s) (configSuffix s)
          (configMocIncludes s) (configMocDefines s)
          (<[k:=v]> (configUicOptions s)).

(** The body of the loop over [configs] (lines 407-419). *)
Definition MocConfigSettings (target : cmGeneratorTarget)
    (incs compileDefs : string) (setup : AutogenSetup) (li : string)
  : AutogenSetup :=
  let '(configIncs, configCompileDefs) :=
    GetCompileDefinitionsAndDirectories target li "" "" in
  let setup :=
    if decide (configIncs ≠ incs)
    then set_configMocIncludes li configIncs setup else setup in
  if decide (configCompileDefs ≠ compileDefs)
  then set_configMocDefines li configCompileDefs setup else setup.

(** The block "Moc executable" (lines 422-451). *)
Definition MocExecutable (target : cmGeneratorTarget)
    (qtMajorVersion : string) : M unit :=
  let '(mocExec, err) :=
    if decide (qtMajorVersion = "5") then
      match ImportedTargets (Makefile target) !! "Qt5::moc" with
      | Some location => (default "" location, "")
      | None => ("", "AUTOMOC: Qt5::moc target not found")
      end
    else if decide (qtMajorVersion = "4") then
      match ImportedTargets (Makefile target) !! "Qt4::moc" with
      | Some location => (default "" location, "")
      | None => ("", "AUTOMOC: Qt4::moc target not found")
      end
    else ("", "The AUTOMOC feature supports only Qt 4 and Qt 5") in
  if decide (err = "")
  then AddDefinitionEscaped "_qt_moc_executable" mocExec
  else Error (c_str (err +:+ " (" +:+ Name target +:+ ")")).

Definition SetupAutoTargetMoc (target : cmGeneratorTarget)
    (qtMajorVersion config : string) (configs : list string)
    (setup : AutogenSetup) : M AutogenSetup :=
  AddDefinitionEscapedV "_moc_skip" (mocSkip setup);;
  AddDefinitionEscaped "_moc_options"
    (GetSafeProperty target "AUTOMOC_MOC_OPTIONS");;
  relaxed ← gets (fun w => MakefileIsOn w "CMAKE_AUTOMOC_RELAXED_MODE");
  AddDefinitionEscaped "_moc_relaxed_mode"
    (if relaxed : bool then "TRUE" else "FALSE");;
  AddDefinitionEscaped "_moc_macro_names"
    (GetSafeProperty target "AUTOMOC_MACRO_NAMES");;
  AddDefinitionEscaped "_moc_depend_filters"
    (GetSafeProperty target "AUTOMOC_DEPEND_FILTERS");;
  qtMinorVersion ← gets (fun w => GetQtMinorVersion target w qtMajorVersion);
  (if QtVersionGreaterOrEqual qtMajorVersion qtMinorVersion 5 8 then
     predefs ← gets (fun w =>
       GetSafeDefinition w "CMAKE_CXX_COMPILER_PREDEFINES_COMMAND");
     AddDefinitionEscaped "_moc_predefs_cmd" predefs
   else mret tt);;
  let '(incs, compileDefs) :=
    GetCompileDefinitionsAndDirectories target config "" "" in
  AddDefinitionEscaped "_moc_incs" incs;;
  AddDefinitionEscaped "_moc_compile_defs" compileDefs;;
  let setup := fold_left (MocConfigSettings target incs compileDefs)
                         configs setup in
  MocExecutable target qtMajorVersion;;
  mret setup.

(** ** SetupAutoTargetUic (lines 454-568) *)

Definition UicGetOpts (target : cmGeneratorTarget) (config : string)
  : string :=
  cmJoin (AutoUicOptions target config) ";".

(** The body of the loop over [configs] (lines 497-504). *)
Definition UicConfigSettings (target : cmGeneratorTarget) (uicOpts : string)
    (setup : AutogenSetup) (li : string) : AutogenSetup :=
  let configUicOpts := UicGetOpts target li in
  if decide (configUicOpts ≠ uicOpts)
  then set_configUicOptions li configUicOpts setup else setup.

(** The body of the loop over the .ui files with options (lines 516-532),
    on the pair of vectors [uiFileFiles], [uiFileOptions]. *)
Definition UicFileOptions (skipped : list string)
    (acc : list string * list string) (sf : cmSourceFile)
  : M (list string * list string) :=
  let absFile := GetRealPath (FullPath sf) in
  if bool_decide (absFile ∉ skipped) then
    opts ← lift (match SourceProperties sf !! "AUTOUIC_OPTIONS" with
                  | Some p => Done p
                  | None => Fail NullPointer
                  end);
    let opts := ReplaceString opts ";" listSep in
    mret (acc.1 ++ [absFile], acc.2 ++ [opts])
  else mret acc.

(** The block "Uic executable" (lines 538-567). *)
Definition UicExecutable (target : cmGeneratorTarget)
    (qtMajorVersion : string) : M unit :=
  let '(uicExec, err) :=
    if decide (qtMajorVersion = "5") then
      match ImportedTargets (Makefile target) !! "Qt5::uic" with
      | Some location => (default "" location, "")
      | None => ("", "")
      end
    else if decide (qtMajorVersion = "4") then
      match ImportedTargets (Makefile target) !! "Qt4::uic" with
      | Some location => (default "" location, "")
      | None => ("", "AUTOUIC: Qt4::uic target not found")
      end
    else ("", "The AUTOUIC feature supports only Qt 4 and Qt 5") in
  if decide (err = "")
  then AddDefinitionEscaped "_qt_uic_executable" uicExec
  else Error (c_str (err +:+ " (" +:+ Name target +:+ ")")).

Definition SetupAutoTargetUic (target : cmGeneratorTarget)
    (qtMajorVersion config : string) (configs : list string)
    (setup : AutogenSetup) : M AutogenSetup :=
  let makefile := Makefile target in
  AddDefinitionEscapedV "_uic_skip" (uicSkip setup);;
  let uicSearchPaths :=
    let usp := GetSafeProperty target "AUTOUIC_SEARCH_PATHS" in
    if decide (usp ≠ "")
    then map (fun it => CollapseFullPath it (CurrentSourceDirectory makefile))
             (ExpandListArgument usp)
    else [] in
  AddDefinitionEscapedV "_uic_search_paths" uicSearchPaths;;
  let uicOpts := UicGetOpts target config in
  AddDefinitionEscaped "_uic_target_options" uicOpts;;
  let setup := fold_left (UicConfigSettings target uicOpts) configs setup in
  let skipped := std_set_of (uicSkip setup) in
  '(uiFileFiles, uiFileOptions) ←
    forEach (UicFileOptions skipped) (QtUiFilesWithOptions makefile) ([], []);
  AddDefinitionEscapedV "_qt_uic_options_files" uiFileFiles;;
  AddDefinitionEscapedV "_qt_uic_options_options" uiFileOptions;;
  UicExecutable target qtMajorVersion;;
  mret setup.

(** ** The resource compiler (lines 570-707) *)

Definition RccGetExecutable (target : cmGeneratorTarget)
    (qtMajorVersion : string) : M string :=
  let '(rccExec, err) :=
    if decide (qtMajorVersion = "5") then
      match ImportedTargets (Makefile target) !! "Qt5::rcc" with
      | Some location => (default "" location, "")
      | None => ("", "AUTORCC: Qt5::rcc target not found")
      end
    else if decide (qtMajorVersion = "4") then
      match ImportedTargets (Makefile target) !! "Qt4::rcc" with
      | Some location => (default "" location, "")
      | None => ("", "AUTORCC: Qt4::rcc target not found")
      end
    else ("", "The AUTORCC feature supports only Qt 4 and Qt 5") in
  (if decide (err ≠ "")
   then Error (c_str (err +:+ " (" +:+ Name target +:+ ")"))
   else mret tt);;
  mret rccExec.

Record RccLists : Type := mkRccLists {
  rccFiles : list string;
  rccInputs : list string;
  rccFileFiles : list string;
  rccFileOptions : list string
}.

(** The body of the loop over [srcFiles] (lines 655-700). *)
Definition RccFile (qtMajorVersion rccCommand : string)
    (rccOptionsTarget : list string) (acc : RccLists) (sf : cmSourceFile)
  : M RccLists :=
  let qtMajorVersion5 := bool_decide (qtMajorVersion = "5") in
  let fPath := FullPath sf in
  if bool_decide (Extension sf = "qrc")
     && negb (GetPropertyAsBool (SourceProperties sf) "SKIP_AUTOGEN")
     && negb (GetPropertyAsBool (SourceProperties sf) "SKIP_AUTORCC")
  then
    let absFile := GetRealPath fPath in
    entries ←
      (if negb (GetPropertyAsBool (SourceProperties sf) "GENERATED") then
         match RccListInputs qtMajorVersion rccCommand absFile with
         | inl files => mret (cmJoin files listSep)
         | inr error => Error (c_str error);; mret ""
         end
       else mret "");
    let entriesList := "{" +:+ entries +:+ "}" in
    rccOptions ←
      match SourceProperties sf !! "AUTORCC_OPTIONS" with
      | Some prop =>
          lift (RccMergeOptions qtMajorVersion5 rccOptionsTarget
                                (ExpandListArgument prop))
      | None => mret rccOptionsTarget
      end;
    mret (if decide (rccOptions ≠ [])
          then mkRccLists (rccFiles acc ++ [absFile])
                          (rccInputs acc ++ [entriesList])
                          (rccFileFiles acc ++ [absFile])
                          (rccFileOptions acc ++ [cmJoin rccOptions listSep])
          else mkRccLists (rccFiles acc ++ [absFile])
                          (rccInputs acc ++ [entriesList])
                          (rccFileFiles acc) (rccFileOptions acc))
  else mret acc.

(** The local vectors when the loop of [SetupAutoTargetRcc] is over. *)
Definition SetupAutoTargetRccLists (target : cmGeneratorTarget)
    (qtMajorVersion : string) (srcFiles : list cmSourceFile)
  : M (string * RccLists) :=
  rccCommand ← RccGetExecutable target qtMajorVersion;
  let rccOptionsTarget :=
    ExpandListArgument (GetSafeProperty target "AUTORCC_OPTIONS") in
  lists ← forEach (RccFile qtMajorVersion rccCommand rccOptionsTarget)
                  srcFiles (mkRccLists [] [] [] []);
  mret (rccCommand, lists).

Definition SetupAutoTargetRcc (target : cmGeneratorTarget)
    (qtMajorVersion : string) (srcFiles : list cmSourceFile) : M unit :=
  '(rccCommand, lists) ← SetupAutoTargetRccLists target qtMajorVersion srcFiles;
  AddDefinitionEscaped "_qt_rcc_executable" rccCommand;;
  AddDefinitionEscapedV "_rcc_files" (rccFiles lists);;
  AddDefinitionEscapedV "_rcc_inputs" (rccInputs lists);;
  AddDefinitionEscapedV "_rcc_options_files" (rccFileFiles lists);;
  AddDefinitionEscapedV "_rcc_options_options" (rccFileOptions lists).

(** ** InitializeAutogenTarget (lines 709-1003)

    Of this function the composition of the target comment and the
    computation of the dependencies and of the provided files are embedded;
    the registration of clean files, include directories and of the utility
    target itself is left out. *)

Definition toolNamesOf (mocEnabled uicEnabled rccEnabled : bool)
  : list string :=
  let toolNames := [] in
  let toolNames := if mocEnabled then toolNames ++ ["MOC"] else toolNames in
  let toolNames := if uicEnabled then toolNames ++ ["UIC"] else toolNames in
  if rccEnabled then toolNames ++ ["RCC"] else toolNames.

(** [v.erase(v.begin())]. *)
Definition erase_begin (v : list string) : Access (list string) :=
  match v with
  | [] => Fail OutOfRange
  | _ :: r => Done r
  end.

(** The loop [while (toolNames.size() > 1)] of lines 768-771. *)
Fixpoint commentLoop (tools : string) (toolNames : list string)
  : string * list string :=
  match toolNames with
  | x :: ((_ :: _) as r) => commentLoop (tools +:+ ", " +:+ x) r
  | _ => (tools, toolNames)
  end.

(** The block "Compose target comment" (lines 752-776). *)
Definition AutogenComment (mocEnabled uicEnabled rccEnabled : bool)
    (target : cmGeneratorTarget) : Access string :=
  let toolNames := toolNamesOf mocEnabled uicEnabled rccEnabled in
  tools ← deref toolNames 0;
  toolNames ← erase_begin toolNames;
  let '(tools, toolNames) := commentLoop tools toolNames in
  let tools :=
    match toolNames with
    | [x] => tools +:+ " and " +:+ x
    | _ => tools
    end in
  mret ("Automatic " +:+ tools +:+ " for target " +:+ Name target).

(** Lines 806-837: the user defined dependencies, then the utility and the
    link library names that are targets. *)
Definition TargetDepends (target : cmGeneratorTarget) : list string :=
  let makefile := Makefile target in
  let deps := GetSafeProperty target "AUTOGEN_TARGET_DEPENDS" in
  let autogenDependsSet :=
    if decide (deps ≠ "")
    then std_set_insert_range (ExpandListArgument deps) []
    else [] in
  let insertTarget := fun (s : list string) (name : string) =>
    if KnownTargets makefile name then std_set_insert name s else s in
  let autogenDependsSet :=
    fold_left insertTarget (std_set_of (Utilities target))
              autogenDependsSet in
  fold_left insertTarget (OriginalLinkLibraries target) autogenDependsSet.

(** The body of the loop of lines 846-877, on the pair of vectors
    [generatedSources], [qrcSources]. *)
Definition ExtractSource (mocEnabled uicEnabled rccEnabled : bool)
    (acc : list string * list (string * bool)) (sf : cmSourceFile)
  : list string * list (string * bool) :=
  let props := SourceProperties sf in
  if GetPropertyAsBool props "SKIP_AUTOGEN" then acc
  else
    let fPath := FullPath sf in
    let ext := Extension sf in
    let generatedSources :=
      if (mocEnabled || uicEnabled)
         && (bool_decide (GetFileFormat (c_str ext) = CXX_FILE_FORMAT)
             || bool_decide (GetFileFormat (c_str ext) = HEADER_FILE_FORMAT))
         && GetPropertyAsBool props "GENERATED"
         && ((mocEnabled && negb (GetPropertyAsBool props "SKIP_AUTOMOC"))
             || (uicEnabled && negb (GetPropertyAsBool props "SKIP_AUTOUIC")))
      then acc.1 ++ [GetRealPath fPath]
      else acc.1 in
    let qrcSources :=
      if rccEnabled && bool_decide (ext = "qrc")
         && negb (GetPropertyAsBool props "SKIP_AUTORCC")
      then acc.2 ++ [(GetRealPath fPath, GetPropertyAsBool props "GENERATED")]
      else acc.2 in
    (generatedSources, qrcSources).

(** Modelled from the spec: [cmMakefile::AddCMakeDependFile] is not under
    src/.  It registers a file whose change triggers a reconfiguration. *)
Definition AddCMakeDependFile (file : string) : M unit :=
  modify (fun w => with_CMakeDependFiles (CMakeDependFiles w ++ [file]) w).

(** The body of the loop over [qrcSources] (lines 899-935), on the pair
    [autogenDependsSet], [autogenProvides]. *)
Definition QrcSource (autogenBuildDir qtMajorVersion rccCommand : string)
    (acc : list string * list string) (it : string * bool)
  : M (list string * list string) :=
  let absFile := it.1 in
  let rccBuildFile :=
    autogenBuildDir +:+ "/" +:+ fpathCheckSum_getPart absFile +:+ "/qrc_"
    +:+ GetFilenameWithoutLastExtension absFile +:+ ".cpp" in
  AddGeneratedSource rccBuildFile RCC;;
  let autogenProvides := acc.2 ++ [rccBuildFile] in
  if it.2 then
    mret (std_set_insert absFile acc.1, autogenProvides)
  else
    AddCMakeDependFile absFile;;
    match RccListInputs qtMajorVersion rccCommand absFile with
    | inl extraDepends =>
        mret (std_set_insert_range extraDepends acc.1, autogenProvides)
    | inr error => Error (c_str error);; mret (acc.1, autogenProvides)
    end.

(** The block of lines 893-936. *)
Definition QrcSources (target : cmGeneratorTarget)
    (qrcSources : list (string * bool)) (acc : list string * list string)
  : M (list string * list string) :=
  if decide (qrcSources ≠ []) then
    qtMajorVersion ← gets (GetQtMajorVersion target);
    rccCommand ← RccGetExecutable target qtMajorVersion;
    forEach (QrcSource (GetAutogenTargetBuildDir target) qtMajorVersion
                       rccCommand)
            qrcSources acc
  else mret acc.

(** The vectors [autogenDepends] and [autogenProvides] of line 939. *)
Definition AutogenDependsProvides (target : cmGeneratorTarget)
  : M (list string * list string) :=
  let mocEnabled := GetPropertyAsBool (Properties target) "AUTOMOC" in
  let uicEnabled := GetPropertyAsBool (Properties target) "AUTOUIC" in
  let rccEnabled := GetPropertyAsBool (Properties target) "AUTORCC" in
  let autogenBuildDir := GetAutogenTargetBuildDir target in
  autogenProvides ←
    (if mocEnabled then
       let mocsComp := autogenBuildDir +:+ "/mocs_compilation.cpp" in
       AddGeneratedSource mocsComp MOC;;
       mret [mocsComp]
     else mret []);
  let autogenDependsSet := TargetDepends target in
  let '(generatedSources, qrcSources) :=
    fold_left (ExtractSource mocEnabled uicEnabled rccEnabled)
              (ConfigCommonSourceFiles target) ([], []) in
  let autogenDependsSet :=
    std_set_insert_range generatedSources autogenDependsSet in
  QrcSources target qrcSources (autogenDependsSet, autogenProvides).

(** What [InitializeAutogenTarget] hands to the utility command (or to
    the pre-build command) it adds: the comment, the dependencies and the
    files provided. *)
Definition InitializeAutogenTarget (target : cmGeneratorTarget)
  : M (string * list string * list string) :=
  let mocEnabled := GetPropertyAsBool (Properties target) "AUTOMOC" in
  let uicEnabled := GetPropertyAsBool (Properties target) "AUTOUIC" in
  let rccEnabled := GetPropertyAsBool (Properties target) "AUTORCC" in
  autogenComment ←
    lift (AutogenComment mocEnabled uicEnabled rccEnabled target);
  '(autogenDepends, autogenProvides) ← AutogenDependsProvides target;
  mret (autogenComment, autogenDepends, autogenProvides).

(** ** SetupAutoGenerateTarget (lines 1005-1125) *)

(** Modelled from the spec: [cmMakefile::ConfigureFile] is not under src/.
    The descriptor is written from the template: the output file gets the
    text of the input file with the visible definitions substituted, and
    its mode bits; nothing is written when the template is missing. *)
Definition ConfigureFile (infile outfile : string) : M unit :=
  modify (fun w =>
    match Files w !! infile with
    | Some text =>
        with_Permissions
          (match Permissions w !! infile with
           | Some perm => <[outfile:=perm]> (Permissions w)
           | None => Permissions w
           end)
          (with_Files
             (<[outfile:=ConfigureString (GetDefinition w) text]> (Files w))
             w)
    | None => w
    end).

Definition mode_write : N := 128.  (* S_IWUSR *)

(** Lines 1074-1083: make the file writable when it exists and is not. *)
Definition EnsureWritable (infoFile : string) : M unit :=
  modify (fun w =>
    let perm := default 0%N (Permissions w !! infoFile) in
    if (N.land perm mode_write =? 0)%N then
      match Files w !! infoFile with
      | Some _ =>
          with_Permissions (<[infoFile:=N.lor perm mode_write]> (Permissions w))
                           w
      | None => w
      end
    else w).

(** The lines [set(<key>_<config> <value>)] of one map. *)
Definition setLines (key : string) (m : gmap string string) : string :=
  fold_right
    (fun it acc =>
       "set(" +:+ key +:+ it.1 +:+ " " +:+ EscapeForCMake it.2 +:+ ")"
       +:+ nl +:+ acc)
    "" (std_map_items m).

(** Text sent to an output stream opened for appending. *)
Definition AppendToFile (file text : string) : M unit :=
  modify (fun w =>
    with_Files (<[file:=default "" (Files w !! file) +:+ text]> (Files w)) w).

Definition SetupAutoGenerateTarget (target : cmGeneratorTarget) : M unit :=
  let makefile := Makefile target in
  ScopePushPop (
  let '(configs, config) := GetConfigurations makefile in
  let configSuffix : gmap string string :=
    if AutogenMultiConfig makefile
    then fold_left (fun m it => <[it:="_" +:+ it]> m) configs ∅
    else ∅ in
  let setup := emptySetup in
  let mocEnabled := GetPropertyAsBool (Properties target) "AUTOMOC" in
  let uicEnabled := GetPropertyAsBool (Properties target) "AUTOUIC" in
  let rccEnabled := GetPropertyAsBool (Properties target) "AUTORCC" in
  qtMajorVersion ← gets (GetQtMajorVersion target);
  let srcFiles := ConfigCommonSourceFiles target in
  setup ←
    (if mocEnabled || uicEnabled then
       setup ← SetupAcquireScanFiles target mocEnabled uicEnabled srcFiles
                                     setup;
       setup ← (if mocEnabled
                then SetupAutoTargetMoc target qtMajorVersion config configs
                                        setup
                else mret setup);
       if uicEnabled
       then SetupAutoTargetUic target qtMajorVersion config configs setup
       else mret setup
     else mret setup);
  (if rccEnabled
   then SetupAutoTargetRcc target qtMajorVersion srcFiles
   else mret tt);;
  AddDefinitionEscaped "_build_dir" (GetAutogenTargetBuildDir target);;
  AddDefinitionEscaped "_qt_version_major" qtMajorVersion;;
  AddDefinitionEscapedV "_sources" (sources setup);;
  AddDefinitionEscapedV "_headers" (headers setup);;
  let infoFile := GetAutogenTargetFilesDir target +:+ "/AutogenInfo.cmake" in
  ConfigureFile (GetCMakeRoot +:+ "/Modules/AutogenInfo.cmake.in") infoFile;;
  (if bool_decide (configSuffix ≠ ∅)
      || bool_decide (configMocDefines setup ≠ ∅)
      || bool_decide (configMocIncludes setup ≠ ∅)
      || bool_decide (configUicOptions setup ≠ ∅)
   then
     EnsureWritable infoFile;;
     if OpenForAppend makefile infoFile then
       AppendToFile infoFile
         ("# Configuration specific options" +:+ nl
          +:+ setLines "AM_CONFIG_SUFFIX_" configSuffix
          +:+ setLines "AM_MOC_DEFINITIONS_" (configMocDefines setup)
          +:+ setLines "AM_MOC_INCLUDES_" (configMocIncludes setup)
          +:+ setLines "AM_UIC_TARGET_OPTIONS_" (configUicOptions setup))
     else
       Error (c_str ("Internal CMake error when trying to open file: "
                     +:+ Quoted infoFile +:+ " for writing."))
   else mret tt)).

End Initializer.

(** * Notions used in the statements *)

(** A list grows by a sublist of [paths]. *)
Definition grows (paths : list string) (before after : list string) : Prop :=
  ∃ l, after = before ++ l ∧ l `sublist_of` paths.

Definition setup_grows (paths : list string) (s s' : AutogenSetup) : Prop :=
  grows paths (sources s) (sources s')
  ∧ grows paths (headers s) (headers s')
  ∧ grows paths (mocSkip s) (mocSkip s')
  ∧ grows paths (uicSkip s) (uicSkip s').

(** The order of [std::string]. *)
Definition slt (x y : string) : Prop := String.compare x y = Lt.

(** The character [c] occurs in [s]. *)
Fixpoint has_char (c : ascii) (s : string) : bool :=
  match s with
  | EmptyString => false
  | String d r => bool_decide (d = c) || has_char c r
  end.

(** A computation ends without a failed access, in a state related to the
    one it started from. *)
Definition succeeds {A : Type} (R : World → World → Prop) (m : M A) : Prop :=
  ∀ w, ∃ a w', m w = Done (a, w') ∧ R w w'.

(** What stays when definitions are added and the file [infoFile] is
    written: the enclosing scopes and every other file; and no file goes
    away. *)
Definition scoped (infoFile : string) (w w' : World) : Prop :=
  ParentScopes w' = ParentScopes w
  ∧ (∀ f, f ≠ infoFile → Files w' !! f = Files w !! f)
  ∧ (∀ f, is_Some (Files w !! f) → is_Some (Files w' !! f)).

(** The same, and [infoFile] is there when [template] was. *)
Definition written (template infoFile : string) (w w' : World) : Prop :=
  scoped infoFile w w'
  ∧ (is_Some (Files w !! template) → is_Some (Files w' !! infoFile)).

(** A source file that [InitializeAutogenTarget] registers as a resource
    file of the target (lines 849-876). *)
Definition qrcEligible `{C : Collaborators} (rccEnabled : bool)
    (sf : cmSourceFile) : bool :=
  negb (GetPropertyAsBool (SourceProperties sf) "SKIP_AUTOGEN")
  && rccEnabled
  && bool_decide (Extension sf = "qrc")
  && negb (GetPropertyAsBool (SourceProperties sf) "SKIP_AUTORCC").

(** The registered pair of a source file: canonical path, generated. *)
Definition qrcSourceOf `{C : Collaborators} (sf : cmSourceFile)
  : string * bool :=
  (GetRealPath (FullPath sf),
   GetPropertyAsBool (SourceProperties sf) "GENERATED").

(** The dependency [x] comes from the resource file [it]: its own path
    when it is generated, one of its listed inputs when it is not. *)
Definition qrcContributes `{C : Collaborators} (qtMajorVersion cmd : string)
    (it : string * bool) (x : string) : Prop :=
  if it.2 then x = it.1
  else ∃ files, RccListInputs qtMajorVersion cmd it.1 = inl files ∧ x ∈ files.

(** Every .ui file registered with options has the property. *)
Definition UiFilesHaveOptions (makefile : cmMakefile) : Prop :=
  Forall (fun sf => is_Some (SourceProperties sf !! "AUTOUIC_OPTIONS"))
         (QtUiFilesWithOptions makefile).

(** ** Notions of the further properties *)

(** The state of the merge loop against the lists it started from. *)
Definition merge_inv (opts0 fileOpts : list string) (st : MergeState)
  : Prop :=
  length (opts st) = length opts0
  ∧ opts st !! 0 = opts0 !! 0
  ∧ (∀ i x, opts st !! i = Some x → opts0 !! i = Some x ∨ x ∈ fileOpts)
  ∧ extraOpts st `sublist_of` take (fit st) fileOpts
  ∧ (∀ x, x ∈ extraOpts st → x ∉ opts0 ∨ x ∈ fileOpts)
  ∧ fit st ≤ length fileOpts.

Section ScanNotions.
Context `{C : Collaborators}.

(** The tests [SetupAcquireScanFiles] makes on a source file. *)
Definition scanFormat (sf : cmSourceFile) : FileFormat :=
  GetFileFormat (c_str (Extension sf)).
Definition scanMocSkip (sf : cmSourceFile) : bool :=
  GetPropertyAsBool (SourceProperties sf) "SKIP_AUTOGEN"
  || GetPropertyAsBool (SourceProperties sf) "SKIP_AUTOMOC".
Definition scanUicSkip (sf : cmSourceFile) : bool :=
  GetPropertyAsBool (SourceProperties sf) "SKIP_AUTOGEN"
  || GetPropertyAsBool (SourceProperties sf) "SKIP_AUTOUIC".
Definition scanAccept (mocEnabled uicEnabled : bool) (sf : cmSourceFile)
  : bool :=
  (mocEnabled && negb (scanMocSkip sf)) || (uicEnabled && negb (scanUicSkip sf)).

(** An accepted generated file that the policy makes the scan pass over. *)
Definition scanIgnored (policy : PolicyStatus) (mocEnabled uicEnabled : bool)
    (sf : cmSourceFile) : bool :=
  scanAccept mocEnabled uicEnabled sf
  && GetPropertyAsBool (SourceProperties sf) "GENERATED"
  && (bool_decide (policy = OLD) || bool_decide (policy = WARN)).

(** A file of format [fmt] that is accepted and not passed over. *)
Definition scanListed (fmt : FileFormat) (policy : PolicyStatus)
    (mocEnabled uicEnabled : bool) (sf : cmSourceFile) : bool :=
  bool_decide (scanFormat sf = fmt)
  && scanAccept mocEnabled uicEnabled sf
  && negb (scanIgnored policy mocEnabled uicEnabled sf).

(** A source or header file with the skip flag [flag] that is not passed
    over. *)
Definition scanSkipped (flag : cmSourceFile → bool) (policy : PolicyStatus)
    (mocEnabled uicEnabled : bool) (sf : cmSourceFile) : bool :=
  negb (bool_decide (scanFormat sf = OTHER_FILE_FORMAT))
  && flag sf
  && negb (scanIgnored policy mocEnabled uicEnabled sf).

(** The warning for a generated file that is passed over. *)
Definition scanWarning (sf : cmSourceFile) : string :=
  GetPolicyWarningCMP0071 +:+ nl
  +:+ "AUTOMOC/AUTOUIC: Ignoring GENERATED source file:" +:+ nl
  +:+ "  " +:+ Quoted (GetRealPath (FullPath sf)) +:+ nl.

(** A source file without its GENERATED property. *)
Definition clearGenerated (sf : cmSourceFile) : cmSourceFile :=
  mkSourceFile (FullPath sf) (Extension sf)
               (delete "GENERATED" (SourceProperties sf)).

(** The canonical path of a source file. *)
Definition realPathOf (sf : cmSourceFile) : string :=
  GetRealPath (FullPath sf).

(** A file the scan passes over with a warning. *)
Definition scanWarned (policy : PolicyStatus) (mocEnabled uicEnabled : bool)
    (sf : cmSourceFile) : bool :=
  scanIgnored policy mocEnabled uicEnabled sf
  && bool_decide (policy = WARN)
  && negb (bool_decide (scanFormat sf = OTHER_FILE_FORMAT)).

End ScanNotions.

(** The state after the messages [msgs] have been issued. *)
Definition addMessages (msgs : list string) (w : World) : World :=
  match msgs with
  | [] => w
  | _ => with_Messages (Messages w ++ msgs) w
  end.

(** The output file of rcc for a resource file (lines 906-911). *)
Definition rccBuildFileOf `{C : Collaborators} (autogenBuildDir : string)
    (absFile : string) : string :=
  autogenBuildDir +:+ "/" +:+ fpathCheckSum_getPart absFile +:+ "/qrc_"
  +:+ GetFilenameWithoutLastExtension absFile +:+ ".cpp".

(** The error reported for a registered resource file: the one of the
    listing of its inputs, which is run for a file that is not generated. *)
Definition qrcListError `{C : Collaborators} (qtMajorVersion cmd : string)
    (it : string * bool) : option string :=
  if it.2 then None
  else match RccListInputs qtMajorVersion cmd it.1 with
       | inl _ => None
       | inr error => Some (c_str error)
       end.

(** What a computation leaves alone when it only reports errors, registers
    generated sources and files that make CMake run again. *)
Definition registers (w w' : World) : Prop :=
  CurrentScope w' = CurrentScope w
  ∧ ParentScopes w' = ParentScopes w
  ∧ Messages w' = Messages w
  ∧ Files w' = Files w
  ∧ Permissions w' = Permissions w.



(** The options entry of a .ui file (lines 526-529). *)
Definition uiOptionsOf `{C : Collaborators} (sf : cmSourceFile) : string :=
  ReplaceString (default "" (SourceProperties sf !! "AUTOUIC_OPTIONS"))
                ";" listSep.

(** What stays when a descriptor is set up: the diagnostics reported
    before, the registered files, and the mode bits of every file but
    [infoFile]. *)
Definition reports (infoFile : string) (w w' : World) : Prop :=
  ErrorLog w `prefix_of` ErrorLog w'
  ∧ Messages w `prefix_of` Messages w'
  ∧ CMakeDependFiles w' = CMakeDependFiles w
  ∧ GeneratedSources w' = GeneratedSources w
  ∧ (∀ f, f ≠ infoFile → Permissions w' !! f = Permissions w !! f).

(** * A concrete project, for running the functions

    Simple stand-ins for the collaborators, a makefile, a target and a
    state to start from. *)

Module Demo.

Definition quote : string := String "034"%char "".

Definition FileFormatOf (ext : string) : FileFormat :=
  if bool_decide (ext ∈ ["cpp"; "cxx"; "cc"])
  then CXX_FILE_FORMAT
  else if bool_decide (ext ∈ ["h"; "hpp"; "hxx"])
       then HEADER_FILE_FORMAT
       else OTHER_FILE_FORMAT.

Fixpoint parseDigits (acc : N) (s : string) : option N :=
  match s with
  | EmptyString => Some acc
  | String c r =>
      let n := N_of_ascii c in
      if ((48 <=? n) && (n <=? 57))%N
      then parseDigits (acc * 10 + (n - 48))%N r
      else None
  end.

(** Elements separated by [;], empty ones dropped. *)
Fixpoint splitList (cur : string) (s : string) : list string :=
  match s with
  | EmptyString => if decide (cur = "") then [] else [cur]
  | String c r =>
      if decide (c = ";"%char)
      then (if decide (cur = "") then [] else [cur]) ++ splitList "" r
      else splitList (cur +:+ String c "") r
  end.

Fixpoint replaceChar (c : ascii) (to : string) (s : string) : string :=
  match s with
  | EmptyString => ""
  | String d r =>
      (if decide (d = c) then to else String d "") +:+ replaceChar c to r
  end.

(** [@VAR@] substitution; [name] holds the variable name being read. *)
Fixpoint substitute (lookup : string → option string)
    (name : option string) (s : string) : string :=
  match s with
  | EmptyString =>
      match name with Some n => "@" +:+ n | None => "" end
  | String c r =>
      if decide (c = "@"%char) then
        match name with
        | None => substitute lookup (Some "") r
        | Some n => default "" (lookup n) +:+ substitute lookup None r
        end
      else
        match name with
        | None => String c (substitute lookup None r)
        | Some n => substitute lookup (Some (n +:+ String c "")) r
        end
  end.

#[local] Instance collaborators : Collaborators := {|
  GetRealPath := fun p =>
    if decide (p = "/src/link.cpp") then "/src/a.cpp" else p;
  GetFileFormat := FileFormatOf;
  IsOn := fun v => bool_decide (v ∈ ["1"; "ON"; "YES"; "TRUE"; "Y"]);
  StringToULong := fun s =>
    if decide (s = "") then None else parseDigits 0 s;
  ExpandListArgument := splitList "";
  CollapseFullPath := fun p base =>
    match p with
    | String "/" _ => p
    | _ => base +:+ "/" +:+ p
    end;
  ReplaceString := fun s from to =>
    match from with
    | String c EmptyString => replaceChar c to s
    | _ => s
    end;
  GetFilenameWithoutLastExtension := fun p => p;
  GetCMakeRoot := "/usr/share/cmake";
  GetCMakeCommand := "/usr/bin/cmake";
  EscapeForCMake := fun s => quote +:+ s +:+ quote;
  GetPolicyWarningCMP0071 := "Policy CMP0071 is not set.";
  Quoted := fun s => quote +:+ s +:+ quote;
  listSep := "@LSEP@";
  RccListInputs := fun _ _ file =>
    if decide (file = "/src/res.qrc")
    then inl ["/src/icon.png"; "/src/logo.svg"]
    else inr ("rcc list process failed for " +:+ file);
  fpathCheckSum_getPart := fun _ => "EWIEGA46WW";
  ConfigureString := fun lookup text => substitute lookup None text
|}.

Definition on : gmap string string → string → gmap string string :=
  fun props key => <[key:="ON"]> props.

Definition a_cpp : cmSourceFile := mkSourceFile "/src/a.cpp" "cpp" ∅.
Definition a_h : cmSourceFile := mkSourceFile "/src/a.h" "h" ∅.
Definition link_cpp : cmSourceFile := mkSourceFile "/src/link.cpp" "cpp" ∅.
Definition gen_cpp : cmSourceFile :=
  mkSourceFile "/build/gen.cpp" "cpp" (on (on ∅ "GENERATED") "SKIP_AUTOMOC").
Definition res_qrc : cmSourceFile :=
  mkSourceFile "/src/res.qrc" "qrc"
               {[ "AUTORCC_OPTIONS" := "--name;res;--root;/r" ]}.
Definition gen_qrc : cmSourceFile :=
  mkSourceFile "/build/gen.qrc" "qrc" (on ∅ "GENERATED").
Definition form_ui : cmSourceFile :=
  mkSourceFile "/src/form.ui" "ui" {[ "AUTOUIC_OPTIONS" := "-tr;tr2" ]}.

Definition makefile (policy : PolicyStatus)
    (imported : gmap string (option string)) : cmMakefile := {|
  CurrentBinaryDirectory := "/build";
  CurrentSourceDirectory := "/src";
  CMakeFilesDirectory := "/CMakeFiles";
  Configurations := ["Debug"; "Release"];
  BuildType := "";
  IsMultiConfig := true;
  PolicyCMP0071 := policy;
  ImportedTargets := imported;
  KnownTargets := fun n => bool_decide (n ∈ ["Qt5::Core"; "gen_headers"]);
  QtUiFilesWithOptions := [form_ui];
  OpenForAppend := fun _ => true
|}.

Definition qt5tools : gmap string (option string) :=
  {[ "Qt5::moc" := Some "/usr/bin/moc"; "Qt5::rcc" := Some "/usr/bin/rcc" ]}.

Definition target (mk : cmMakefile) (srcFiles : list cmSourceFile)
    (incs defs : string → list string) : cmGeneratorTarget := {|
  Name := "app";
  Properties :=
    <["AUTORCC_OPTIONS":="--name;app;--verbose"]>
      (on (on (on ∅ "AUTOMOC") "AUTOUIC") "AUTORCC");
  Makefile := mk;
  ConfigCommonSourceFiles := srcFiles;
  IncludeDirectories := incs;
  CompileDefinitions := defs;
  AutoUicOptions := fun _ => [];
  LinkInterfaceDependentStringProperty := fun _ => None;
  Utilities := ["gen_headers"];
  OriginalLinkLibraries := ["Qt5::Core"; "m"]
|}.

Definition incs (config : string) : list string :=
  if decide (config = "Debug") then ["/src"; "/build/debug"] else ["/src"].
Definition defs (config : string) : list string :=
  if decide (config = "Debug") then ["DEBUG"; "APP"] else ["APP"].

(** The same lists in another order for the configuration Debug; one
    include directory has the separator in its name. *)
Definition incsReordered (config : string) : list string :=
  if decide (config = "Debug") then ["/a;/a"; "/a"] else ["/a"; "/a;/a"].
Definition defsReordered (config : string) : list string :=
  if decide (config = "Debug") then ["B"; "A"] else ["A"; "B"].

Definition app : cmGeneratorTarget :=
  target (makefile OLD qt5tools) [a_cpp; a_h; gen_cpp; res_qrc; gen_qrc]
         incs defs.

Definition world : World := {|
  CurrentScope := {[ "QT_VERSION_MAJOR" := "5"; "QT_VERSION_MINOR" := "9" ]};
  ParentScopes := [];
  ErrorLog := [];
  Messages := [];
  Files := {[ "/usr/share/cmake/Modules/AutogenInfo.cmake.in"
              := "set(AM_SOURCES @_sources@)" ]};
  Permissions := ∅;
  CMakeDependFiles := [];
  GeneratedSources := []
|}.

End Demo.

(** * Properties *)

(** ** Positions found by [std_find] *)

Lemma std_find_le (x : string) (v : list string) : std_find x v ≤ length v.
Proof.
  induction v as [|y r IH]; simpl; [lia|].
  destruct (decide (y = x)); lia.
Qed.

Lemma std_find_lookup (x : string) (v : list string) :
  std_find x v ≠ length v → v !! std_find x v = Some x.
Proof.
  induction v as [|y r IH]; simpl; [lia|].
  destruct (decide (y = x)) as [->|]; [done|].
  intros H. apply IH. lia.
Qed.

Lemma std_find_first (x : string) (v : list string) (i : nat) :
  v !! i = Some x → std_find x v ≤ i.
Proof.
  revert i. induction v as [|y r IH]; intros i; simpl; [done|].
  destruct (decide (y = x)); [lia|].
  destruct i as [|i]; simpl; [congruence|].
  intros H. apply IH in H. lia.
Qed.

Lemma std_find_found (x : string) (v : list string) (i : nat) :
  v !! i = Some x → std_find x v ≠ length v.
Proof.
  intros H. pose proof (std_find_first _ _ _ H).
  apply lookup_lt_Some in H. lia.
Qed.

(** Two positions of a list hold the same element only if they are equal,
    for the elements that a duplicate-free filter keeps. *)
Lemma NoDup_filter_lookup (P : string → bool) (l : list string)
    (i j : nat) (x : string) :
  NoDup (filter (fun t => P t = true) l) →
  P x = true → l !! i = Some x → l !! j = Some x → i = j.
Proof.
  revert i j. induction l as [|y r IH]; intros i j Hnd HP Hi Hj; [done|].
  rewrite filter_cons in Hnd.
  destruct (decide (P y = true)) as [Hy|Hy].
  - apply NoDup_cons in Hnd as [Hnot Hnd].
    assert (Hin : ∀ k, r !! k = Some x → y ≠ x).
    { intros k Hk ->. apply Hnot. apply list_elem_of_filter. split; [done|].
      eapply list_elem_of_lookup_2; eauto. }
    destruct i as [|i], j as [|j]; simpl in *; try done.
    + exfalso. eapply Hin; eauto. congruence.
    + exfalso. eapply Hin; eauto. congruence.
    + f_equal. eauto.
  - destruct i as [|i], j as [|j]; simpl in *; try congruence.
    f_equal. eauto.
Qed.

(** ** The option merge never leaves its vectors *)

Lemma RccMergeBody_progress (isQt5 : bool) (fileOpts : list string)
    (st : MergeState) :
  fit st < length fileOpts →
  ∃ st', RccMergeBody isQt5 fileOpts st = Done st'
         ∧ fit st < fit st' ≤ length fileOpts.
Proof.
  intros Hlt. unfold RccMergeBody, deref.
  destruct (lookup_lt_is_Some_2 fileOpts (fit st) Hlt) as [tok Htok].
  rewrite Htok. simpl.
  destruct (decide (std_find tok (opts st) ≠ length (opts st))) as [Hf|Hf];
    [|eexists; split; [reflexivity|simpl; lia]].
  destruct (isValueOption isQt5 tok);
    [|eexists; split; [reflexivity|simpl; lia]].
  destruct (decide (std_find tok (opts st) + 1 ≠ length (opts st)
                    ∧ fit st + 1 ≠ length fileOpts)) as [[H1 H2]|Hn];
    [|eexists; split; [reflexivity|simpl; lia]].
  destruct (lookup_lt_is_Some_2 fileOpts (fit st + 1)) as [v Hv]; [lia|].
  rewrite Hv. simpl. unfold assign.
  pose proof (std_find_le tok (opts st)).
  destruct (decide (std_find tok (opts st) + 1 < length (opts st))); [|lia].
  simpl. eexists; split; [reflexivity|simpl; lia].
Qed.

Lemma RccMergeLoop_total (isQt5 : bool) (fileOpts : list string)
    (fuel : nat) (st : MergeState) :
  fit st ≤ length fileOpts →
  length fileOpts - fit st ≤ fuel →
  ∃ st', RccMergeLoop fuel isQt5 fileOpts st = Done st'.
Proof.
  revert st. induction fuel as [|fuel IH]; intros st Hle Hfuel; simpl.
  - destruct (decide (fit st = length fileOpts)); [eauto|lia].
  - destruct (decide (fit st = length fileOpts)); [eauto|].
    destruct (RccMergeBody_progress isQt5 fileOpts st) as (st' & -> & Hst');
      [lia|].
    simpl. apply IH; lia.
Qed.

Lemma RccMergeOptions_total (isQt5 : bool) (opts0 fileOpts : list string) :
  ∃ merged, RccMergeOptions isQt5 opts0 fileOpts = Done merged.
Proof.
  unfold RccMergeOptions.
  destruct (RccMergeLoop_total isQt5 fileOpts (length fileOpts)
              (mkMergeState opts0 [] 0)) as [st ->]; simpl; [lia..|].
  eauto.
Qed.

(** C9.  In [RccMergeBody], when the file-level token is found in the
    target-level vector (at the position [std::find] returns, its first
    occurrence), is a value option, and either that position is the last
    one of the target-level vector or the token is the last one of the
    file-level vector, the pass ends without a failed access: no value is
    replaced, [opts] and [extraOpts] are what they were, and the scan goes
    on with the next file-level token. *)
Theorem RccMergeBody_missing_value (isQt5 : bool) (fileOpts : list string)
    (st : MergeState) (tok : string) :
  fileOpts !! fit st = Some tok →
  std_find tok (opts st) ≠ length (opts st) →
  isValueOption isQt5 tok = true →
  (std_find tok (opts st) + 1 = length (opts st)
   ∨ fit st + 1 = length fileOpts) →
  RccMergeBody isQt5 fileOpts st
    = Done (mkMergeState (opts st) (extraOpts st) (fit st + 1))
  ∧ ∀ fuel, RccMergeLoop (S fuel) isQt5 fileOpts st
            = RccMergeLoop fuel isQt5 fileOpts
                (mkMergeState (opts st) (extraOpts st) (fit st + 1)).
Proof.
  intros Htok Hfound Hval Hlast.
  assert (Hbody : RccMergeBody isQt5 fileOpts st
                  = Done (mkMergeState (opts st) (extraOpts st) (fit st + 1))).
  { unfold RccMergeBody, deref. rewrite Htok. simpl.
    destruct (decide (std_find tok (opts st) ≠ length (opts st))); [|done].
    rewrite Hval.
    destruct (decide (std_find tok (opts st) + 1 ≠ length (opts st)
                      ∧ fit st + 1 ≠ length fileOpts)) as [[H1 H2]|Hn];
      [|done].
    destruct Hlast; lia. }
  split; [exact Hbody|].
  intros fuel. simpl.
  apply lookup_lt_Some in Htok.
  destruct (decide (fit st = length fileOpts)); [lia|].
  rewrite Hbody. reflexivity.
Qed.

Lemma RccMergeBody_missing_value_witness :
  let st := mkMergeState ["-v"; "--name"] [] 0 in
  let fileOpts := ["--name"; "icons"] in
  fileOpts !! fit st = Some "--name"
  ∧ RccMergeBody true fileOpts st = Done (mkMergeState ["-v"; "--name"] [] 1).
Proof.
  split; [reflexivity|].
  apply (RccMergeBody_missing_value true ["--name"; "icons"]
           (mkMergeState ["-v"; "--name"] [] 0) "--name").
  - reflexivity.
  - vm_compute. lia.
  - reflexivity.
  - left. reflexivity.
Defined.

(** C3 as stated fails: with the version-4 dash skipping ["--name"] is not
    a value option, so ["foo"] stays and ["bar"] is appended. *)
Lemma RccMergeOptions_qt4_order :
  ¬ (∀ isQt5 : bool,
       RccMergeOptions isQt5 ["--name"; "foo"; "--verbose"]
                             ["--name"; "bar"; "--root"; "/r"]
       = Done ["--name"; "bar"; "--verbose"; "--root"; "/r"]).
Proof. intros H. specialize (H false). vm_compute in H. discriminate H. Qed.

(** C3, amended.  Merging ["--name","foo","--verbose"] with
    ["--name","bar","--root","/r"] gives
    ["--name","bar","--verbose","--root","/r"] with the version-5 dash
    skipping, and ["--name","foo","--verbose","bar","--root","/r"] with the
    version-4 one. *)
Theorem RccMergeOptions_ordering :
  RccMergeOptions true ["--name"; "foo"; "--verbose"]
                       ["--name"; "bar"; "--root"; "/r"]
  = Done ["--name"; "bar"; "--verbose"; "--root"; "/r"]
  ∧ RccMergeOptions false ["--name"; "foo"; "--verbose"]
                          ["--name"; "bar"; "--root"; "/r"]
    = Done ["--name"; "foo"; "--verbose"; "bar"; "--root"; "/r"].
Proof. split; vm_compute; reflexivity. Qed.

(** C5 as stated fails: a value option that occurs twice has the value of
    its first occurrence overwritten by the value of the second. *)
Lemma RccMergeOptions_not_idempotent :
  RccMergeOptions true ["--name"; "a"; "--name"; "b"]
                       ["--name"; "a"; "--name"; "b"]
  = Done ["--name"; "b"; "--name"; "b"]
  ∧ ¬ (∀ (isQt5 : bool) (L : list string),
         RccMergeOptions isQt5 L L = Done L).
Proof.
  split; [vm_compute; reflexivity|].
  intros H. specialize (H true ["--name"; "a"; "--name"; "b"]).
  vm_compute in H. discriminate H.
Qed.

Lemma RccMergeLoop_same (isQt5 : bool) (L : list string) :
  NoDup (filter (fun t => isValueOption isQt5 t = true) L) →
  ∀ (fuel i : nat),
    i ≤ length L → length L - i ≤ fuel →
    RccMergeLoop fuel isQt5 L (mkMergeState L [] i)
    = Done (mkMergeState L [] (length L)).
Proof.
  intros Hnd fuel. induction fuel as [|fuel IH]; intros i Hi Hfuel; simpl.
  - destruct (decide (i = length L)) as [->|]; [done|lia].
  - destruct (decide (i = length L)) as [->|Hne]; [done|].
    destruct (lookup_lt_is_Some_2 L i) as [tok Htok]; [lia|].
    unfold RccMergeBody, deref. simpl. rewrite Htok. simpl.
    pose proof (std_find_found _ _ _ Htok) as Hfound.
    destruct (decide (std_find tok L ≠ length L)); [|done].
    destruct (isValueOption isQt5 tok) eqn:Hval; [|simpl; apply IH; lia].
    assert (Hpos : std_find tok L = i).
    { eapply (NoDup_filter_lookup (isValueOption isQt5)); eauto.
      by apply std_find_lookup. }
    rewrite Hpos.
    destruct (decide (i + 1 ≠ length L ∧ i + 1 ≠ length L)) as [[H1 _]|Hn];
      [|simpl; apply IH; lia].
    destruct (lookup_lt_is_Some_2 L (i + 1)) as [v Hv]; [lia|].
    rewrite Hv. simpl. unfold assign.
    destruct (decide (i + 1 < length L)); [|lia]. simpl.
    rewrite (list_insert_id L (i + 1) v Hv). apply IH; lia.
Qed.

(** C5, amended.  For either dash skipping, merging a list with itself
    gives the list back when no value option (a token that the dash
    skipping turns into name, root, compress or threshold) occurs in it
    more than once. *)
Theorem RccMergeOptions_idempotent (isQt5 : bool) (L : list string) :
  NoDup (filter (fun t => isValueOption isQt5 t = true) L) →
  RccMergeOptions isQt5 L L = Done L.
Proof.
  intros Hnd. unfold RccMergeOptions.
  rewrite (RccMergeLoop_same isQt5 L Hnd (length L) 0) by lia.
  simpl. by rewrite app_nil_r.
Qed.

Lemma RccMergeOptions_idempotent_witness :
  RccMergeOptions true ["--name"; "foo"; "--verbose"; "--root"; "/r"]
                       ["--name"; "foo"; "--verbose"; "--root"; "/r"]
  = Done ["--name"; "foo"; "--verbose"; "--root"; "/r"].
Proof.
  apply (RccMergeOptions_idempotent true
           ["--name"; "foo"; "--verbose"; "--root"; "/r"]).
  apply (bool_decide_unpack _). vm_compute. exact I.
Defined.

(** Running a computation step by step. *)
Ltac run :=
  unfold mbind, M_bind, mret, M_ret, modify, gets, lift; simpl.

Section Classification.
Context `{C : Collaborators}.

Lemma bind_Done {A B : Type} (m : M A) (f : A → M B) (w w1 : World)
    (a : A) :
  m w = Done (a, w1) → (m ≫= f) w = f a w1.
Proof. intros H. unfold mbind, M_bind. by rewrite H. Qed.

(** The part of C1 that holds, and what the code does instead of the
    rest: under OLD and WARN a generated source that a tool would accept
    leaves every list of the setup as it was, the skip lists included. *)
Lemma SetupAcquireScanFile_generated_ignored (target : cmGeneratorTarget)
    (mocEnabled uicEnabled : bool) (setup : AutogenSetup)
    (sf : cmSourceFile) (w : World) :
  let props := SourceProperties sf in
  let skipAll := GetPropertyAsBool props "SKIP_AUTOGEN" in
  let mocSkip := skipAll || GetPropertyAsBool props "SKIP_AUTOMOC" in
  let uicSkip := skipAll || GetPropertyAsBool props "SKIP_AUTOUIC" in
  PolicyCMP0071 (Makefile target) = OLD
  ∨ PolicyCMP0071 (Makefile target) = WARN →
  GetFileFormat (c_str (Extension sf)) ≠ OTHER_FILE_FORMAT →
  (mocEnabled && negb mocSkip) || (uicEnabled && negb uicSkip) = true →
  GetPropertyAsBool props "GENERATED" = true →
  ∃ w', SetupAcquireScanFile target mocEnabled uicEnabled setup sf w
        = Done (setup, w')
        ∧ (PolicyCMP0071 (Makefile target) = OLD → w' = w)
        ∧ (PolicyCMP0071 (Makefile target) = WARN →
           ∃ msg, w' = with_Messages (Messages w ++ [msg]) w).
Proof.
  intros props skipAll mocSkip uicSkip Hpol Hfmt Hacc Hgen.
  unfold SetupAcquireScanFile.
  destruct (GetFileFormat (c_str (Extension sf))) eqn:Hf; try done; simpl;
    fold props; fold skipAll; fold mocSkip; fold uicSkip;
    rewrite Hacc, Hgen; simpl;
    destruct Hpol as [-> | ->]; run;
    (eexists; split; [reflexivity|]); split; try done; eauto.
Qed.


Lemma grows_refl (before : list string) : grows [] before before.
Proof. exists []. by rewrite app_nil_r. Qed.

Lemma grows_one (x : string) (before : list string) (b : bool) :
  grows [x] before (if b then before ++ [x] else before).
Proof.
  destruct b.
  - by exists [x].
  - exists []. rewrite app_nil_r. split; [done|]. apply sublist_nil_l.
Qed.

Lemma grows_skip (x : string) (before : list string) :
  grows [x] before before.
Proof. apply (grows_one x before false). Qed.

Lemma grows_trans (p q a b c : list string) :
  grows p a b → grows q b c → grows (p ++ q) a c.
Proof.
  intros (l & -> & Hl) (k & -> & Hk). exists (l ++ k).
  rewrite app_assoc. split; [done|]. by apply sublist_app.
Qed.

Lemma grows_NoDup (paths after : list string) :
  grows paths [] after → NoDup paths → NoDup after.
Proof. intros (l & -> & Hl) Hnd. simpl. eapply sublist_NoDup; eauto. Qed.

Lemma SetupAcquireScanFile_grows (target : cmGeneratorTarget)
    (mocEnabled uicEnabled : bool) (setup : AutogenSetup)
    (sf : cmSourceFile) (w : World) :
  ∃ setup' w',
    SetupAcquireScanFile target mocEnabled uicEnabled setup sf w
    = Done (setup', w')
    ∧ setup_grows [GetRealPath (FullPath sf)] setup setup'.
Proof.
  unfold SetupAcquireScanFile, setup_grows.
  set (x := GetRealPath (FullPath sf)).
  pose proof (grows_skip x) as Hs.
  pose proof (fun l => grows_one x l true) as Hp. simpl in Hp.
  destruct (GetFileFormat (c_str (Extension sf))); simpl;
    try (do 2 eexists; split; [reflexivity|]; by repeat split).
  all: destruct (GetPropertyAsBool (SourceProperties sf) "SKIP_AUTOGEN");
    destruct (GetPropertyAsBool (SourceProperties sf) "SKIP_AUTOMOC");
    destruct (GetPropertyAsBool (SourceProperties sf) "SKIP_AUTOUIC");
    destruct mocEnabled, uicEnabled; simpl;
    destruct (GetPropertyAsBool (SourceProperties sf) "GENERATED"); simpl;
    try destruct (PolicyCMP0071 (Makefile target)); run;
    (do 2 eexists; split; [reflexivity|]); simpl; by repeat split.
Qed.

Lemma SetupAcquireScanFiles_grows (target : cmGeneratorTarget)
    (mocEnabled uicEnabled : bool) (srcFiles : list cmSourceFile)
    (setup : AutogenSetup) (w : World) :
  ∃ setup' w',
    SetupAcquireScanFiles target mocEnabled uicEnabled srcFiles setup w
    = Done (setup', w')
    ∧ setup_grows (map (fun sf => GetRealPath (FullPath sf)) srcFiles)
                  setup setup'.
Proof.
  unfold SetupAcquireScanFiles. revert setup w.
  induction srcFiles as [|sf r IH]; intros setup w; simpl.
  - do 2 eexists. split; [reflexivity|]. repeat split; apply grows_refl.
  - destruct (SetupAcquireScanFile_grows target mocEnabled uicEnabled
                setup sf w) as (s1 & w1 & Hrun & H1 & H2 & H3 & H4).
    destruct (IH s1 w1) as (s2 & w2 & Hrun2 & G1 & G2 & G3 & G4).
    exists s2, w2. run. rewrite Hrun. split; [exact Hrun2|].
    repeat split;
      eapply (grows_trans [GetRealPath (FullPath sf)]); eauto.
Qed.

Lemma RccFile_grows (qtMajorVersion rccCommand : string)
    (rccOptionsTarget : list string) (acc : RccLists) (sf : cmSourceFile)
    (w : World) :
  ∃ acc' w',
    RccFile qtMajorVersion rccCommand rccOptionsTarget acc sf w
    = Done (acc', w')
    ∧ grows [GetRealPath (FullPath sf)] (rccFiles acc) (rccFiles acc').
Proof.
  unfold RccFile.
  destruct (bool_decide (Extension sf = "qrc")
            && negb (GetPropertyAsBool (SourceProperties sf) "SKIP_AUTOGEN")
            && negb (GetPropertyAsBool (SourceProperties sf) "SKIP_AUTORCC"));
    [|do 2 eexists; split; [reflexivity|apply grows_skip]].
  set (x := GetRealPath (FullPath sf)).
  assert (Hentries : ∀ w0 : World, ∃ e w1,
    (if negb (GetPropertyAsBool (SourceProperties sf) "GENERATED")
     then match RccListInputs qtMajorVersion rccCommand x with
          | inl files => mret (cmJoin files listSep)
          | inr error => Error (c_str error);; mret ""
          end
     else mret "") w0 = Done (e, w1)).
  { intros w0.
    destruct (negb (GetPropertyAsBool (SourceProperties sf) "GENERATED"));
      [destruct (RccListInputs qtMajorVersion rccCommand x)|];
      run; do 2 eexists; reflexivity. }
  destruct (Hentries w) as (e & w1 & He).
  rewrite (bind_Done _ _ _ _ _ He). clear He Hentries.
  destruct (SourceProperties sf !! "AUTORCC_OPTIONS") as [prop|]; run.
  - destruct (RccMergeOptions_total (bool_decide (qtMajorVersion = "5"))
                rccOptionsTarget (ExpandListArgument prop)) as [merged ->].
    destruct (decide (merged ≠ [])); do 2 eexists;
      (split; [reflexivity|by exists [x]]).
  - destruct (decide (rccOptionsTarget ≠ [])); do 2 eexists;
      (split; [reflexivity|by exists [x]]).
Qed.

End Classification.

(** ** Sets of strings *)

Lemma slt_strict (x y : string) : slt x y ↔ strict String.le x y.
Proof.
  unfold slt, strict, String.le, String.leb.
  rewrite (String.compare_antisym x y).
  destruct (String.compare y x); simpl; naive_solver.
Qed.

#[local] Instance slt_trans : Transitive slt.
Proof.
  intros x y z. rewrite !slt_strict. apply transitivity.
Qed.

Lemma slt_irrefl (x : string) : ¬ slt x x.
Proof. rewrite slt_strict. apply irreflexivity, _. Qed.

Lemma compare_Gt_slt (x y : string) : String.compare x y = Gt → slt y x.
Proof.
  unfold slt. rewrite (String.compare_antisym x y).
  by destruct (String.compare y x).
Qed.

Lemma std_set_insert_elem (x y : string) (s : list string) :
  x ∈ std_set_insert y s ↔ x = y ∨ x ∈ s.
Proof.
  induction s as [|z r IH]; simpl; [set_solver|].
  destruct (String.compare y z) eqn:Hc.
  - apply String.compare_eq_iff in Hc as ->. set_solver.
  - set_solver.
  - rewrite !elem_of_cons, IH. naive_solver.
Qed.

Lemma std_set_insert_range_elem (x : string) (v s : list string) :
  x ∈ std_set_insert_range v s ↔ x ∈ v ∨ x ∈ s.
Proof.
  unfold std_set_insert_range. revert s.
  induction v as [|y r IH]; intros s; simpl; [set_solver|].
  rewrite IH, std_set_insert_elem, elem_of_cons. naive_solver.
Qed.

Lemma std_set_insert_HdRel (a x : string) (s : list string) :
  HdRel slt a s → slt a x → HdRel slt a (std_set_insert x s).
Proof.
  intros Hs Hax. destruct s as [|z r]; simpl; [by constructor|].
  destruct (String.compare x z); constructor; try done; by inv Hs.
Qed.

Lemma std_set_insert_Sorted (x : string) (s : list string) :
  Sorted slt s → Sorted slt (std_set_insert x s).
Proof.
  induction s as [|z r IH]; intros Hs; simpl.
  - repeat constructor.
  - destruct (String.compare x z) eqn:Hc; [done| |].
    + constructor; [done|]. by constructor.
    + inv Hs. constructor; [auto|].
      apply std_set_insert_HdRel; [done|]. by apply compare_Gt_slt.
Qed.

Lemma std_set_insert_range_Sorted (v s : list string) :
  Sorted slt s → Sorted slt (std_set_insert_range v s).
Proof.
  unfold std_set_insert_range. revert s.
  induction v as [|y r IH]; intros s Hs; simpl; [done|].
  apply IH. by apply std_set_insert_Sorted.
Qed.

Lemma Sorted_slt_NoDup (s : list string) : Sorted slt s → NoDup s.
Proof.
  intros Hs. apply Sorted_StronglySorted in Hs; [|apply _].
  induction Hs as [|x l Hl IH Hx]; constructor; [|done].
  intros Hin. rewrite Forall_forall in Hx.
  by apply (slt_irrefl x), Hx.
Qed.

(** The order in which a set is filled does not show. *)
Lemma std_set_insert_range_Permutation (v1 v2 : list string) :
  v1 ≡ₚ v2 → std_set_insert_range v1 [] = std_set_insert_range v2 [].
Proof.
  intros Hperm.
  assert (Hs : ∀ v, Sorted slt (std_set_insert_range v [])).
  { intros v. apply std_set_insert_range_Sorted. constructor. }
  apply (Sorted_unique_strong slt); auto.
  - intros x y _ _ Hxy Hyx. destruct (slt_irrefl x). by etrans.
  - apply NoDup_Permutation; auto using Sorted_slt_NoDup.
    intros x. rewrite !std_set_insert_range_elem. by rewrite Hperm.
Qed.

(** ** Joined strings *)

Lemma append_sep_inj (c : ascii) (x y a b : string) :
  has_char c x = false → has_char c y = false →
  x +:+ String c a = y +:+ String c b → x = y ∧ a = b.
Proof.
  revert y. induction x as [|d x IH]; intros [|e y] Hx Hy Heq;
    simpl in *; unfold String.app in Heq; simpl in Heq.
  - by inv Heq.
  - inv Heq. apply orb_false_iff in Hy as [Hy _].
    by apply bool_decide_eq_false in Hy.
  - inv Heq. apply orb_false_iff in Hx as [Hx _].
    by apply bool_decide_eq_false in Hx.
  - inv Heq. apply orb_false_iff in Hx as [_ Hx].
    apply orb_false_iff in Hy as [_ Hy].
    destruct (IH y Hx Hy) as [-> ->]; done.
Qed.

Lemma cmJoin_inj (l1 l2 : list string) :
  length l1 = length l2 →
  Forall (fun x => has_char ";" x = false) l1 →
  Forall (fun x => has_char ";" x = false) l2 →
  cmJoin l1 ";" = cmJoin l2 ";" → l1 = l2.
Proof.
  revert l2. induction l1 as [|x r IH]; intros [|y r2] Hlen H1 H2 Heq;
    simpl in Hlen; try done.
  inv H1. inv H2.
  destruct r as [|x2 r], r2 as [|y2 r2]; simpl in Hlen; try done.
  - simpl in Heq. by subst.
  - change (x +:+ String ";" (cmJoin (x2 :: r) ";")
            = y +:+ String ";" (cmJoin (y2 :: r2) ";")) in Heq.
    apply append_sep_inj in Heq as [-> Heq]; [|done..].
    f_equal. apply IH; auto.
Qed.

Lemma cmJoin_reordered (l1 l2 : list string) :
  l1 ≡ₚ l2 → l1 ≠ l2 →
  Forall (fun x => has_char ";" x = false) l2 →
  cmJoin l1 ";" ≠ cmJoin l2 ";".
Proof.
  intros Hperm Hne Hsep Heq. apply Hne, cmJoin_inj; auto.
  - by apply Permutation_length.
  - by rewrite Hperm.
Qed.

(** ** What a computation leaves as it was *)

Section Frame.
Context `{C : Collaborators}.
Context (R : World → World → Prop) `{!Reflexive R} `{!Transitive R}.

Lemma succeeds_ret {A : Type} (a : A) : succeeds R (mret a).
Proof. intros w. by exists a, w. Qed.

Lemma succeeds_bind {A B : Type} (m : M A) (f : A → M B) :
  succeeds R m → (∀ a, succeeds R (f a)) → succeeds R (m ≫= f).
Proof.
  intros Hm Hf w. destruct (Hm w) as (a & w1 & Hrun & H1).
  destruct (Hf a w1) as (b & w2 & Hrun2 & H2).
  exists b, w2. unfold mbind, M_bind. rewrite Hrun. split; [done|]. by etrans.
Qed.

Lemma succeeds_bind_gen {A B : Type} (R1 R2 R3 : World → World → Prop)
    (m : M A) (f : A → M B) :
  (∀ w1 w2 w3, R1 w1 w2 → R2 w2 w3 → R3 w1 w3) →
  succeeds R1 m → (∀ a, succeeds R2 (f a)) → succeeds R3 (m ≫= f).
Proof.
  intros Hcomp Hm Hf w. destruct (Hm w) as (a & w1 & Hrun & H1).
  destruct (Hf a w1) as (b & w2 & Hrun2 & H2).
  exists b, w2. unfold mbind, M_bind. rewrite Hrun. split; [done|]. eauto.
Qed.

Lemma succeeds_gets {A : Type} (f : World → A) : succeeds R (gets f).
Proof. intros w. by exists (f w), w. Qed.

Lemma succeeds_modify (f : World → World) :
  (∀ w, R w (f w)) → succeeds R (modify f).
Proof. intros Hf w. exists tt, (f w). by split. Qed.

Lemma succeeds_lift {A : Type} (a : Access A) :
  (∃ x, a = Done x) → succeeds R (lift a).
Proof. intros [x ->] w. by exists x, w. Qed.

Lemma succeeds_forEach {A S : Type} (body : S → A → M S) (v : list A)
    (s : S) :
  (∀ s x, x ∈ v → succeeds R (body s x)) → succeeds R (forEach body v s).
Proof.
  revert s. induction v as [|x r IH]; intros s Hbody; simpl.
  - apply succeeds_ret.
  - apply succeeds_bind; [apply Hbody; by left|].
    intros s'. apply IH. intros s0 y Hy. apply Hbody. by right.
Qed.

End Frame.

Section Scoped.
Context `{C : Collaborators}.

#[local] Instance scoped_refl (infoFile : string) :
  Reflexive (scoped infoFile).
Proof. by intros w. Qed.

#[local] Instance scoped_trans (infoFile : string) :
  Transitive (scoped infoFile).
Proof.
  intros w1 w2 w3 (H1 & F1 & P1) (H2 & F2 & P2).
  split; [congruence|]. split; [|by auto].
  intros f Hf. rewrite F2, F1; done.
Qed.

Lemma scoped_written (template infoFile : string) (w1 w2 w3 : World) :
  scoped infoFile w1 w2 → written template infoFile w2 w3 →
  written template infoFile w1 w3.
Proof.
  intros H12 [H23 Hw]. split; [by etrans|].
  intros Ht. apply Hw. by apply H12.
Qed.

Lemma written_scoped (template infoFile : string) (w1 w2 w3 : World) :
  written template infoFile w1 w2 → scoped infoFile w2 w3 →
  written template infoFile w1 w3.
Proof.
  intros [H12 Hw] H23. split; [by etrans|].
  intros Ht. apply H23. by apply Hw.
Qed.

Lemma ok_AddDefinition (infoFile key value : string) :
  succeeds (scoped infoFile) (AddDefinition key value).
Proof. by apply succeeds_modify. Qed.

Lemma ok_Error (infoFile msg : string) :
  succeeds (scoped infoFile) (Error msg).
Proof. by apply succeeds_modify. Qed.

Lemma ok_IssueMessage (infoFile msg : string) :
  succeeds (scoped infoFile) (IssueMessage msg).
Proof. by apply succeeds_modify. Qed.

Lemma ok_ConfigureFile (infoFile infile : string) :
  succeeds (scoped infoFile) (ConfigureFile infile infoFile).
Proof.
  apply succeeds_modify. intros w. destruct (Files w !! infile); [|done].
  split; [done|]. simpl. split; intros f Hf.
  - by rewrite lookup_insert_ne.
  - rewrite lookup_insert. case_decide; eauto.
Qed.

Lemma written_ConfigureFile (template infoFile : string) :
  succeeds (written template infoFile) (ConfigureFile template infoFile).
Proof.
  intros w. destruct (ok_ConfigureFile infoFile template w)
    as (a & w' & Hrun & Hs).
  exists a, w'. split; [done|]. split; [done|].
  intros [text Ht]. unfold ConfigureFile, modify in Hrun.
  rewrite Ht in Hrun. inv Hrun. simpl. rewrite lookup_insert_eq. eauto.
Qed.

Lemma ok_EnsureWritable (infoFile : string) :
  succeeds (scoped infoFile) (EnsureWritable infoFile).
Proof.
  apply succeeds_modify. intros w. simpl.
  destruct (N.land _ _ =? 0)%N; [|done].
  by destruct (Files w !! infoFile).
Qed.

Lemma ok_AppendToFile (infoFile text : string) :
  succeeds (scoped infoFile) (AppendToFile infoFile text).
Proof.
  apply succeeds_modify. intros w. split; [done|]. simpl.
  split; intros f Hf.
  - by rewrite lookup_insert_ne.
  - rewrite lookup_insert. case_decide; eauto.
Qed.

(** One step through the text of a computation. *)
Ltac ok_step :=
  lazymatch goal with
  | |- succeeds _ (mbind _ _) => apply succeeds_bind; [apply _..| |intros ?]
  | |- succeeds _ (mret _) => apply succeeds_ret; apply _
  | |- succeeds _ (gets _) => apply succeeds_gets; apply _
  | |- succeeds _ (AddDefinitionEscaped _ _) => apply ok_AddDefinition
  | |- succeeds _ (AddDefinitionEscapedV _ _) => apply ok_AddDefinition
  | |- succeeds _ (Error _) => apply ok_Error
  | |- succeeds _ (IssueMessage _) => apply ok_IssueMessage
  | |- succeeds _ (ConfigureFile _ _) => apply ok_ConfigureFile
  | |- succeeds _ (EnsureWritable _) => apply ok_EnsureWritable
  | |- succeeds _ (AppendToFile _ _) => apply ok_AppendToFile
  | |- succeeds _ (forEach _ _ _) =>
      apply succeeds_forEach; [apply _..|intros ? ? ?]
  | |- succeeds _ (if ?b then _ else _) => destruct b
  | |- succeeds _ (match ?x with _ => _ end) => destruct x
  end.

(** The same towards the place where the descriptor is written. *)
Ltac written_step :=
  lazymatch goal with
  | |- succeeds (written ?t ?i) (mbind _ (ConfigureFile _ _)) =>
      apply (succeeds_bind_gen (written t i) (scoped i) (written t i));
      [apply written_scoped|apply written_ConfigureFile|intros ?]
  | |- succeeds (written ?t ?i) (mbind _ _) =>
      apply (succeeds_bind_gen (scoped i) (written t i) (written t i));
      [apply scoped_written| |intros ?]
  | |- succeeds (written _ _) (match ?x with _ => _ end) => destruct x
  end.

Lemma ok_SetupAcquireScanFiles (infoFile : string)
    (target : cmGeneratorTarget) (mocEnabled uicEnabled : bool)
    (srcFiles : list cmSourceFile) (setup : AutogenSetup) :
  succeeds (scoped infoFile)
    (SetupAcquireScanFiles target mocEnabled uicEnabled srcFiles setup).
Proof.
  unfold SetupAcquireScanFiles, SetupAcquireScanFile. repeat ok_step.
Qed.

Lemma ok_SetupAutoTargetMoc (infoFile : string) (target : cmGeneratorTarget)
    (qtMajorVersion config : string) (configs : list string)
    (setup : AutogenSetup) :
  succeeds (scoped infoFile)
    (SetupAutoTargetMoc target qtMajorVersion config configs setup).
Proof. unfold SetupAutoTargetMoc, MocExecutable. repeat ok_step. Qed.

Lemma ok_SetupAutoTargetUic (infoFile : string) (target : cmGeneratorTarget)
    (qtMajorVersion config : string) (configs : list string)
    (setup : AutogenSetup) :
  UiFilesHaveOptions (Makefile target) →
  succeeds (scoped infoFile)
    (SetupAutoTargetUic target qtMajorVersion config configs setup).
Proof.
  intros Hui. unfold UiFilesHaveOptions in Hui. rewrite Forall_forall in Hui.
  unfold SetupAutoTargetUic, UicExecutable, UicFileOptions. repeat ok_step.
  apply succeeds_lift; [apply _|].
  match goal with H : _ ∈ _ |- _ => destruct (Hui _ H) as [p ->] end. eauto.
Qed.

Lemma ok_SetupAutoTargetRcc (infoFile : string) (target : cmGeneratorTarget)
    (v : string) (srcFiles : list cmSourceFile) :
  succeeds (scoped infoFile) (SetupAutoTargetRcc target v srcFiles).
Proof.
  unfold SetupAutoTargetRcc, SetupAutoTargetRccLists, RccGetExecutable,
    RccFile.
  repeat ok_step.
  all: apply succeeds_lift; [apply _|]; apply RccMergeOptions_total.
Qed.

(** What a [ScopePushPop] around a computation gives. *)
Lemma ScopePushPop_restores {A : Type} (template infoFile : string)
    (body : M A) (w : World) :
  succeeds (written template infoFile) body →
  ∃ a w', ScopePushPop body w = Done (a, w')
          ∧ CurrentScope w' = CurrentScope w
          ∧ ParentScopes w' = ParentScopes w
          ∧ (∀ f, f ≠ infoFile → Files w' !! f = Files w !! f)
          ∧ (is_Some (Files w !! template) → is_Some (Files w' !! infoFile)).
Proof.
  intros Hbody.
  destruct (Hbody (with_scopes ∅ (CurrentScope w :: ParentScopes w) w))
    as (a & w1 & Hrun & (Hparents & Hfiles & _) & Hw).
  simpl in Hparents, Hfiles, Hw.
  unfold ScopePushPop, PushScope, PopScope, mbind, M_bind, modify, mret, M_ret.
  rewrite Hrun. rewrite Hparents.
  do 2 eexists. split; [reflexivity|]. simpl. auto.
Qed.

(** C10.  On the modelled variable scopes: [SetupAutoGenerateTarget]
    returns (given that every registered .ui file has its options
    property); every definition it adds goes to the scope its
    [ScopePushPop] opened, and when it returns the definitions of the
    makefile are what they were before the call: the current scope and the
    enclosing scopes are the same, and so is every lookup.  Of the files
    only the descriptor can have changed, and it is there when its
    template was. *)
Theorem SetupAutoGenerateTarget_scope (target : cmGeneratorTarget)
    (w : World) :
  UiFilesHaveOptions (Makefile target) →
  ∃ w', SetupAutoGenerateTarget target w = Done (tt, w')
        ∧ CurrentScope w' = CurrentScope w
        ∧ ParentScopes w' = ParentScopes w
        ∧ (∀ key, GetDefinition w' key = GetDefinition w key)
        ∧ (∀ f, f ≠ GetAutogenTargetFilesDir target +:+ "/AutogenInfo.cmake" →
                Files w' !! f = Files w !! f)
        ∧ (is_Some (Files w !! (GetCMakeRoot
                                +:+ "/Modules/AutogenInfo.cmake.in")) →
           is_Some (Files w' !! (GetAutogenTargetFilesDir target
                                 +:+ "/AutogenInfo.cmake"))).
Proof.
  intros Hui. unfold SetupAutoGenerateTarget.
  set (infoFile := GetAutogenTargetFilesDir target +:+ "/AutogenInfo.cmake").
  set (template := GetCMakeRoot +:+ "/Modules/AutogenInfo.cmake.in").
  match goal with
  | |- ∃ w', ScopePushPop ?body w = _ ∧ _ =>
      destruct (ScopePushPop_restores template infoFile body w)
        as ([] & w' & Hrun & Hc & Hp & Hf & Hw)
  end.
  - repeat written_step;
      repeat ok_step;
      auto using ok_SetupAcquireScanFiles, ok_SetupAutoTargetMoc,
                 ok_SetupAutoTargetUic, ok_SetupAutoTargetRcc.
  - exists w'. repeat split; auto.
    intros key. unfold GetDefinition. by rewrite Hc, Hp.
Qed.

End Scoped.


Lemma SetupAutoGenerateTarget_scope_witness :
  ∃ w',
    SetupAutoGenerateTarget (C:=Demo.collaborators) Demo.app Demo.world
    = Done (tt, w')
    ∧ CurrentScope w' = CurrentScope Demo.world
    ∧ ParentScopes w' = [].
Proof.
  destruct (SetupAutoGenerateTarget_scope (C:=Demo.collaborators)
              Demo.app Demo.world) as (w' & Hrun & Hc & Hp & _).
  - repeat constructor. by eexists.
  - exists w'. auto.
Defined.

(** ** Per-configuration settings *)

Section Differ.
Context `{C : Collaborators}.

(** The setup [SetupAutoTargetMoc] returns is the one its loop over the
    configurations leaves. *)
Lemma SetupAutoTargetMoc_setup (target : cmGeneratorTarget)
    (qtMajorVersion config : string) (configs : list string)
    (setup : AutogenSetup) (w : World) :
  ∃ w', SetupAutoTargetMoc target qtMajorVersion config configs setup w
        = Done (fold_left
                  (MocConfigSettings target
                     (GetCompileDefinitionsAndDirectories target config "" "").1
                     (GetCompileDefinitionsAndDirectories target config "" "").2)
                  configs setup, w').
Proof.
  unfold SetupAutoTargetMoc, MocExecutable, GetCompileDefinitionsAndDirectories.
  unfold AddDefinitionEscaped, AddDefinitionEscapedV, AddDefinition, Error.
  run.
  destruct (QtVersionGreaterOrEqual _ _ _ _); run;
    repeat (match goal with
            | |- context [decide ?P] => destruct (decide P)
            | |- context [ImportedTargets ?m !! ?k] =>
                destruct (ImportedTargets m !! k)
            end; run); eauto.
Qed.

Lemma SetupAutoTargetUic_setup (target : cmGeneratorTarget)
    (qtMajorVersion config : string) (configs : list string)
    (setup setup' : AutogenSetup) (w w' : World) :
  SetupAutoTargetUic target qtMajorVersion config configs setup w
  = Done (setup', w') →
  setup' = fold_left (UicConfigSettings target (UicGetOpts target config))
                     configs setup.
Proof.
  unfold SetupAutoTargetUic, UicExecutable.
  unfold AddDefinitionEscaped, AddDefinitionEscapedV, AddDefinition, Error.
  run.
  match goal with
  | |- context [forEach ?b ?v ?s ?w0] =>
      destruct (forEach b v s w0) as [[[files options] w1]|e]
  end; [|discriminate].
  repeat (match goal with
          | |- context [decide ?P] => destruct (decide P)
          | |- context [ImportedTargets ?m !! ?k] =>
              destruct (ImportedTargets m !! k)
          end; run); congruence.
Qed.

(** What the loops over the configurations leave in the three maps. *)
Lemma MocConfigSettings_includes (target : cmGeneratorTarget)
    (incs compileDefs : string) (configs : list string)
    (setup : AutogenSetup) (li : string) :
  configMocIncludes
    (fold_left (MocConfigSettings target incs compileDefs) configs setup) !! li
  = if decide (li ∈ configs
               ∧ cmJoin (IncludeDirectories target li) ";" ≠ incs)
    then Some (cmJoin (IncludeDirectories target li) ";")
    else configMocIncludes setup !! li.
Proof.
  revert setup. induction configs as [|c r IH]; intros setup; cbn [fold_left].
  - case_decide as H; [|done]. destruct H as [H _]. by apply elem_of_nil in H.
  - rewrite IH. unfold MocConfigSettings, GetCompileDefinitionsAndDirectories.
    cbn [fst snd].
    destruct (decide (c = li)) as [->|Hne];
      repeat case_decide; cbn;
      rewrite ?lookup_insert_eq, ?lookup_insert_ne by done;
      try done; exfalso; set_solver.
Qed.

Lemma MocConfigSettings_defines (target : cmGeneratorTarget)
    (incs compileDefs : string) (configs : list string)
    (setup : AutogenSetup) (li : string) :
  let joined c :=
    cmJoin (std_set_insert_range (CompileDefinitions target c) []) ";" in
  configMocDefines
    (fold_left (MocConfigSettings target incs compileDefs) configs setup) !! li
  = if decide (li ∈ configs ∧ joined li ≠ compileDefs)
    then Some (joined li)
    else configMocDefines setup !! li.
Proof.
  intros joined. revert setup.
  induction configs as [|c r IH]; intros setup; cbn [fold_left].
  - case_decide as H; [|done]. destruct H as [H _]. by apply elem_of_nil in H.
  - rewrite IH. unfold MocConfigSettings, GetCompileDefinitionsAndDirectories.
    cbn [fst snd]. fold (joined c).
    destruct (decide (c = li)) as [->|Hne];
      repeat case_decide; cbn;
      rewrite ?lookup_insert_eq, ?lookup_insert_ne by done;
      try done; exfalso; set_solver.
Qed.

Lemma UicConfigSettings_options (target : cmGeneratorTarget)
    (uicOpts : string) (configs : list string) (setup : AutogenSetup)
    (li : string) :
  configUicOptions
    (fold_left (UicConfigSettings target uicOpts) configs setup) !! li
  = if decide (li ∈ configs ∧ UicGetOpts target li ≠ uicOpts)
    then Some (UicGetOpts target li)
    else configUicOptions setup !! li.
Proof.
  revert setup. induction configs as [|c r IH]; intros setup; cbn [fold_left].
  - case_decide as H; [|done]. destruct H as [H _]. by apply elem_of_nil in H.
  - rewrite IH. unfold UicConfigSettings.
    destruct (decide (c = li)) as [->|Hne];
      repeat case_decide; cbn;
      rewrite ?lookup_insert_eq, ?lookup_insert_ne by done;
      try done; exfalso; set_solver.
Qed.

Lemma is_Some_if {A : Type} (P : Prop) `{!Decision P} (x : A) :
  is_Some (if decide P then Some x else None) ↔ P.
Proof. case_decide; split; eauto; try done; by intros [? ?]. Qed.

(** C4, amended.  For a configuration [li] of the list (with no entry of
    its own in the maps yet), [SetupAutoTargetMoc] records an include entry
    exactly when its joined include string differs from the one of the
    baseline [config], and a define entry exactly when its joined define
    string differs; the entry is the joined string.  Equal values give no
    entry.  An include list that is a reordering of the baseline list,
    different from it, gives an entry when no element has the separator
    [;] in it; the defines are joined from a sorted set, so the same
    defines in another order give no entry.  [SetupAutoTargetUic] does for
    the UI options what is said for the includes, and it returns when
    every registered .ui file has its options property. *)
Theorem config_diff_entries (target : cmGeneratorTarget)
    (qtMajorVersion config : string) (configs : list string)
    (setup : AutogenSetup) (w : World) (li : string) :
  li ∈ configs →
  configMocIncludes setup !! li = None →
  configMocDefines setup !! li = None →
  configUicOptions setup !! li = None →
  let base := GetCompileDefinitionsAndDirectories target config "" "" in
  let cur := GetCompileDefinitionsAndDirectories target li "" "" in
  let no_sep := Forall (fun x => has_char ";" x = false) in
  (∃ setup' w',
     SetupAutoTargetMoc target qtMajorVersion config configs setup w
     = Done (setup', w')
     ∧ (is_Some (configMocIncludes setup' !! li) ↔ cur.1 ≠ base.1)
     ∧ (is_Some (configMocDefines setup' !! li) ↔ cur.2 ≠ base.2)
     ∧ (∀ v, configMocIncludes setup' !! li = Some v → v = cur.1)
     ∧ (∀ v, configMocDefines setup' !! li = Some v → v = cur.2)
     ∧ (IncludeDirectories target li ≡ₚ IncludeDirectories target config →
        IncludeDirectories target li ≠ IncludeDirectories target config →
        no_sep (IncludeDirectories target config) →
        is_Some (configMocIncludes setup' !! li))
     ∧ (CompileDefinitions target li ≡ₚ CompileDefinitions target config →
        configMocDefines setup' !! li = None))
  ∧ (∀ setup' w',
       SetupAutoTargetUic target qtMajorVersion config configs setup w
       = Done (setup', w') →
       (is_Some (configUicOptions setup' !! li)
        ↔ UicGetOpts target li ≠ UicGetOpts target config)
       ∧ (∀ v, configUicOptions setup' !! li = Some v →
               v = UicGetOpts target li)
       ∧ (AutoUicOptions target li ≡ₚ AutoUicOptions target config →
          AutoUicOptions target li ≠ AutoUicOptions target config →
          no_sep (AutoUicOptions target config) →
          is_Some (configUicOptions setup' !! li)))
  ∧ (UiFilesHaveOptions (Makefile target) →
     ∃ setup' w',
       SetupAutoTargetUic target qtMajorVersion config configs setup w
       = Done (setup', w')).
Proof.
  intros Hin Hi Hd Hu base cur no_sep. split; [|split].
  - destruct (SetupAutoTargetMoc_setup target qtMajorVersion config configs
                setup w) as [w' Hrun].
    eexists _, w'. split; [exact Hrun|].
    rewrite MocConfigSettings_includes, MocConfigSettings_defines.
    rewrite Hi, Hd. fold base.
    change (cmJoin (IncludeDirectories target li) ";") with cur.1.
    change (cmJoin (std_set_insert_range (CompileDefinitions target li) []) ";")
      with cur.2.
    rewrite !is_Some_if.
    split; [naive_solver|]. split; [naive_solver|].
    split; [intros v; case_decide; congruence|].
    split; [intros v; case_decide; congruence|].
    split.
    + intros Hperm Hne Hsep. split; [done|]. by apply cmJoin_reordered.
    + intros Hperm. case_decide as H; [|done]. destruct H as [_ H].
      exfalso. apply H. unfold base, cur, GetCompileDefinitionsAndDirectories.
      cbn [snd]. by rewrite (std_set_insert_range_Permutation _ _ Hperm).
  - intros setup' w' Hrun.
    apply SetupAutoTargetUic_setup in Hrun as ->.
    rewrite UicConfigSettings_options, Hu. rewrite !is_Some_if.
    split; [naive_solver|].
    split; [intros v; case_decide; congruence|].
    intros Hperm Hne Hsep. split; [done|]. by apply cmJoin_reordered.
  - intros Hui.
    destruct (ok_SetupAutoTargetUic "" target qtMajorVersion config configs
                setup Hui w) as (setup' & w' & Hrun & _).
    eauto.
Qed.

End Differ.

(** C4 as stated fails for a reordering: the defines B, A of one
    configuration against A, B of the baseline give no entry, and neither
    do two include lists in different orders whose joined strings
    coincide. *)
Lemma config_reordered_no_entry :
  let target :=
    Demo.target (Demo.makefile OLD Demo.qt5tools) []
                Demo.incsReordered Demo.defsReordered in
  (CompileDefinitions target "Debug" ≡ₚ CompileDefinitions target ""
   ∧ CompileDefinitions target "Debug" ≠ CompileDefinitions target ""
   ∧ IncludeDirectories target "Debug" ≡ₚ IncludeDirectories target ""
   ∧ IncludeDirectories target "Debug" ≠ IncludeDirectories target "")
  ∧ ∃ setup' w',
      SetupAutoTargetMoc (C:=Demo.collaborators) target "5" ""
                         ["Debug"; "Release"] emptySetup Demo.world
      = Done (setup', w')
      ∧ configMocDefines setup' !! "Debug" = None
      ∧ configMocIncludes setup' !! "Debug" = None.
Proof.
  intros target. split.
  - repeat split; try apply perm_swap; discriminate.
  - destruct (SetupAutoTargetMoc_setup (C:=Demo.collaborators) target "5" ""
                ["Debug"; "Release"] emptySetup Demo.world) as [w' Hrun].
    eexists _, w'. split; [exact Hrun|]. split; vm_compute; reflexivity.
Qed.

Lemma config_diff_entries_witness :
  ∃ setup' w',
    SetupAutoTargetMoc (C:=Demo.collaborators) Demo.app "5" ""
                       ["Debug"; "Release"] emptySetup Demo.world
    = Done (setup', w')
    ∧ configMocIncludes setup' !! "Debug" = Some "/src;/build/debug"
    ∧ configMocIncludes setup' !! "Release" = None.
Proof.
  destruct (config_diff_entries (C:=Demo.collaborators) Demo.app "5" ""
              ["Debug"; "Release"] emptySetup Demo.world "Debug")
    as [(s' & w' & Hrun & Hinc & _ & Hval & _) _];
    [by left|reflexivity..|].
  destruct (config_diff_entries (C:=Demo.collaborators) Demo.app "5" ""
              ["Debug"; "Release"] emptySetup Demo.world "Release")
    as [(s2 & w2 & Hrun2 & Hinc2 & _) _];
    [by right; left|reflexivity..|].
  rewrite Hrun in Hrun2. injection Hrun2 as <- <-.
  exists s', w'. split; [exact Hrun|]. split.
  - destruct (proj2 Hinc) as [v Hv]; [vm_compute; discriminate|].
    rewrite Hv. f_equal. apply (Hval v Hv).
  - destruct (configMocIncludes s' !! "Release") as [v|] eqn:Hv; [|done].
    exfalso. apply (proj1 Hinc2); [by eexists|]. vm_compute. reflexivity.
Defined.

(** ** Tool executables *)

Section Resolver.
Context `{C : Collaborators}.

(** C2, amended.  For the versions "4" and "5": when the import target of
    moc or rcc is not known, an error with the feature, the import target
    and the name of the target is reported, nothing is defined, the path
    [RccGetExecutable] returns is empty, and the computation goes on.  For
    uic this holds for version "4"; for version "5" no error is reported
    and the executable is defined as the empty path. *)
Theorem tool_target_absent (target : cmGeneratorTarget) (v : string)
    (w : World) :
  v = "4" ∨ v = "5" →
  let imported tool :=
    ImportedTargets (Makefile target) !! ("Qt" +:+ v +:+ "::" +:+ tool) in
  let reported feature tool :=
    with_ErrorLog
      (ErrorLog w
       ++ [c_str (feature +:+ ": Qt" +:+ v +:+ "::" +:+ tool
                  +:+ " target not found (" +:+ Name target +:+ ")")]) w in
  (imported "moc" = None →
   MocExecutable target v w = Done (tt, reported "AUTOMOC" "moc"))
  ∧ (imported "rcc" = None →
     RccGetExecutable target v w = Done ("", reported "AUTORCC" "rcc"))
  ∧ (imported "uic" = None →
     UicExecutable target v w
     = if decide (v = "4")
       then Done (tt, reported "AUTOUIC" "uic")
       else AddDefinitionEscaped "_qt_uic_executable" "" w).
Proof.
  intros [-> | ->] imported reported; unfold imported, reported;
    (split; [|split]); intros Habsent;
    unfold MocExecutable, RccGetExecutable, UicExecutable;
    cbv [String.append] in Habsent; cbn; rewrite Habsent; reflexivity.
Qed.

End Resolver.

(** C2 as stated fails for uic and version "5": without the import target
    Qt5::uic no error is reported. *)
Lemma UicExecutable_qt5_absent_silent :
  ImportedTargets (Makefile Demo.app) !! "Qt5::uic" = None
  ∧ ∃ w', UicExecutable (C:=Demo.collaborators) Demo.app "5" Demo.world
          = Done (tt, w')
          ∧ ErrorLog w' = [].
Proof. split; [reflexivity|]. eexists. split; reflexivity. Qed.

Lemma tool_target_absent_witness :
  MocExecutable (C:=Demo.collaborators)
    (Demo.target (Demo.makefile OLD ∅) [] Demo.incs Demo.defs) "4" Demo.world
  = Done (tt, with_ErrorLog ["AUTOMOC: Qt4::moc target not found (app)"]
                            Demo.world).
Proof.
  apply (tool_target_absent (C:=Demo.collaborators)
           (Demo.target (Demo.makefile OLD ∅) [] Demo.incs Demo.defs) "4"
           Demo.world).
  - left. reflexivity.
  - reflexivity.
Defined.

(** ** Dependencies of the resource files *)

Section Depends.
Context `{C : Collaborators}.


Lemma ExtractSource_qrc (mocEnabled uicEnabled rccEnabled : bool)
    (srcFiles : list cmSourceFile)
    (acc : list string * list (string * bool)) :
  (fold_left (ExtractSource mocEnabled uicEnabled rccEnabled) srcFiles acc).2
  = acc.2 ++ map qrcSourceOf
               (filter (fun sf => qrcEligible rccEnabled sf = true) srcFiles).
Proof.
  revert acc. induction srcFiles as [|sf r IH]; intros acc; cbn [fold_left].
  - by rewrite app_nil_r.
  - rewrite IH, filter_cons. unfold ExtractSource, qrcEligible.
    destruct (GetPropertyAsBool (SourceProperties sf) "SKIP_AUTOGEN");
      cbn [negb andb]; [by rewrite decide_False|].
    destruct rccEnabled; cbn [andb snd]; [|by rewrite decide_False].
    destruct (bool_decide (Extension sf = "qrc")); cbn [andb];
      [|by rewrite decide_False].
    destruct (GetPropertyAsBool (SourceProperties sf) "SKIP_AUTORCC");
      cbn [negb]; [by rewrite decide_False|].
    rewrite decide_True by done. by rewrite <- app_assoc.
Qed.

Lemma RccGetExecutable_result (target : cmGeneratorTarget) (v : string)
    (w : World) :
  ∃ cmd log, RccGetExecutable target v w = Done (cmd, with_ErrorLog log w).
Proof.
  assert (Hw : w = with_ErrorLog (ErrorLog w) w) by (by destruct w).
  unfold RccGetExecutable.
  repeat (match goal with
          | |- context [decide ?P] => destruct (decide P)
          | |- context [ImportedTargets ?m !! ?k] =>
              destruct (ImportedTargets m !! k)
          end; cbn); run; try done; eauto.
  all: do 2 eexists; rewrite Hw at 1; reflexivity.
Qed.

(** What one registered resource file adds. *)
Lemma QrcSource_step (dir v cmd : string) (depends provides : list string)
    (it : string * bool) (w : World) :
  ∃ depends' provides' w',
    QrcSource dir v cmd (depends, provides) it w
    = Done ((depends', provides'), w')
    ∧ (∀ x, x ∈ depends' ↔ x ∈ depends ∨ qrcContributes v cmd it x)
    ∧ CMakeDependFiles w'
      = CMakeDependFiles w ++ (if it.2 then [] else [it.1]).
Proof.
  destruct it as [absFile generated].
  unfold QrcSource, qrcContributes. cbn [fst snd].
  destruct generated; run.
  - do 3 eexists. split; [reflexivity|]. cbn. split; [|by rewrite app_nil_r].
    intros x. rewrite std_set_insert_elem. naive_solver.
  - destruct (RccListInputs v cmd absFile) as [files|error]; run;
      do 3 eexists; (split; [reflexivity|]); cbn; (split; [|done]); intros x.
    + rewrite std_set_insert_range_elem. naive_solver.
    + naive_solver.
Qed.

(** What the loop over the registered resource files adds. *)
Lemma QrcSource_loop (dir v cmd : string) (qs : list (string * bool))
    (depends provides : list string) (w : World) :
  ∃ depends' provides' w',
    forEach (QrcSource dir v cmd) qs (depends, provides) w
    = Done ((depends', provides'), w')
    ∧ (∀ x, x ∈ depends'
            ↔ x ∈ depends ∨ ∃ it, it ∈ qs ∧ qrcContributes v cmd it x)
    ∧ CMakeDependFiles w'
      = CMakeDependFiles w ++ (filter (fun it => it.2 = false) qs).*1.
Proof.
  revert depends provides w.
  induction qs as [|it r IH]; intros depends provides w; cbn [forEach].
  - exists depends, provides, w. split; [done|]. split.
    + intros x. split; [auto|]. intros [?|(it & Hit & _)]; [done|].
      by apply elem_of_nil in Hit.
    + by rewrite app_nil_r.
  - destruct (QrcSource_step dir v cmd depends provides it w)
      as (d1 & p1 & w1 & Hrun & Hd1 & Hc1).
    rewrite (bind_Done _ _ _ _ _ Hrun).
    destruct (IH d1 p1 w1) as (d & p & w' & Hrun' & Hd & Hc).
    exists d, p, w'. split; [done|]. split.
    + intros x. rewrite Hd, Hd1. split.
      * intros [[?|?]|(it' & Hit & Hx)]; eauto.
        -- right. exists it. split; [by left|done].
        -- right. exists it'. split; [by right|done].
      * intros [?|(it' & Hit & Hx)]; [auto|].
        apply elem_of_cons in Hit as [->|Hit]; eauto.
    + rewrite Hc, Hc1, filter_cons, <- app_assoc. f_equal.
      destruct it as [absFile []]; cbn; case_decide; done.
Qed.

Lemma QrcSources_result (target : cmGeneratorTarget)
    (qs : list (string * bool)) (depends provides : list string)
    (w : World) :
  ∃ cmd depends' provides' w',
    QrcSources target qs (depends, provides) w
    = Done ((depends', provides'), w')
    ∧ (∀ x, x ∈ depends'
            ↔ x ∈ depends
              ∨ ∃ it, it ∈ qs
                      ∧ qrcContributes (GetQtMajorVersion target w) cmd it x)
    ∧ CMakeDependFiles w'
      = CMakeDependFiles w ++ (filter (fun it => it.2 = false) qs).*1.
Proof.
  unfold QrcSources. destruct (decide (qs ≠ [])) as [Hne|Heq].
  - destruct (RccGetExecutable_result target (GetQtMajorVersion target w) w)
      as (cmd & log & Hrun).
    destruct (QrcSource_loop (GetAutogenTargetBuildDir target)
                (GetQtMajorVersion target w) cmd qs depends provides
                (with_ErrorLog log w)) as (d & p & w' & Hloop & Hd & Hc).
    exists cmd, d, p, w'. split; [|done].
    unfold gets, mbind, M_bind at 1. rewrite (bind_Done _ _ _ _ _ Hrun).
    exact Hloop.
  - apply dec_stable in Heq as ->.
    exists "", depends, provides, w. split; [done|]. split.
    + intros x. split; [auto|]. intros [?|(it & Hit & _)]; [done|].
      by apply elem_of_nil in Hit.
    + by rewrite app_nil_r.
Qed.

(** C6.  [InitializeAutogenTarget] returns its dependencies, and a path
    is among them exactly when it is a user defined or target dependency,
    a generated source to scan, or comes from a registered resource file:
    the file's own canonical path when it is generated, one of its listed
    inputs when it is not.  The resource files added to the files that
    make CMake run again are the registered ones that are not generated. *)
Theorem qrc_dependencies (target : cmGeneratorTarget) (w : World) :
  let mocEnabled := GetPropertyAsBool (Properties target) "AUTOMOC" in
  let uicEnabled := GetPropertyAsBool (Properties target) "AUTOUIC" in
  let rccEnabled := GetPropertyAsBool (Properties target) "AUTORCC" in
  let srcFiles := ConfigCommonSourceFiles target in
  let generatedSources :=
    (fold_left (ExtractSource mocEnabled uicEnabled rccEnabled)
               srcFiles ([], [])).1 in
  let registered :=
    filter (fun sf => qrcEligible rccEnabled sf = true) srcFiles in
  ∃ cmd depends provides w',
    AutogenDependsProvides target w = Done ((depends, provides), w')
    ∧ (∀ x, x ∈ depends
            ↔ x ∈ TargetDepends target
              ∨ x ∈ generatedSources
              ∨ ∃ sf, sf ∈ registered
                      ∧ qrcContributes (GetQtMajorVersion target w) cmd
                                       (qrcSourceOf sf) x)
    ∧ CMakeDependFiles w'
      = CMakeDependFiles w
        ++ map (fun sf => GetRealPath (FullPath sf))
               (filter (fun sf =>
                          GetPropertyAsBool (SourceProperties sf) "GENERATED"
                          = false) registered).
Proof.
  intros mocEnabled uicEnabled rccEnabled srcFiles generatedSources registered.
  unfold AutogenDependsProvides.
  fold mocEnabled uicEnabled rccEnabled srcFiles.
  pose proof (ExtractSource_qrc mocEnabled uicEnabled rccEnabled srcFiles
                ([], [])) as Hqrc.
  cbn [snd app] in Hqrc. fold registered in Hqrc.
  subst generatedSources.
  destruct (fold_left (ExtractSource mocEnabled uicEnabled rccEnabled)
              srcFiles ([], [])) as [generatedSources qrcSources].
  cbn [fst snd] in *. subst qrcSources.
  set (base := std_set_insert_range generatedSources (TargetDepends target)).
  assert (Hbase : ∀ x, x ∈ base
                       ↔ x ∈ TargetDepends target ∨ x ∈ generatedSources).
  { intros x. unfold base. rewrite std_set_insert_range_elem. naive_solver. }
  assert (Hreg : ∀ (P : string * bool → Prop),
            (∃ it, it ∈ map qrcSourceOf registered ∧ P it)
            ↔ ∃ sf, sf ∈ registered ∧ P (qrcSourceOf sf)).
  { intros P. split.
    - intros (it & Hit & HP). apply list_elem_of_fmap in Hit as (sf & -> & ?).
      eauto.
    - intros (sf & Hsf & HP). exists (qrcSourceOf sf). split; [|done].
      apply list_elem_of_fmap. eauto. }
  assert (Hfiles : (filter (fun it : string * bool => it.2 = false)
                           (map qrcSourceOf registered)).*1
                   = map (fun sf => GetRealPath (FullPath sf))
                         (filter (fun sf =>
                            GetPropertyAsBool (SourceProperties sf) "GENERATED"
                            = false) registered)).
  { clear. induction registered as [|sf r IH]; [done|].
    cbn [map]. rewrite !filter_cons. unfold qrcSourceOf at 1. cbn [snd].
    repeat case_decide; try done. rewrite fmap_cons. cbn [map]. by rewrite IH. }
  destruct mocEnabled.
  - destruct (QrcSources_result target (map qrcSourceOf registered) base
                [GetAutogenTargetBuildDir target +:+ "/mocs_compilation.cpp"]
                (with_GeneratedSources
                   (GeneratedSources w
                    ++ [(GetAutogenTargetBuildDir target
                         +:+ "/mocs_compilation.cpp", MOC)]) w))
      as (cmd & d & p & w' & Hrun & Hd & Hc).
    exists cmd, d, p, w'. split; [exact Hrun|]. split.
    + intros x. rewrite Hd, Hbase, Hreg. naive_solver.
    + rewrite Hc, Hfiles. done.
  - destruct (QrcSources_result target (map qrcSourceOf registered) base [] w)
      as (cmd & d & p & w' & Hrun & Hd & Hc).
    exists cmd, d, p, w'. split; [exact Hrun|]. split.
    + intros x. rewrite Hd, Hbase, Hreg. naive_solver.
    + rewrite Hc, Hfiles. done.
Qed.

End Depends.

(** ** The target comment *)

Section Comment.
Context `{C : Collaborators}.

Lemma AutogenDependsProvides_total (target : cmGeneratorTarget) (w : World) :
  ∃ r w', AutogenDependsProvides target w = Done (r, w').
Proof.
  unfold AutogenDependsProvides.
  destruct (fold_left _ _ _) as [generatedSources qrcSources].
  destruct (GetPropertyAsBool (Properties target) "AUTOMOC"); run;
    edestruct QrcSources_result as (cmd & d & p & w' & Hrun & _);
    rewrite Hrun; eauto.
Qed.

(** C8.  The comment composition reads [toolNames[0]] first; the read, the
    composition and with them [InitializeAutogenTarget] succeed exactly
    when AUTOMOC, AUTOUIC or AUTORCC is enabled, and with all three
    disabled the vector is empty and the read is outside it. *)
Theorem AutogenComment_in_bounds (mocEnabled uicEnabled rccEnabled : bool)
    (target : cmGeneratorTarget) (w : World) :
  ((∃ x, deref (toolNamesOf mocEnabled uicEnabled rccEnabled) 0 = Done x)
   ↔ mocEnabled || uicEnabled || rccEnabled = true)
  ∧ ((∃ c, AutogenComment mocEnabled uicEnabled rccEnabled target = Done c)
     ↔ mocEnabled || uicEnabled || rccEnabled = true)
  ∧ ((∃ r w', InitializeAutogenTarget target w = Done (r, w'))
     ↔ GetPropertyAsBool (Properties target) "AUTOMOC"
       || GetPropertyAsBool (Properties target) "AUTOUIC"
       || GetPropertyAsBool (Properties target) "AUTORCC" = true)
  ∧ toolNamesOf false false false = []
  ∧ deref (toolNamesOf false false false) 0 = Fail OutOfRange
  ∧ AutogenComment false false false target = Fail OutOfRange.
Proof.
  assert (Hcomment : ∀ m u r,
            (∃ c, AutogenComment m u r target = Done c) ↔ m || u || r = true).
  { intros [] [] []; simpl; split; eauto; try done;
      intros [? ?]; discriminate. }
  split; [|split; [apply Hcomment|split]].
  - destruct mocEnabled, uicEnabled, rccEnabled; simpl; split; eauto;
      try done; intros [? ?]; discriminate.
  - unfold InitializeAutogenTarget.
    set (m := GetPropertyAsBool (Properties target) "AUTOMOC").
    set (u := GetPropertyAsBool (Properties target) "AUTOUIC").
    set (r := GetPropertyAsBool (Properties target) "AUTORCC").
    rewrite <- (Hcomment m u r). split.
    + intros (res & w' & Hrun). unfold mbind, M_bind, lift in Hrun.
      destruct (AutogenComment m u r target); [eauto|discriminate].
    + intros [c Hc]. rewrite Hc.
      destruct (AutogenDependsProvides_total target w) as ([d p] & w' & Hrun).
      exists (c, d, p), w'. unfold mbind, M_bind, lift. by rewrite Hrun.
  - repeat split; reflexivity.
Qed.

End Comment.

(** ** The vectors of the classification *)

Section Buckets.
Context `{C : Collaborators}.

Lemma RccFiles_grows (qtMajorVersion rccCommand : string)
    (rccOptionsTarget : list string) (srcFiles : list cmSourceFile)
    (acc : RccLists) (w : World) :
  ∃ acc' w',
    forEach (RccFile qtMajorVersion rccCommand rccOptionsTarget) srcFiles
            acc w
    = Done (acc', w')
    ∧ grows (map (fun sf => GetRealPath (FullPath sf)) srcFiles)
            (rccFiles acc) (rccFiles acc').
Proof.
  revert acc w. induction srcFiles as [|sf r IH]; intros acc w;
    cbn [forEach map].
  - exists acc, w. split; [done|]. apply grows_refl.
  - destruct (RccFile_grows qtMajorVersion rccCommand rccOptionsTarget acc
                sf w) as (a1 & w1 & Hrun & H1).
    destruct (IH a1 w1) as (a2 & w2 & Hrun2 & H2).
    exists a2, w2. rewrite (bind_Done _ _ _ _ _ Hrun). split; [done|].
    by apply (grows_trans [GetRealPath (FullPath sf)]) with (rccFiles a1).
Qed.

(** C7, amended.  When the canonical paths of the source files are
    pairwise different, the vectors of sources, headers, moc skips and uic
    skips that [SetupAcquireScanFiles] fills, and the vector of resource
    files of [SetupAutoTargetRcc], have no path twice. *)
Theorem buckets_NoDup (target : cmGeneratorTarget)
    (mocEnabled uicEnabled : bool) (qtMajorVersion : string)
    (srcFiles : list cmSourceFile) (w : World) :
  NoDup (map (fun sf => GetRealPath (FullPath sf)) srcFiles) →
  (∃ setup w',
     SetupAcquireScanFiles target mocEnabled uicEnabled srcFiles
                           emptySetup w
     = Done (setup, w')
     ∧ NoDup (sources setup) ∧ NoDup (headers setup)
     ∧ NoDup (mocSkip setup) ∧ NoDup (uicSkip setup))
  ∧ (∃ rccCommand lists w',
       SetupAutoTargetRccLists target qtMajorVersion srcFiles w
       = Done ((rccCommand, lists), w')
       ∧ NoDup (rccFiles lists)).
Proof.
  intros Hnd. split.
  - destruct (SetupAcquireScanFiles_grows target mocEnabled uicEnabled
                srcFiles emptySetup w) as (s & w' & Hrun & H1 & H2 & H3 & H4).
    exists s, w'. split; [done|].
    repeat split; eapply grows_NoDup; eauto.
  - unfold SetupAutoTargetRccLists.
    destruct (RccGetExecutable_result target qtMajorVersion w)
      as (cmd & log & Hcmd).
    rewrite (bind_Done _ _ _ _ _ Hcmd).
    edestruct RccFiles_grows as (lists & w' & Hrun & Hg).
    rewrite (bind_Done _ _ _ _ _ Hrun).
    exists cmd, lists, w'. split; [done|]. eapply grows_NoDup; eauto.
Qed.

End Buckets.

(** C7 as stated fails: a source file and a link to it have the same
    canonical path, which is then twice in the vector of sources. *)
Lemma buckets_duplicate :
  FullPath Demo.a_cpp ≠ FullPath Demo.link_cpp
  ∧ ∃ setup w',
      SetupAcquireScanFiles (C:=Demo.collaborators) Demo.app true true
        [Demo.a_cpp; Demo.link_cpp] emptySetup Demo.world
      = Done (setup, w')
      ∧ sources setup = ["/src/a.cpp"; "/src/a.cpp"]
      ∧ ¬ NoDup (sources setup).
Proof.
  split; [discriminate|].
  eexists _, _. split; [vm_compute; reflexivity|]. cbn [sources].
  split; [reflexivity|].
  intros Hnd. apply NoDup_cons in Hnd as [Hnot _]. apply Hnot. by left.
Qed.

Lemma buckets_NoDup_witness :
  ∃ setup w',
    SetupAcquireScanFiles (C:=Demo.collaborators) Demo.app true true
      (ConfigCommonSourceFiles Demo.app) emptySetup Demo.world
    = Done (setup, w')
    ∧ NoDup (sources setup) ∧ NoDup (headers setup).
Proof.
  destruct (buckets_NoDup (C:=Demo.collaborators) Demo.app true true "5"
              (ConfigCommonSourceFiles Demo.app) Demo.world)
    as [(setup & w' & Hrun & Hs & Hh & _) _].
  - apply (bool_decide_unpack _). vm_compute. exact I.
  - exists setup, w'. auto.
Defined.

(** C1, the code at the failing input.  With moc and uic enabled and the
    policy OLD, the generated source /build/gen.cpp, which has SKIP_AUTOMOC
    set, goes to no list at all: the moc skip list stays empty.  Under WARN
    the same happens after the warning.  With uic disabled the same file
    does go to the moc skip list. *)
Theorem SetupAcquireScanFiles_generated_skip_lost :
  let target policy :=
    Demo.target (Demo.makefile policy Demo.qt5tools) [Demo.gen_cpp]
                Demo.incs Demo.defs in
  (GetPropertyAsBool (C:=Demo.collaborators)
     (SourceProperties Demo.gen_cpp) "GENERATED" = true
   ∧ GetPropertyAsBool (C:=Demo.collaborators)
       (SourceProperties Demo.gen_cpp) "SKIP_AUTOMOC" = true)
  ∧ SetupAcquireScanFiles (C:=Demo.collaborators) (target OLD) true true
      [Demo.gen_cpp] emptySetup Demo.world
    = Done (emptySetup, Demo.world)
  ∧ (∃ msg,
       SetupAcquireScanFiles (C:=Demo.collaborators) (target WARN) true true
         [Demo.gen_cpp] emptySetup Demo.world
       = Done (emptySetup, with_Messages [msg] Demo.world))
  ∧ SetupAcquireScanFiles (C:=Demo.collaborators) (target OLD) true false
      [Demo.gen_cpp] emptySetup Demo.world
    = Done (push_mocSkip "/build/gen.cpp" emptySetup, Demo.world).
Proof.
  intros target. split; [split; reflexivity|].
  split; [vm_compute; reflexivity|].
  split; [eexists; vm_compute; reflexivity|].
  vm_compute; reflexivity.
Qed.

(** ** More on the option merge *)

Lemma std_find_elem (x : string) (v : list string) :
  std_find x v ≠ length v ↔ x ∈ v.
Proof.
  induction v as [|y r IH]; simpl.
  - split; [lia|]. intros H. by apply elem_of_nil in H.
  - destruct (decide (y = x)) as [->|Hne].
    + split; [intros _; by left|lia].
    + rewrite elem_of_cons. split.
      * intros H. right. apply IH. lia.
      * intros [->|H]; [done|]. apply IH in H. lia.
Qed.

Lemma std_find_app_here (x : string) (pre post : list string) :
  x ∉ pre → std_find x (pre ++ x :: post) = length pre.
Proof.
  induction pre as [|y r IH]; intros Hnot; simpl.
  - by rewrite decide_True.
  - rewrite decide_False by (intros ->; apply Hnot; by left).
    rewrite IH; [done|]. intros H. apply Hnot. by right.
Qed.

Lemma RccMergeLoop_append (isQt5 : bool) (opts0 fileOpts : list string) :
  (∀ t, t ∈ fileOpts → t ∈ opts0 → isValueOption isQt5 t = false) →
  ∀ (fuel i : nat) (extra : list string),
    i ≤ length fileOpts → length fileOpts - i ≤ fuel →
    RccMergeLoop fuel isQt5 fileOpts (mkMergeState opts0 extra i)
    = Done (mkMergeState opts0
              (extra ++ filter (fun t => t ∉ opts0) (drop i fileOpts))
              (length fileOpts)).
Proof.
  intros Hval fuel. induction fuel as [|fuel IH]; intros i extra Hi Hfuel;
    simpl.
  - destruct (decide (i = length fileOpts)) as [->|]; [|lia].
    by rewrite drop_all, app_nil_r.
  - destruct (decide (i = length fileOpts)) as [->|Hne].
    { by rewrite drop_all, app_nil_r. }
    destruct (lookup_lt_is_Some_2 fileOpts i) as [tok Htok]; [lia|].
    rewrite (drop_S _ _ _ Htok), filter_cons.
    unfold RccMergeBody, deref. simpl. rewrite Htok. simpl.
    destruct (decide (std_find tok opts0 ≠ length opts0)) as [Hf|Hf].
    + apply std_find_elem in Hf as Hin.
      rewrite (Hval tok (list_elem_of_lookup_2 _ _ _ Htok) Hin).
      rewrite decide_False by (intros H; by apply H).
      simpl. rewrite IH by lia. by replace (i + 1) with (S i) by lia.
    + rewrite std_find_elem in Hf. rewrite decide_True by done.
      simpl. rewrite IH by lia. replace (i + 1) with (S i) by lia.
      by rewrite <- app_assoc.
Qed.

(** X1.  When no token of the file-level list that is already in the
    target-level list is a value option, the merge changes nothing of the
    target-level list and appends, in their order, the file-level tokens
    that are not in it (each occurrence, and a token that follows an
    appended value option like any other). *)
Theorem RccMergeOptions_appends (isQt5 : bool) (opts0 fileOpts : list string) :
  (∀ t, t ∈ fileOpts → t ∈ opts0 → isValueOption isQt5 t = false) →
  RccMergeOptions isQt5 opts0 fileOpts
  = Done (opts0 ++ filter (fun t => t ∉ opts0) fileOpts).
Proof.
  intros Hval. unfold RccMergeOptions.
  rewrite (RccMergeLoop_append isQt5 opts0 fileOpts Hval) by lia.
  reflexivity.
Qed.

Lemma RccMergeOptions_appends_witness :
  RccMergeOptions true ["/r"; "--verbose"] ["--root"; "/r"; "--quiet"]
  = Done ["/r"; "--verbose"; "--root"; "--quiet"].
Proof.
  apply (RccMergeOptions_appends true ["/r"; "--verbose"]
           ["--root"; "/r"; "--quiet"]).
  intros t Ht Ho.
  apply elem_of_cons in Ho as [->|Ho]; [reflexivity|].
  apply elem_of_cons in Ho as [->|Ho]; [reflexivity|].
  by apply elem_of_nil in Ho.
Defined.

(** X2.  A value option of the target-level list whose first occurrence
    is followed by a value gets the value the file-level list gives for
    it; nothing else of the list changes and nothing is appended. *)
Theorem RccMergeOptions_overrides (isQt5 : bool) (pre post : list string)
    (tok old new : string) :
  tok ∉ pre →
  isValueOption isQt5 tok = true →
  RccMergeOptions isQt5 (pre ++ tok :: old :: post) [tok; new]
  = Done (pre ++ tok :: new :: post).
Proof.
  intros Hnot Hval. unfold RccMergeOptions. cbn [length RccMergeLoop].
  cbn [fit]. rewrite decide_False by done.
  unfold RccMergeBody, deref. cbn [fit opts extraOpts lookup list_lookup].
  cbn [mbind Access_bind].
  rewrite (std_find_app_here tok pre (old :: post) Hnot).
  rewrite Hval.
  rewrite decide_True by (rewrite length_app; simpl; lia).
  rewrite decide_True by (rewrite length_app; simpl; split; lia).
  cbn [lookup list_lookup Nat.add mbind Access_bind]. unfold assign.
  rewrite decide_True by (rewrite length_app; simpl; lia).
  cbn [mbind Access_bind mret Access_ret fit].
  rewrite decide_True by done. cbn [mbind Access_bind mret Access_ret opts extraOpts].
  rewrite app_nil_r. f_equal.
  replace (length pre + 1) with (length pre + 1 + 0) by lia.
  rewrite (insert_app_r_alt pre _ _ new) by lia.
  by replace (length pre + 1 + 0 - length pre) with 1 by lia.
Qed.

Lemma RccMergeOptions_overrides_witness :
  RccMergeOptions false ["-verbose"; "-name"; "app"; "-compress"; "9"]
                        ["-name"; "icons"]
  = Done ["-verbose"; "-name"; "icons"; "-compress"; "9"].
Proof.
  apply (RccMergeOptions_overrides false ["-verbose"] ["-compress"; "9"]
           "-name" "app" "icons").
  - intros H. apply elem_of_cons in H as [H|H]; [discriminate|].
    by apply elem_of_nil in H.
  - reflexivity.
Defined.

Lemma RccMergeBody_inv (isQt5 : bool) (opts0 fileOpts : list string)
    (st st' : MergeState) :
  merge_inv opts0 fileOpts st →
  RccMergeBody isQt5 fileOpts st = Done st' →
  merge_inv opts0 fileOpts st'.
Proof.
  intros (Hlen & Hhd & Hprov & Hsub & Hex & Hfit).
  unfold RccMergeBody, deref.
  destruct (fileOpts !! fit st) as [tok|] eqn:Htok; [|discriminate].
  cbn [mbind Access_bind].
  assert (Hone : take (fit st + 1) fileOpts = take (fit st) fileOpts ++ [tok]).
  { replace (fit st + 1) with (S (fit st)) by lia. by apply take_S_r. }
  assert (Hlt : fit st < length fileOpts) by (by eapply lookup_lt_Some).
  destruct (decide (std_find tok (opts st) ≠ length (opts st))) as [Hf|Hf].
  - destruct (isValueOption isQt5 tok).
    + destruct (decide (std_find tok (opts st) + 1 ≠ length (opts st)
                        ∧ fit st + 1 ≠ length fileOpts)) as [[H1 H2]|Hn].
      * destruct (fileOpts !! (fit st + 1)) as [v|] eqn:Hv; [|discriminate].
        cbn [mbind Access_bind]. unfold assign.
        destruct (decide (std_find tok (opts st) + 1 < length (opts st)));
          [|discriminate].
        cbn [mbind Access_bind]. intros [= <-].
        unfold merge_inv. cbn [opts extraOpts fit].
        rewrite length_insert.
        split; [done|]. split.
        { rewrite list_lookup_insert_ne by lia. done. }
        split.
        { intros i x Hx.
          destruct (decide (i = std_find tok (opts st) + 1)) as [->|Hne].
          - rewrite list_lookup_insert_eq in Hx by done. inv Hx.
            right. by eapply list_elem_of_lookup_2.
          - rewrite list_lookup_insert_ne in Hx by done. eauto. }
        split.
        { replace (fit st + 1 + 1) with (S (fit st + 1)) by lia.
          rewrite (take_S_r _ _ _ Hv), Hone.
          by do 2 apply sublist_inserts_r. }
        split; [done|]. apply lookup_lt_Some in Hv. lia.
      * intros [= <-]. unfold merge_inv. cbn [opts extraOpts fit].
        rewrite Hone. repeat split; auto; try lia.
        by apply sublist_inserts_r.
    + intros [= <-]. unfold merge_inv. cbn [opts extraOpts fit].
      rewrite Hone. repeat split; auto; try lia.
      by apply sublist_inserts_r.
  - intros [= <-]. unfold merge_inv. cbn [opts extraOpts fit].
    rewrite Hone. do 3 (split; [done|]).
    split; [by apply sublist_app|]. split; [|lia].
    intros x Hx. apply elem_of_app in Hx as [Hx|Hx]; [auto|].
    apply list_elem_of_singleton in Hx as ->. right.
    by eapply list_elem_of_lookup_2.
Qed.

Lemma RccMergeLoop_inv (isQt5 : bool) (opts0 fileOpts : list string)
    (fuel : nat) (st st' : MergeState) :
  merge_inv opts0 fileOpts st →
  RccMergeLoop fuel isQt5 fileOpts st = Done st' →
  merge_inv opts0 fileOpts st'.
Proof.
  revert st. induction fuel as [|fuel IH]; intros st Hinv; simpl.
  - destruct (decide (fit st = length fileOpts)); [|discriminate].
    by intros [= <-].
  - destruct (decide (fit st = length fileOpts)); [by intros [= <-]|].
    destruct (RccMergeBody isQt5 fileOpts st) as [st1|e] eqn:Hbody;
      [|discriminate].
    cbn [mbind Access_bind]. apply IH. eapply RccMergeBody_inv; eauto.
Qed.

(** X3.  The merged list is the target-level list with some values
    replaced, followed by appended tokens: it starts with as many tokens as
    the target-level list has, each of them the old token at that place or
    a token of the file-level list, the first one always the old one; what
    follows is a subsequence of the file-level list.  So the merge never
    drops or reorders a target-level position and never invents a token. *)
Theorem RccMergeOptions_shape (isQt5 : bool) (opts0 fileOpts : list string) :
  ∃ kept appended,
    RccMergeOptions isQt5 opts0 fileOpts = Done (kept ++ appended)
    ∧ length kept = length opts0
    ∧ kept !! 0 = opts0 !! 0
    ∧ (∀ i x, kept !! i = Some x → opts0 !! i = Some x ∨ x ∈ fileOpts)
    ∧ appended `sublist_of` fileOpts.
Proof.
  unfold RccMergeOptions.
  destruct (RccMergeLoop_total isQt5 fileOpts (length fileOpts)
              (mkMergeState opts0 [] 0)) as [st Hrun]; cbn [fit]; [lia..|].
  rewrite Hrun. cbn [mbind Access_bind mret Access_ret].
  apply RccMergeLoop_inv with (opts0 := opts0) in Hrun
    as (Hlen & Hhd & Hprov & Hsub & _ & Hfit).
  - exists (opts st), (extraOpts st). repeat split; auto.
    etrans; [exact Hsub|]. apply sublist_take.
  - unfold merge_inv. cbn [opts extraOpts fit].
    do 2 (split; [done|]). split; [by auto|].
    split; [apply sublist_nil_l|]. split; [|lia].
    intros x Hx. by apply elem_of_nil in Hx.
Qed.

(** The dash skipping, by cases on the first two characters. *)
Lemma optName_cases (isQt5 : bool) (tok : string) :
  optName isQt5 tok
  = match c_str tok with
    | EmptyString => (false, "")
    | String a r =>
        if decide (a = "-"%char) then
          (true,
           if isQt5 then
             match r with
             | EmptyString => r
             | String b r' => if decide (b = "-"%char) then r' else r
             end
           else r)
        else (false, String a r)
    end.
Proof.
  unfold optName. destruct (c_str tok) as [|a r]; [done|].
  destruct (decide (a = "-"%char)) as [->|Hne].
  - destruct isQt5; [|done]. destruct r as [|b r']; [done|].
    destruct (decide (b = "-"%char)) as [->|Hb]; [done|].
    destruct b as [[] [] [] [] [] [] [] []]; done.
  - destruct a as [[] [] [] [] [] [] [] []]; done.
Qed.

Lemma valueOptions_no_dash (r : string) :
  String "-" r ∉ valueOptions.
Proof.
  unfold valueOptions. intros H.
  repeat (apply elem_of_cons in H as [H|H]; [discriminate|]).
  by apply elem_of_nil in H.
Qed.

(** X4.  Which tokens count as value options: with the version-4 dash
    skipping exactly the tokens that read -name, -root, -compress or
    -threshold (as C strings); with the version-5 one these and the same
    four with two dashes. *)
Theorem isValueOption_tokens (isQt5 : bool) (tok : string) :
  isValueOption isQt5 tok = true
  ↔ ∃ name, name ∈ valueOptions
            ∧ (c_str tok = String "-" name
               ∨ (isQt5 = true ∧ c_str tok = String "-" (String "-" name))).
Proof.
  unfold isValueOption. rewrite optName_cases.
  destruct (c_str tok) as [|a r].
  { split; [discriminate|]. intros (n & _ & [H|[_ H]]); discriminate. }
  destruct (decide (a = "-"%char)) as [->|Hne]; cbn [andb].
  - rewrite bool_decide_eq_true. destruct isQt5.
    + destruct r as [|b r'].
      * split; [intros H; exists ""; auto|].
        intros (n & Hn & [[= <-]|[_ [=]]]). done.
      * destruct (decide (b = "-"%char)) as [->|Hb].
        -- split; [intros H; exists r'; auto|].
           intros (n & Hn & [[= <-]|[_ [= <-]]]); [|done].
           by apply valueOptions_no_dash in Hn.
        -- split; [intros H; exists (String b r'); auto|].
           intros (n & Hn & [[= <-]|[_ [= Hb' _]]]); [done|].
           by destruct Hb.
    + split; [intros H; exists r; auto|].
      intros (n & Hn & [[= <-]|[[=] _]]). done.
  - split; [discriminate|].
    intros (n & _ & [[= H _]|[_ [= H _]]]); by destruct Hne.
Qed.

(** ** More on the classification of the sources *)

Section ScanPass.
Context `{C : Collaborators}.

Lemma SetupAcquireScanFile_result (target : cmGeneratorTarget)
    (mocEnabled uicEnabled : bool) (setup : AutogenSetup)
    (sf : cmSourceFile) (w : World) :
  let policy := PolicyCMP0071 (Makefile target) in
  let one (b : bool) := if b then [realPathOf sf] else [] in
  SetupAcquireScanFile target mocEnabled uicEnabled setup sf w
  = Done
      (mkSetup
         (sources setup
          ++ one (scanListed CXX_FILE_FORMAT policy mocEnabled uicEnabled sf))
         (headers setup
          ++ one (scanListed HEADER_FILE_FORMAT policy mocEnabled uicEnabled sf))
         (mocSkip setup
          ++ one (scanSkipped scanMocSkip policy mocEnabled uicEnabled sf))
         (uicSkip setup
          ++ one (scanSkipped scanUicSkip policy mocEnabled uicEnabled sf))
         (configSuffix setup) (configMocIncludes setup)
         (configMocDefines setup) (configUicOptions setup),
       if scanWarned policy mocEnabled uicEnabled sf
       then with_Messages (Messages w ++ [scanWarning sf]) w
       else w).
Proof.
  intros policy one. subst one.
  unfold SetupAcquireScanFile, scanListed, scanSkipped, scanWarned, scanIgnored,
    scanAccept, scanMocSkip, scanUicSkip, scanFormat, scanWarning, realPathOf.
  fold policy. destruct setup as [s h ms us cs ci cd cu]. cbn [sources headers
    mocSkip uicSkip configSuffix configMocIncludes configMocDefines
    configUicOptions].
  destruct (GetFileFormat (c_str (Extension sf))); cbn [bool_decide negb andb
    orb decide_rel];
    destruct (GetPropertyAsBool (SourceProperties sf) "SKIP_AUTOGEN");
    destruct (GetPropertyAsBool (SourceProperties sf) "SKIP_AUTOMOC");
    destruct (GetPropertyAsBool (SourceProperties sf) "SKIP_AUTOUIC");
    destruct mocEnabled, uicEnabled;
    destruct (GetPropertyAsBool (SourceProperties sf) "GENERATED");
    destruct policy; run; rewrite ?app_nil_r; reflexivity.
Qed.

End ScanPass.

Section ScanLoop.
Context `{C : Collaborators}.

Lemma filter_one {A : Type} (P : A → bool) (f : A → string) (x : A)
    (r : list A) :
  map f (filter (fun y => P y = true) (x :: r))
  = (if P x then [f x] else []) ++ map f (filter (fun y => P y = true) r).
Proof.
  rewrite filter_cons. destruct (P x); [by rewrite decide_True|].
  by rewrite decide_False.
Qed.

(** The setup and the state [SetupAcquireScanFiles] returns. *)
Lemma SetupAcquireScanFiles_result (target : cmGeneratorTarget)
    (mocEnabled uicEnabled : bool) (srcFiles : list cmSourceFile)
    (setup : AutogenSetup) (w : World) :
  let policy := PolicyCMP0071 (Makefile target) in
  let paths (P : cmSourceFile → bool) :=
    map realPathOf (filter (fun sf => P sf = true) srcFiles) in
  SetupAcquireScanFiles target mocEnabled uicEnabled srcFiles setup w
  = Done
      (mkSetup
         (sources setup
          ++ paths (scanListed CXX_FILE_FORMAT policy mocEnabled uicEnabled))
         (headers setup
          ++ paths (scanListed HEADER_FILE_FORMAT policy mocEnabled uicEnabled))
         (mocSkip setup
          ++ paths (scanSkipped scanMocSkip policy mocEnabled uicEnabled))
         (uicSkip setup
          ++ paths (scanSkipped scanUicSkip policy mocEnabled uicEnabled))
         (configSuffix setup) (configMocIncludes setup)
         (configMocDefines setup) (configUicOptions setup),
       addMessages
         (map scanWarning
            (filter (fun sf => scanWarned policy mocEnabled uicEnabled sf
                               = true) srcFiles)) w).
Proof.
  intros policy paths. subst paths. unfold SetupAcquireScanFiles.
  revert setup w. induction srcFiles as [|sf r IH]; intros setup w.
  - cbn. rewrite !app_nil_r. by destruct setup.
  - cbn [forEach].
    rewrite (bind_Done _ _ _ _ _
               (SetupAcquireScanFile_result target mocEnabled uicEnabled
                  setup sf w)).
    rewrite IH. fold policy. cbn [sources headers mocSkip uicSkip
      configSuffix configMocIncludes configMocDefines configUicOptions].
    rewrite !filter_one, !app_assoc. f_equal.
    apply pair_equal_spec. split; [reflexivity|].
    destruct (scanWarned policy mocEnabled uicEnabled sf); [|done].
    destruct (map scanWarning _); cbn; [done|].
    by rewrite <- app_assoc.
Qed.

End ScanLoop.

Section ScanProperties.
Context `{C : Collaborators}.

Lemma elem_of_paths (P : cmSourceFile → bool) (srcFiles : list cmSourceFile)
    (x : string) :
  x ∈ map realPathOf (filter (fun sf => P sf = true) srcFiles)
  ↔ ∃ sf, sf ∈ srcFiles ∧ x = realPathOf sf ∧ P sf = true.
Proof.
  rewrite list_elem_of_fmap. split.
  - intros (sf & -> & Hsf). apply list_elem_of_filter in Hsf as [HP Hsf].
    eauto.
  - intros (sf & Hsf & -> & HP). exists sf. split; [done|].
    by apply list_elem_of_filter.
Qed.

(** X5.  A source or header file with SKIP_AUTOGEN set is in both skip
    lists, whatever the policy and the tools enabled, and no path of the
    sources or headers lists comes from such a file. *)
Theorem SetupAcquireScanFiles_skip_all (target : cmGeneratorTarget)
    (mocEnabled uicEnabled : bool) (srcFiles : list cmSourceFile)
    (w : World) :
  ∃ setup' w',
    SetupAcquireScanFiles target mocEnabled uicEnabled srcFiles emptySetup w
    = Done (setup', w')
    ∧ (∀ sf, sf ∈ srcFiles →
         GetFileFormat (c_str (Extension sf)) ≠ OTHER_FILE_FORMAT →
         GetPropertyAsBool (SourceProperties sf) "SKIP_AUTOGEN" = true →
         GetRealPath (FullPath sf) ∈ mocSkip setup'
         ∧ GetRealPath (FullPath sf) ∈ uicSkip setup')
    ∧ (∀ x, x ∈ sources setup' ∨ x ∈ headers setup' →
         ∃ sf, sf ∈ srcFiles ∧ x = GetRealPath (FullPath sf)
               ∧ GetPropertyAsBool (SourceProperties sf) "SKIP_AUTOGEN"
                 = false).
Proof.
  eexists _, _. split; [apply SetupAcquireScanFiles_result|].
  cbn [sources headers mocSkip uicSkip emptySetup app]. split.
  - intros sf Hsf Hfmt Hskip. rewrite !elem_of_paths.
    split; exists sf; (split; [done|]); (split; [done|]);
      unfold scanSkipped, scanIgnored, scanAccept, scanMocSkip, scanUicSkip,
        scanFormat;
      rewrite Hskip, bool_decide_eq_false_2 by done;
      cbn; by rewrite !andb_false_r.
  - intros x [Hx|Hx]; apply elem_of_paths in Hx as (sf & Hsf & -> & HP);
      exists sf; (split; [done|]); (split; [done|]);
      unfold scanListed, scanAccept, scanMocSkip, scanUicSkip in HP;
      destruct (GetPropertyAsBool (SourceProperties sf) "SKIP_AUTOGEN");
      try done; exfalso;
      destruct mocEnabled, uicEnabled, (bool_decide _); cbn in HP;
      discriminate.
Qed.

(** X6.  A path is in the sources list exactly when it is the canonical
    path of a C++ source file that an enabled tool does not skip and that
    is not a generated file under the policy OLD or WARN; the same holds
    for the headers list and header files.  Files of other formats are in
    neither list. *)
Theorem SetupAcquireScanFiles_listed (target : cmGeneratorTarget)
    (mocEnabled uicEnabled : bool) (srcFiles : list cmSourceFile)
    (w : World) :
  let policy := PolicyCMP0071 (Makefile target) in
  let listed fmt x :=
    ∃ sf, sf ∈ srcFiles ∧ x = GetRealPath (FullPath sf)
          ∧ GetFileFormat (c_str (Extension sf)) = fmt
          ∧ scanAccept mocEnabled uicEnabled sf = true
          ∧ (GetPropertyAsBool (SourceProperties sf) "GENERATED" = true →
             policy ≠ OLD ∧ policy ≠ WARN) in
  ∃ setup' w',
    SetupAcquireScanFiles target mocEnabled uicEnabled srcFiles emptySetup w
    = Done (setup', w')
    ∧ (∀ x, x ∈ sources setup' ↔ listed CXX_FILE_FORMAT x)
    ∧ (∀ x, x ∈ headers setup' ↔ listed HEADER_FILE_FORMAT x).
Proof.
  intros policy listed.
  assert (Hl : ∀ fmt sf,
    scanListed fmt policy mocEnabled uicEnabled sf = true
    ↔ GetFileFormat (c_str (Extension sf)) = fmt
      ∧ scanAccept mocEnabled uicEnabled sf = true
      ∧ (GetPropertyAsBool (SourceProperties sf) "GENERATED" = true →
         policy ≠ OLD ∧ policy ≠ WARN)).
  { intros fmt sf. unfold scanListed, scanIgnored, scanFormat.
    rewrite !andb_true_iff, bool_decide_eq_true.
    destruct (scanAccept mocEnabled uicEnabled sf);
      destruct (GetPropertyAsBool (SourceProperties sf) "GENERATED");
      destruct policy; cbn; naive_solver. }
  eexists _, _. split; [apply SetupAcquireScanFiles_result|].
  cbn [sources headers emptySetup app]. fold policy.
  split; intros x; rewrite elem_of_paths; unfold listed;
    split; intros (sf & Hsf & -> & H); exists sf;
    (split; [done|]); (split; [done|]); by apply Hl.
Qed.

(** X7.  The scan reports no error and writes nothing; it issues
    warnings only under the policy WARN, one for each generated source or
    header file that an enabled tool would take, in the order of the
    files. *)
Theorem SetupAcquireScanFiles_warnings (target : cmGeneratorTarget)
    (mocEnabled uicEnabled : bool) (srcFiles : list cmSourceFile)
    (setup : AutogenSetup) (w : World) :
  let policy := PolicyCMP0071 (Makefile target) in
  let warned :=
    filter (fun sf =>
              GetFileFormat (c_str (Extension sf)) ≠ OTHER_FILE_FORMAT
              ∧ scanAccept mocEnabled uicEnabled sf = true
              ∧ GetPropertyAsBool (SourceProperties sf) "GENERATED" = true)
           srcFiles in
  ∃ setup',
    SetupAcquireScanFiles target mocEnabled uicEnabled srcFiles setup w
    = Done (setup',
            if decide (policy = WARN)
            then addMessages (map scanWarning warned) w
            else w).
Proof.
  intros policy warned. eexists.
  rewrite SetupAcquireScanFiles_result. fold policy. do 2 f_equal.
  destruct (decide (policy = WARN)) as [HW|HW].
  - f_equal. f_equal. subst warned. induction srcFiles as [|sf r IH];
      [done|]. rewrite !filter_cons, IH.
    unfold scanWarned, scanIgnored, scanFormat. fold policy. rewrite HW.
    destruct (GetFileFormat (c_str (Extension sf)));
      destruct (scanAccept mocEnabled uicEnabled sf);
      destruct (GetPropertyAsBool (SourceProperties sf) "GENERATED");
      cbn; repeat case_decide; try done; naive_solver.
  - replace (filter _ srcFiles) with (@nil cmSourceFile); [done|].
    symmetry. induction srcFiles as [|sf r IH]; [done|].
    rewrite filter_cons, <- IH. unfold scanWarned. fold policy.
    rewrite (bool_decide_eq_false_2 _ HW), andb_false_r. cbn.
    by rewrite decide_False.
Qed.

Lemma GetPropertyAsBool_delete (props : gmap string string)
    (deleted key : string) :
  key ≠ deleted →
  GetPropertyAsBool (delete deleted props) key = GetPropertyAsBool props key.
Proof.
  intros Hne. unfold GetPropertyAsBool. by rewrite lookup_delete_ne.
Qed.

Lemma forEach_map {A S : Type} (body : S → A → M S) (g : A → A)
    (v : list A) (s : S) (w : World) :
  (∀ s x w, body s (g x) w = body s x w) →
  forEach body (map g v) s w = forEach body v s w.
Proof.
  intros Hg. revert s w. induction v as [|x r IH]; intros s w; [done|].
  cbn [map forEach]. unfold mbind, M_bind. rewrite Hg.
  destruct (body s x w) as [[s1 w1]|]; [apply IH|done].
Qed.

(** X8.  Under the policies NEW, REQUIRED_IF_USED and REQUIRED_ALWAYS the
    GENERATED property of a source file makes no difference to the scan:
    it gives the same lists and the same state as for the files without
    that property. *)
Theorem SetupAcquireScanFiles_policy_new (target : cmGeneratorTarget)
    (mocEnabled uicEnabled : bool) (srcFiles : list cmSourceFile)
    (setup : AutogenSetup) (w : World) :
  PolicyCMP0071 (Makefile target) ≠ OLD →
  PolicyCMP0071 (Makefile target) ≠ WARN →
  SetupAcquireScanFiles target mocEnabled uicEnabled srcFiles setup w
  = SetupAcquireScanFiles target mocEnabled uicEnabled
      (map clearGenerated srcFiles) setup w.
Proof.
  intros Hold Hwarn. unfold SetupAcquireScanFiles. symmetry.
  apply forEach_map. intros s sf w0.
  rewrite !SetupAcquireScanFile_result.
  unfold scanListed, scanSkipped, scanWarned, scanIgnored, scanAccept,
    scanMocSkip, scanUicSkip, scanFormat, scanWarning, realPathOf,
    clearGenerated.
  cbn [FullPath Extension SourceProperties].
  rewrite !GetPropertyAsBool_delete by done.
  rewrite (bool_decide_eq_false_2 _ Hold), (bool_decide_eq_false_2 _ Hwarn).
  cbn. by rewrite !andb_false_r.
Qed.

End ScanProperties.

Lemma SetupAcquireScanFiles_policy_new_witness :
  let target :=
    Demo.target (Demo.makefile NEW Demo.qt5tools) [Demo.gen_cpp]
                Demo.incs Demo.defs in
  ∃ setup' w',
    SetupAcquireScanFiles (C:=Demo.collaborators) target true true
      [Demo.gen_cpp] emptySetup Demo.world
    = Done (setup', w')
    ∧ SetupAcquireScanFiles (C:=Demo.collaborators) target true true
        (map clearGenerated [Demo.gen_cpp]) emptySetup Demo.world
      = Done (setup', w')
    ∧ sources setup' = ["/build/gen.cpp"].
Proof.
  intros target. eexists _, _.
  split; [|split].
  - vm_compute. reflexivity.
  - rewrite <- (SetupAcquireScanFiles_policy_new (C:=Demo.collaborators)
                  target true true [Demo.gen_cpp] emptySetup Demo.world);
      [vm_compute; reflexivity|discriminate|discriminate].
  - reflexivity.
Defined.

(** ** More on the executables of the tools *)

Section ResolverMore.
Context `{C : Collaborators}.

(** X9.  For a major version other than "4" and "5" the three tools
    report that the feature supports only Qt 4 and Qt 5, with the name of
    the target, whatever import targets are known; no executable is
    defined and the path [RccGetExecutable] returns is empty. *)
Theorem tool_version_unsupported (target : cmGeneratorTarget) (v : string)
    (w : World) :
  v ≠ "4" → v ≠ "5" →
  let reported feature :=
    with_ErrorLog
      (ErrorLog w
       ++ [c_str ("The " +:+ feature +:+ " feature supports only Qt 4 and Qt 5"
                  +:+ " (" +:+ Name target +:+ ")")]) w in
  MocExecutable target v w = Done (tt, reported "AUTOMOC")
  ∧ UicExecutable target v w = Done (tt, reported "AUTOUIC")
  ∧ RccGetExecutable target v w = Done ("", reported "AUTORCC").
Proof.
  intros H4 H5 reported. unfold reported, MocExecutable, UicExecutable,
    RccGetExecutable.
  rewrite !(decide_False (P := v = "5")), !(decide_False (P := v = "4"))
    by done.
  repeat split; reflexivity.
Qed.

(** X10.  For the versions "4" and "5", when the import target of a tool
    is known, no error is reported and the executable is the location of
    the target, the empty path when the target has none: moc and uic
    define it (escaped) as [_qt_moc_executable] and [_qt_uic_executable],
    [RccGetExecutable] returns it and leaves the state as it is. *)
Theorem tool_target_present (target : cmGeneratorTarget) (v : string)
    (w : World) (location : option string) :
  v = "4" ∨ v = "5" →
  let imported tool :=
    ImportedTargets (Makefile target) !! ("Qt" +:+ v +:+ "::" +:+ tool) in
  let defined key :=
    with_scopes
      (<[key:=c_str (EscapeForCMake (default "" location))]> (CurrentScope w))
      (ParentScopes w) w in
  (imported "moc" = Some location →
   MocExecutable target v w = Done (tt, defined "_qt_moc_executable"))
  ∧ (imported "uic" = Some location →
     UicExecutable target v w = Done (tt, defined "_qt_uic_executable"))
  ∧ (imported "rcc" = Some location →
     RccGetExecutable target v w = Done (default "" location, w)).
Proof.
  intros [-> | ->] imported defined; unfold imported, defined;
    (split; [|split]); intros Hfound;
    unfold MocExecutable, RccGetExecutable, UicExecutable;
    cbv [String.append] in Hfound; cbn; rewrite Hfound; reflexivity.
Qed.

End ResolverMore.

Lemma tool_version_unsupported_witness :
  RccGetExecutable Demo.app "6" Demo.world
  = Done ("", with_ErrorLog
                ["The AUTORCC feature supports only Qt 4 and Qt 5 (app)"]
                Demo.world).
Proof.
  apply (tool_version_unsupported (C:=Demo.collaborators) Demo.app "6"
           Demo.world); discriminate.
Defined.

Lemma tool_target_present_witness :
  RccGetExecutable Demo.app "5" Demo.world
  = Done ("/usr/bin/rcc", Demo.world).
Proof.
  apply (tool_target_present (C:=Demo.collaborators) Demo.app "5" Demo.world
           (Some "/usr/bin/rcc")).
  - by right.
  - reflexivity.
Defined.

(** ** More on the dependencies and the provided files *)

Section DependsMore.
Context `{C : Collaborators}.

(** X11.  The dependencies taken from the target: a user defined
    dependency is one as it is written, whether or not it names a target;
    the name of a utility or of a link library is one only when it names
    a known target. *)
Theorem TargetDepends_members (target : cmGeneratorTarget) (x : string) :
  x ∈ TargetDepends target
  ↔ x ∈ ExpandListArgument (GetSafeProperty target "AUTOGEN_TARGET_DEPENDS")
      ∧ GetSafeProperty target "AUTOGEN_TARGET_DEPENDS" ≠ ""
    ∨ (x ∈ Utilities target ∨ x ∈ OriginalLinkLibraries target)
      ∧ KnownTargets (Makefile target) x = true.
Proof.
  unfold TargetDepends.
  set (insertTarget := fun (s : list string) (name : string) =>
         if KnownTargets (Makefile target) name
         then std_set_insert name s else s).
  assert (Hfold : ∀ v s, x ∈ fold_left insertTarget v s
                         ↔ x ∈ s ∨ x ∈ v
                                   ∧ KnownTargets (Makefile target) x = true).
  { induction v as [|y r IH]; intros s; cbn [fold_left].
    - split; [auto|]. intros [?|[H _]]; [done|]. by apply elem_of_nil in H.
    - rewrite IH, elem_of_cons. unfold insertTarget.
      destruct (KnownTargets (Makefile target) y) eqn:Hy.
      + rewrite std_set_insert_elem. naive_solver.
      + split; [naive_solver|]. intros [?|[[->|?] Hk]]; auto; congruence. }
  rewrite !Hfold. unfold std_set_of. rewrite std_set_insert_range_elem.
  case_decide as Hdeps.
  - rewrite std_set_insert_range_elem, !elem_of_nil. naive_solver.
  - rewrite !elem_of_nil. naive_solver.
Qed.

Lemma TargetDepends_Sorted (target : cmGeneratorTarget) :
  Sorted slt (TargetDepends target).
Proof.
  unfold TargetDepends.
  set (insertTarget := fun (s : list string) (name : string) =>
         if KnownTargets (Makefile target) name
         then std_set_insert name s else s).
  assert (Hfold : ∀ v s, Sorted slt s → Sorted slt (fold_left insertTarget v s)).
  { induction v as [|y r IH]; intros s Hs; cbn [fold_left]; [done|].
    apply IH. unfold insertTarget.
    destruct (KnownTargets (Makefile target) y); [|done].
    by apply std_set_insert_Sorted. }
  apply Hfold, Hfold. case_decide; [|constructor].
  apply std_set_insert_range_Sorted. constructor.
Qed.

Lemma RccGetExecutable_log (target : cmGeneratorTarget) (v : string)
    (w : World) :
  ∃ cmd errs,
    RccGetExecutable target v w
    = Done (cmd, with_ErrorLog (ErrorLog w ++ errs) w).
Proof.
  assert (Hw : w = with_ErrorLog (ErrorLog w ++ []) w)
    by (rewrite app_nil_r; by destruct w).
  unfold RccGetExecutable.
  repeat (match goal with
          | |- context [decide ?P] => destruct (decide P)
          | |- context [ImportedTargets ?m !! ?k] =>
              destruct (ImportedTargets m !! k)
          end; cbn); run; try done; eauto.
  all: eexists _, []; rewrite Hw at 1; reflexivity.
Qed.

(** One registered resource file: the output file provided and registered,
    the order of the dependencies, the errors. *)
Lemma QrcSource_registers (dir v cmd : string) (depends provides : list string)
    (it : string * bool) (w : World) :
  ∃ depends' w',
    QrcSource dir v cmd (depends, provides) it w
    = Done ((depends', provides ++ [rccBuildFileOf dir it.1]), w')
    ∧ (Sorted slt depends → Sorted slt depends')
    ∧ registers w w'
    ∧ GeneratedSources w'
      = GeneratedSources w ++ [(rccBuildFileOf dir it.1, RCC)]
    ∧ ErrorLog w'
      = ErrorLog w ++ option_list (qrcListError v cmd it).
Proof.
  destruct it as [absFile generated].
  unfold QrcSource, qrcListError, rccBuildFileOf. cbn [fst snd].
  destruct generated; run.
  - do 2 eexists. split; [reflexivity|]. cbn.
    split; [apply std_set_insert_Sorted|].
    split; [done|]. by rewrite app_nil_r.
  - destruct (RccListInputs v cmd absFile) as [files|error]; run;
      do 2 eexists; (split; [reflexivity|]); cbn.
    + split; [apply std_set_insert_range_Sorted|].
      split; [done|]. by rewrite app_nil_r.
    + done.
Qed.

Lemma QrcSource_loop_registers (dir v cmd : string)
    (qs : list (string * bool)) (depends provides : list string)
    (w : World) :
  ∃ depends' w',
    forEach (QrcSource dir v cmd) qs (depends, provides) w
    = Done ((depends', provides ++ map (fun it => rccBuildFileOf dir it.1) qs),
            w')
    ∧ (Sorted slt depends → Sorted slt depends')
    ∧ registers w w'
    ∧ GeneratedSources w'
      = GeneratedSources w ++ map (fun it => (rccBuildFileOf dir it.1, RCC)) qs
    ∧ ErrorLog w' = ErrorLog w ++ omap (qrcListError v cmd) qs.
Proof.
  revert depends provides w.
  induction qs as [|it r IH]; intros depends provides w; cbn [forEach].
  - exists depends, w. cbn. rewrite !app_nil_r. done.
  - destruct (QrcSource_registers dir v cmd depends provides it w)
      as (d1 & w1 & Hrun & Hs1 & Hr1 & Hg1 & He1).
    rewrite (bind_Done _ _ _ _ _ Hrun).
    destruct (IH d1 (provides ++ [rccBuildFileOf dir it.1]) w1)
      as (d & w' & Hrun' & Hs & Hr & Hg & He).
    exists d, w'. rewrite Hrun', <- app_assoc. split; [done|].
    split; [auto|]. split.
    + unfold registers in *. destruct Hr as (-> & -> & -> & -> & ->). exact Hr1.
    + rewrite Hg, Hg1, He, He1, <- !app_assoc. split; [done|].
      f_equal. cbn [omap list_omap]. by destruct (qrcListError v cmd it).
Qed.

Lemma QrcSources_registers (target : cmGeneratorTarget)
    (qs : list (string * bool)) (depends provides : list string)
    (w : World) :
  ∃ depends' w' errs,
    QrcSources target qs (depends, provides) w
    = Done ((depends',
             provides ++ map (fun it => rccBuildFileOf
                                          (GetAutogenTargetBuildDir target)
                                          it.1) qs), w')
    ∧ (Sorted slt depends → Sorted slt depends')
    ∧ registers w w'
    ∧ GeneratedSources w'
      = GeneratedSources w
        ++ map (fun it => (rccBuildFileOf (GetAutogenTargetBuildDir target)
                                          it.1, RCC)) qs
    ∧ ErrorLog w' = ErrorLog w ++ errs
    ∧ (qs = [] → errs = []).
Proof.
  unfold QrcSources. destruct (decide (qs ≠ [])) as [Hne|Heq].
  - destruct (RccGetExecutable_log target (GetQtMajorVersion target w) w)
      as (cmd & errs & Hrun).
    destruct (QrcSource_loop_registers (GetAutogenTargetBuildDir target)
                (GetQtMajorVersion target w) cmd qs depends provides
                (with_ErrorLog (ErrorLog w ++ errs) w))
      as (d & w' & Hloop & Hs & Hr & Hg & He).
    exists d, w', (errs ++ omap (qrcListError (GetQtMajorVersion target w) cmd)
                               qs).
    split.
    { unfold gets, mbind, M_bind at 1. rewrite (bind_Done _ _ _ _ _ Hrun).
      exact Hloop. }
    split; [done|]. split; [exact Hr|]. split; [exact Hg|].
    split; [cbn in He; by rewrite He, <- app_assoc|done].
  - apply dec_stable in Heq as ->.
    exists depends, w, []. cbn. rewrite !app_nil_r. done.
Qed.

(** The closed form of [AutogenDependsProvides]. *)
Lemma AutogenDependsProvides_registers (target : cmGeneratorTarget)
    (w : World) :
  let mocEnabled := GetPropertyAsBool (Properties target) "AUTOMOC" in
  let rccEnabled := GetPropertyAsBool (Properties target) "AUTORCC" in
  let dir := GetAutogenTargetBuildDir target in
  let registered :=
    filter (fun sf => qrcEligible rccEnabled sf = true)
           (ConfigCommonSourceFiles target) in
  let mocsComp := if mocEnabled then [dir +:+ "/mocs_compilation.cpp"]
                  else [] in
  ∃ depends w' errs,
    AutogenDependsProvides target w
    = Done ((depends,
             mocsComp
             ++ map (fun sf => rccBuildFileOf dir (GetRealPath (FullPath sf)))
                    registered), w')
    ∧ Sorted slt depends
    ∧ registers w w'
    ∧ GeneratedSources w'
      = GeneratedSources w
        ++ map (fun f => (f, MOC)) mocsComp
        ++ map (fun sf => (rccBuildFileOf dir (GetRealPath (FullPath sf)),
                           RCC)) registered
    ∧ ErrorLog w' = ErrorLog w ++ errs
    ∧ (registered = [] → errs = []).
Proof.
  intros mocEnabled rccEnabled dir registered mocsComp.
  unfold AutogenDependsProvides.
  set (uicEnabled := GetPropertyAsBool (Properties target) "AUTOUIC").
  fold mocEnabled rccEnabled dir.
  pose proof (ExtractSource_qrc mocEnabled uicEnabled rccEnabled
                (ConfigCommonSourceFiles target) ([], [])) as Hqrc.
  cbn [snd app] in Hqrc. fold registered in Hqrc.
  destruct (fold_left (ExtractSource mocEnabled uicEnabled rccEnabled)
              (ConfigCommonSourceFiles target) ([], []))
    as [generatedSources qrcSources].
  cbn [fst snd] in *. subst qrcSources.
  assert (Hbase : Sorted slt (std_set_insert_range generatedSources
                                                   (TargetDepends target))).
  { apply std_set_insert_range_Sorted, TargetDepends_Sorted. }
  subst mocsComp. destruct mocEnabled.
  - destruct (QrcSources_registers target (map qrcSourceOf registered)
                (std_set_insert_range generatedSources (TargetDepends target))
                [dir +:+ "/mocs_compilation.cpp"]
                (with_GeneratedSources
                   (GeneratedSources w
                    ++ [(dir +:+ "/mocs_compilation.cpp", MOC)]) w))
      as (d & w' & errs & Hrun & Hs & Hr & Hg & He & Hn).
    rewrite !map_map in *. cbn [qrcSourceOf fst] in *.
    exists d, w', errs. split; [exact Hrun|]. split; [auto|].
    split; [exact Hr|]. split; [cbn in Hg; by rewrite Hg, <- app_assoc|].
    split; [exact He|]. intros Hnil. apply Hn. by rewrite Hnil.
  - destruct (QrcSources_registers target (map qrcSourceOf registered)
                (std_set_insert_range generatedSources (TargetDepends target))
                [] w)
      as (d & w' & errs & Hrun & Hs & Hr & Hg & He & Hn).
    rewrite !map_map in *. cbn [qrcSourceOf fst] in *.
    exists d, w', errs. split; [exact Hrun|]. split; [auto|].
    split; [exact Hr|]. split; [exact Hg|].
    split; [exact He|]. intros Hnil. apply Hn. by rewrite Hnil.
Qed.

End DependsMore.

Section DependsTheorems.
Context `{C : Collaborators}.

(** X12.  The dependencies [InitializeAutogenTarget] computes come out of
    a set: they are in strictly increasing order, so no dependency is
    listed twice, whatever the sources, the user defined dependencies and
    the listed inputs of the resource files are. *)
Theorem AutogenDependsProvides_sorted (target : cmGeneratorTarget)
    (w : World) :
  ∃ depends provides w',
    AutogenDependsProvides target w = Done ((depends, provides), w')
    ∧ Sorted slt depends
    ∧ NoDup depends.
Proof.
  destruct (AutogenDependsProvides_registers target w)
    as (d & w' & errs & Hrun & Hs & _).
  eexists d, _, w'. split; [exact Hrun|]. split; [done|].
  by apply Sorted_slt_NoDup.
Qed.

(** X13.  The files the autogen target provides are the moc compilation
    file, when AUTOMOC is on, followed by one rcc output file for each
    registered resource file, in the order of the sources; each of them is
    registered as a generated source of the target, the first for moc and
    the others for rcc, and nothing else is registered. *)
Theorem AutogenDependsProvides_provides (target : cmGeneratorTarget)
    (w : World) :
  let mocEnabled := GetPropertyAsBool (Properties target) "AUTOMOC" in
  let rccEnabled := GetPropertyAsBool (Properties target) "AUTORCC" in
  let dir := GetAutogenTargetBuildDir target in
  let registered :=
    filter (fun sf => qrcEligible rccEnabled sf = true)
           (ConfigCommonSourceFiles target) in
  let mocsComp := if mocEnabled then [dir +:+ "/mocs_compilation.cpp"]
                  else [] in
  let rccOutputs :=
    map (fun sf => rccBuildFileOf dir (GetRealPath (FullPath sf)))
        registered in
  ∃ depends provides w',
    AutogenDependsProvides target w = Done ((depends, provides), w')
    ∧ provides = mocsComp ++ rccOutputs
    ∧ GeneratedSources w'
      = GeneratedSources w
        ++ map (fun f => (f, MOC)) mocsComp
        ++ map (fun f => (f, RCC)) rccOutputs
    ∧ (GeneratedSources w').*1 = (GeneratedSources w).*1 ++ provides.
Proof.
  intros mocEnabled rccEnabled dir registered mocsComp rccOutputs.
  destruct (AutogenDependsProvides_registers target w)
    as (d & w' & errs & Hrun & _ & _ & Hg & _).
  eexists d, _, w'. split; [exact Hrun|]. split; [done|].
  fold mocEnabled rccEnabled dir registered mocsComp in Hg.
  assert (Hg' : GeneratedSources w'
                = GeneratedSources w ++ map (fun f => (f, MOC)) mocsComp
                  ++ map (fun f => (f, RCC)) rccOutputs).
  { rewrite Hg. unfold rccOutputs. by rewrite map_map. }
  split; [exact Hg'|].
  rewrite Hg', !fmap_app. f_equal.
  change (fmap (M:=list) fst) with (map (@fst string GeneratorType)).
  rewrite !map_map. cbn [fst]. by rewrite !map_id.
Qed.

(** X14.  Computing the dependencies and the provided files leaves the
    definitions, the messages, the files and their mode bits as they are,
    and takes no error away: the errors reported before are the first ones
    of the log afterwards. *)
Theorem AutogenDependsProvides_frame (target : cmGeneratorTarget)
    (w : World) :
  ∃ r w',
    AutogenDependsProvides target w = Done (r, w')
    ∧ CurrentScope w' = CurrentScope w
    ∧ ParentScopes w' = ParentScopes w
    ∧ Messages w' = Messages w
    ∧ Files w' = Files w
    ∧ Permissions w' = Permissions w
    ∧ ErrorLog w `prefix_of` ErrorLog w'.
Proof.
  destruct (AutogenDependsProvides_registers target w)
    as (d & w' & errs & Hrun & _ & (Hc & Hp & Hm & Hf & Hperm) & _ & He & _).
  eexists _, w'. split; [exact Hrun|].
  do 5 (split; [done|]). rewrite He. by apply prefix_app_r.
Qed.


End DependsTheorems.


(** ** More on the resource files *)

Section RccLists.
Context `{C : Collaborators}.











End RccLists.



(** ** More on the .ui files with options *)

Section UicFiles.
Context `{C : Collaborators}.

Lemma std_set_of_elem (x : string) (v : list string) :
  x ∈ std_set_of v ↔ x ∈ v.
Proof.
  unfold std_set_of. rewrite std_set_insert_range_elem, elem_of_nil.
  naive_solver.
Qed.

Lemma UicConfigSettings_uicSkip (target : cmGeneratorTarget)
    (uicOpts : string) (configs : list string) (setup : AutogenSetup) :
  uicSkip (fold_left (UicConfigSettings target uicOpts) configs setup)
  = uicSkip setup.
Proof.
  revert setup. induction configs as [|c r IH]; intros setup; cbn [fold_left];
    [done|].
  rewrite IH. unfold UicConfigSettings. by case_decide.
Qed.

Lemma UicFileOptions_step (skipped files options : list string)
    (sf : cmSourceFile) (w : World) :
  UicFileOptions skipped (files, options) sf w
  = if decide (GetRealPath (FullPath sf) ∉ skipped) then
      match SourceProperties sf !! "AUTOUIC_OPTIONS" with
      | Some p => Done ((files ++ [GetRealPath (FullPath sf)],
                         options ++ [ReplaceString p ";" listSep]), w)
      | None => Fail NullPointer
      end
    else Done ((files, options), w).
Proof.
  unfold UicFileOptions. cbn [fst snd].
  destruct (decide (GetRealPath (FullPath sf) ∉ skipped)) as [Hk|Hk].
  - rewrite bool_decide_eq_true_2 by done.
    by destruct (SourceProperties sf !! "AUTOUIC_OPTIONS").
  - by rewrite bool_decide_eq_false_2 by done.
Qed.

(** The loop over the .ui files with options: the files that are not
    skipped are listed with their options, and the loop stops at the first
    of them that has no options property. *)
Lemma UicFileOptions_loop (skipped : list string) (uis : list cmSourceFile)
    (files options : list string) (w : World) :
  let kept :=
    filter (fun sf => GetRealPath (FullPath sf) ∉ skipped) uis in
  forEach (UicFileOptions skipped) uis (files, options) w
  = if decide (Forall (fun sf => is_Some (SourceProperties sf
                                           !! "AUTOUIC_OPTIONS")) kept)
    then Done ((files ++ map (fun sf => GetRealPath (FullPath sf)) kept,
                options ++ map uiOptionsOf kept), w)
    else Fail NullPointer.
Proof.
  intros kept. subst kept. revert files options w.
  induction uis as [|sf r IH]; intros files options w; cbn [forEach].
  - rewrite filter_nil, decide_True by constructor. cbn.
    by rewrite !app_nil_r.
  - rewrite filter_cons. unfold mbind, M_bind at 1.
    rewrite UicFileOptions_step.
    destruct (decide (GetRealPath (FullPath sf) ∉ skipped)) as [Hk|Hk];
      [|apply IH].
    destruct (SourceProperties sf !! "AUTOUIC_OPTIONS") as [p|] eqn:Hp.
    + rewrite IH.
      destruct (decide (Forall _ (filter _ r))) as [Hr|Hr].
      * rewrite decide_True by (constructor; [by rewrite Hp|done]).
        cbn [map]. unfold uiOptionsOf at 2. rewrite Hp. cbn [default].
        by rewrite <- !app_assoc.
      * rewrite decide_False; [done|]. intros H. apply Hr.
        by apply Forall_cons in H as [_ H].
    + rewrite decide_False; [done|]. intros H.
      apply Forall_cons in H as [[? H] _]. by rewrite Hp in H.
Qed.

(** X19.  [SetupAutoTargetUic] reads the options property of the
    registered .ui files that are not in the uic skip list, and of no
    other: it returns when each of these has the property and ends in a
    null pointer access when one has not.  When it returns, the files
    defined as [_qt_uic_options_files] are these files, in their order,
    and [_qt_uic_options_options] has the options of each with the list
    separator in place of [;]. *)
Theorem SetupAutoTargetUic_files (target : cmGeneratorTarget)
    (qtMajorVersion config : string) (configs : list string)
    (setup : AutogenSetup) (w : World) :
  let kept :=
    filter (fun sf => GetRealPath (FullPath sf) ∉ uicSkip setup)
           (QtUiFilesWithOptions (Makefile target)) in
  if decide (Forall (fun sf => is_Some (SourceProperties sf
                                         !! "AUTOUIC_OPTIONS")) kept)
  then
    ∃ setup' w',
      SetupAutoTargetUic target qtMajorVersion config configs setup w
      = Done (setup', w')
      ∧ CurrentScope w' !! "_qt_uic_options_files"
        = Some (c_str (EscapeForCMake
                         (cmJoin (map (fun sf => GetRealPath (FullPath sf))
                                      kept) ";")))
      ∧ CurrentScope w' !! "_qt_uic_options_options"
        = Some (c_str (EscapeForCMake (cmJoin (map uiOptionsOf kept) ";")))
  else
    SetupAutoTargetUic target qtMajorVersion config configs setup w
    = Fail NullPointer.
Proof.
  intros kept.
  assert (Hkept : filter (fun sf => GetRealPath (FullPath sf)
                            ∉ std_set_of (uicSkip
                                (fold_left (UicConfigSettings target
                                              (UicGetOpts target config))
                                           configs setup)))
                         (QtUiFilesWithOptions (Makefile target)) = kept).
  { apply list_filter_iff. intros sf.
    by rewrite std_set_of_elem, UicConfigSettings_uicSkip. }
  unfold SetupAutoTargetUic, UicExecutable.
  unfold AddDefinitionEscaped, AddDefinitionEscapedV, AddDefinition, Error.
  run. rewrite UicFileOptions_loop, Hkept.
  destruct (decide (Forall _ kept)); [|done].
  cbn [app].
  repeat (match goal with
          | |- context [decide ?P] => destruct (decide P)
          | |- context [ImportedTargets ?m !! ?k] =>
              destruct (ImportedTargets m !! k)
          end; run);
    try done;
    do 2 eexists; (split; [reflexivity|]); cbn [CurrentScope with_scopes with_ErrorLog];
    rewrite ?(lookup_insert_ne _ "_qt_uic_executable") by done;
    rewrite ?(lookup_insert_ne _ "_qt_uic_options_options"
                "_qt_uic_options_files") by done;
    rewrite !lookup_insert_eq; done.
Qed.

End UicFiles.

(** ** More on the settings of moc *)

Section MocMore.
Context `{C : Collaborators}.

Lemma MocConfigSettings_lists (target : cmGeneratorTarget)
    (incs compileDefs : string) (configs : list string)
    (setup : AutogenSetup) :
  let setup' :=
    fold_left (MocConfigSettings target incs compileDefs) configs setup in
  sources setup' = sources setup
  ∧ headers setup' = headers setup
  ∧ mocSkip setup' = mocSkip setup
  ∧ uicSkip setup' = uicSkip setup
  ∧ configSuffix setup' = configSuffix setup
  ∧ configUicOptions setup' = configUicOptions setup.
Proof.
  revert setup. induction configs as [|c r IH]; intros setup; cbn [fold_left];
    [done|].
  cbn zeta in IH.
  destruct (IH (MocConfigSettings target incs compileDefs setup c))
    as (-> & -> & -> & -> & -> & ->).
  unfold MocConfigSettings, GetCompileDefinitionsAndDirectories.
  repeat case_decide; done.
Qed.

(** X20.  [SetupAutoTargetMoc] changes of the setup only the maps of the
    includes and of the defines, and there only the entries of the
    configurations of its list: the vectors of the classification, the
    suffixes and the uic options are what they were, and so are the
    entries of a configuration that is not in the list and of the
    baseline configuration itself. *)
Theorem SetupAutoTargetMoc_frame (target : cmGeneratorTarget)
    (qtMajorVersion config : string) (configs : list string)
    (setup : AutogenSetup) (w : World) :
  ∃ setup' w',
    SetupAutoTargetMoc target qtMajorVersion config configs setup w
    = Done (setup', w')
    ∧ sources setup' = sources setup
    ∧ headers setup' = headers setup
    ∧ mocSkip setup' = mocSkip setup
    ∧ uicSkip setup' = uicSkip setup
    ∧ configSuffix setup' = configSuffix setup
    ∧ configUicOptions setup' = configUicOptions setup
    ∧ (∀ li, li ∉ configs ∨ li = config →
         configMocIncludes setup' !! li = configMocIncludes setup !! li
         ∧ configMocDefines setup' !! li = configMocDefines setup !! li).
Proof.
  destruct (SetupAutoTargetMoc_setup target qtMajorVersion config configs
              setup w) as [w' Hrun].
  eexists _, w'. split; [exact Hrun|].
  destruct (MocConfigSettings_lists target
              (GetCompileDefinitionsAndDirectories target config "" "").1
              (GetCompileDefinitionsAndDirectories target config "" "").2
              configs setup) as (-> & -> & -> & -> & -> & ->).
  do 6 (split; [done|]).
  intros li Hli.
  rewrite MocConfigSettings_includes, MocConfigSettings_defines.
  split; (rewrite decide_False; [done|]); intros [Hin Hne];
    (destruct Hli as [Hli| ->]; [done|]); by apply Hne.
Qed.

Lemma lookupScopes_insert_ne (key k v : string) (cur : gmap string string)
    (parents : list (gmap string string)) :
  k ≠ key →
  lookupScopes key (<[k:=v]> cur :: parents) = lookupScopes key (cur :: parents).
Proof. intros Hne. cbn [lookupScopes]. by rewrite lookup_insert_ne. Qed.

(** X21.  [SetupAutoTargetMoc] defines the command for the predefines of
    the compiler, [_moc_predefs_cmd], exactly when the version of Qt is
    5.8 or later, the minor version being read from the definitions as
    they were before the call; for an earlier version, or one that is not
    a number, the definition is left as it was. *)
Theorem SetupAutoTargetMoc_predefs (target : cmGeneratorTarget)
    (qtMajorVersion config : string) (configs : list string)
    (setup : AutogenSetup) (w : World) :
  ∃ setup' w',
    SetupAutoTargetMoc target qtMajorVersion config configs setup w
    = Done (setup', w')
    ∧ CurrentScope w' !! "_moc_predefs_cmd"
      = if QtVersionGreaterOrEqual qtMajorVersion
             (GetQtMinorVersion target w qtMajorVersion) 5 8
        then Some (c_str (EscapeForCMake
                            (GetSafeDefinition w
                               "CMAKE_CXX_COMPILER_PREDEFINES_COMMAND")))
        else CurrentScope w !! "_moc_predefs_cmd".
Proof.
  unfold SetupAutoTargetMoc, MocExecutable, GetCompileDefinitionsAndDirectories.
  unfold AddDefinitionEscaped, AddDefinitionEscapedV, AddDefinition, Error.
  run.
  unfold GetQtMinorVersion, GetSafeDefinition, GetDefinition.
  cbn [CurrentScope ParentScopes with_scopes].
  rewrite !lookupScopes_insert_ne by done.
  destruct (QtVersionGreaterOrEqual _ _ _ _); run;
    rewrite ?lookupScopes_insert_ne by done;
    repeat (match goal with
            | |- context [decide (?P = "")] => fail
            | |- context [decide (qtMajorVersion = ?s)] =>
                destruct (decide (qtMajorVersion = s))
            | |- context [ImportedTargets ?m !! ?k] =>
                destruct (ImportedTargets m !! k)
            end; run);
    do 2 eexists; (split; [reflexivity|]);
    cbn [CurrentScope with_scopes with_ErrorLog];
    rewrite ?(lookup_insert_ne _ "_qt_moc_executable") by done;
    rewrite ?(lookup_insert_ne _ "_moc_compile_defs") by done;
    rewrite ?(lookup_insert_ne _ "_moc_incs") by done;
    rewrite ?lookup_insert_eq;
    rewrite ?lookup_insert_ne by done; done.
Qed.

(** X22.  A version that is at least a requested version is at least
    every earlier requested version. *)
Theorem QtVersionGreaterOrEqual_monotone (major minor : string)
    (requestMajor requestMinor earlierMajor earlierMinor : N) :
  QtVersionGreaterOrEqual major minor requestMajor requestMinor = true →
  (earlierMajor < requestMajor
   ∨ earlierMajor = requestMajor ∧ earlierMinor ≤ requestMinor)%N →
  QtVersionGreaterOrEqual major minor earlierMajor earlierMinor = true.
Proof.
  unfold QtVersionGreaterOrEqual.
  destruct (StringToULong (c_str major)) as [M|]; [|done].
  destruct (StringToULong (c_str minor)) as [m|]; [|done].
  rewrite !orb_true_iff, !andb_true_iff, !N.ltb_lt, !N.eqb_eq, !N.leb_le.
  lia.
Qed.

End MocMore.

Lemma QtVersionGreaterOrEqual_monotone_witness :
  QtVersionGreaterOrEqual (C:=Demo.collaborators) "5" "9" 5 3 = true.
Proof.
  apply (QtVersionGreaterOrEqual_monotone (C:=Demo.collaborators) "5" "9"
           5 8 5 3).
  - reflexivity.
  - lia.
Defined.

(** ** More on the descriptor *)

Section Reports.
Context `{C : Collaborators}.

#[local] Instance reports_refl (infoFile : string) :
  Reflexive (reports infoFile).
Proof. intros w. by repeat split. Qed.

#[local] Instance reports_trans (infoFile : string) :
  Transitive (reports infoFile).
Proof.
  intros w1 w2 w3 (E1 & M1 & D1 & G1 & P1) (E2 & M2 & D2 & G2 & P2).
  split; [by etrans|]. split; [by etrans|].
  split; [congruence|]. split; [congruence|].
  intros f Hf. rewrite P2, P1; done.
Qed.

Lemma reports_AddDefinition (infoFile key value : string) :
  succeeds (reports infoFile) (AddDefinition key value).
Proof. apply succeeds_modify. intros w. by repeat split. Qed.

Lemma reports_PushScope (infoFile : string) :
  succeeds (reports infoFile) PushScope.
Proof. apply succeeds_modify. intros w. by repeat split. Qed.

Lemma reports_PopScope (infoFile : string) :
  succeeds (reports infoFile) PopScope.
Proof.
  apply succeeds_modify. intros w. by destruct (ParentScopes w); repeat split.
Qed.

Lemma reports_Error (infoFile msg : string) :
  succeeds (reports infoFile) (Error msg).
Proof.
  apply succeeds_modify. intros w. split; [by apply prefix_app_r|].
  by repeat split.
Qed.

Lemma reports_IssueMessage (infoFile msg : string) :
  succeeds (reports infoFile) (IssueMessage msg).
Proof.
  apply succeeds_modify. intros w. split; [done|].
  split; [by apply prefix_app_r|]. by repeat split.
Qed.

Lemma reports_ConfigureFile (infoFile infile : string) :
  succeeds (reports infoFile) (ConfigureFile infile infoFile).
Proof.
  apply succeeds_modify. intros w. destruct (Files w !! infile); [|done].
  do 4 (split; [done|]). intros f Hf. cbn.
  destruct (Permissions w !! infile); [|done]. by rewrite lookup_insert_ne.
Qed.

Lemma reports_EnsureWritable (infoFile : string) :
  succeeds (reports infoFile) (EnsureWritable infoFile).
Proof.
  apply succeeds_modify. intros w. simpl.
  destruct (N.land _ _ =? 0)%N; [|done].
  destruct (Files w !! infoFile); [|done].
  do 4 (split; [done|]). intros f Hf. cbn. by rewrite lookup_insert_ne.
Qed.

Lemma reports_AppendToFile (infoFile text : string) :
  succeeds (reports infoFile) (AppendToFile infoFile text).
Proof. apply succeeds_modify. intros w. by repeat split. Qed.

(** One step through the text of a computation. *)
Ltac reports_step :=
  lazymatch goal with
  | |- succeeds _ (mbind _ _) => apply succeeds_bind; [apply _..| |intros ?]
  | |- succeeds _ (mret _) => apply succeeds_ret; apply _
  | |- succeeds _ (gets _) => apply succeeds_gets; apply _
  | |- succeeds _ (AddDefinitionEscaped _ _) => apply reports_AddDefinition
  | |- succeeds _ (AddDefinitionEscapedV _ _) => apply reports_AddDefinition
  | |- succeeds _ PushScope => apply reports_PushScope
  | |- succeeds _ PopScope => apply reports_PopScope
  | |- succeeds _ (Error _) => apply reports_Error
  | |- succeeds _ (IssueMessage _) => apply reports_IssueMessage
  | |- succeeds _ (ConfigureFile _ _) => apply reports_ConfigureFile
  | |- succeeds _ (EnsureWritable _) => apply reports_EnsureWritable
  | |- succeeds _ (AppendToFile _ _) => apply reports_AppendToFile
  | |- succeeds _ (forEach _ _ _) =>
      apply succeeds_forEach; [apply _..|intros ? ? ?]
  | |- succeeds _ (if ?b then _ else _) => destruct b
  | |- succeeds _ (match ?x with _ => _ end) => destruct x
  end.

Lemma reports_SetupAutoTargetUic (infoFile : string)
    (target : cmGeneratorTarget) (qtMajorVersion config : string)
    (configs : list string) (setup : AutogenSetup) :
  UiFilesHaveOptions (Makefile target) →
  succeeds (reports infoFile)
    (SetupAutoTargetUic target qtMajorVersion config configs setup).
Proof.
  intros Hui. unfold UiFilesHaveOptions in Hui. rewrite Forall_forall in Hui.
  unfold SetupAutoTargetUic, UicExecutable, UicFileOptions.
  repeat reports_step.
  apply succeeds_lift; [apply _|].
  match goal with H : _ ∈ _ |- _ => destruct (Hui _ H) as [p ->] end. eauto.
Qed.

Lemma reports_SetupAutoTargetRcc (infoFile : string)
    (target : cmGeneratorTarget) (v : string) (srcFiles : list cmSourceFile) :
  succeeds (reports infoFile) (SetupAutoTargetRcc target v srcFiles).
Proof.
  unfold SetupAutoTargetRcc, SetupAutoTargetRccLists, RccGetExecutable,
    RccFile.
  repeat reports_step.
  all: apply succeeds_lift; [apply _|]; apply RccMergeOptions_total.
Qed.


Lemma configSuffix_lookup (configs : list string) (m : gmap string string)
    (li : string) :
  fold_left (fun m it => <[it:="_" +:+ it]> m) configs m !! li
  = if decide (li ∈ configs) then Some ("_" +:+ li) else m !! li.
Proof.
  revert m. induction configs as [|c r IH]; intros m; cbn [fold_left].
  - rewrite decide_False; [done|]. apply not_elem_of_nil.
  - rewrite IH. destruct (decide (li ∈ r)) as [Hr|Hr].
    + rewrite decide_True; [done|]. by right.
    + destruct (decide (c = li)) as [->|Hne].
      * rewrite lookup_insert_eq, decide_True; [done|]. by left.
      * rewrite lookup_insert_ne by done.
        rewrite decide_False; [done|]. rewrite elem_of_cons. naive_solver.
Qed.

Lemma string_append_assoc (a b c : string) :
  (a +:+ b) +:+ c = a +:+ (b +:+ c).
Proof.
  induction a as [|x a IH]; [reflexivity|].
  change (String x ((a +:+ b) +:+ c) = String x (a +:+ (b +:+ c))).
  by rewrite IH.
Qed.

(** The end of [SetupAutoGenerateTarget] for a multi-config generator:
    there is a suffix for every configuration, so the descriptor is opened
    for appending, and what holds after that attempt holds when the
    function returns. *)
Lemma SetupAutoGenerateTarget_multiconfig (target : cmGeneratorTarget)
    (P : World → Prop) :
  let makefile := Makefile target in
  let infoFile := GetAutogenTargetFilesDir target +:+ "/AutogenInfo.cmake" in
  let configSuffix :=
    fold_left (fun m it => <[it:="_" +:+ it]> m)
              (GetConfigurations makefile).1 ∅ in
  UiFilesHaveOptions makefile →
  IsMultiConfig makefile = true →
  (∀ w cur parents, P w → P (with_scopes cur parents w)) →
  (∀ after : string,
     succeeds (fun _ w' => P w')
       (if OpenForAppend makefile infoFile then
          AppendToFile infoFile
            ("# Configuration specific options" +:+ nl
             +:+ setLines "AM_CONFIG_SUFFIX_" configSuffix +:+ after)
        else
          Error (c_str ("Internal CMake error when trying to open file: "
                        +:+ Quoted infoFile +:+ " for writing.")))) →
  ∀ w, ∃ w', SetupAutoGenerateTarget target w = Done (tt, w') ∧ P w'.
Proof.
  intros makefile infoFile configSuffix Hui Hmulti Hscopes Hlast w.
  assert (Hne : configSuffix ≠ ∅).
  { unfold configSuffix, GetConfigurations. cbn [fst]. intros Hempty.
    destruct (decide (Configurations makefile = [])) as [Hc|Hc].
    - pose proof (configSuffix_lookup [""] ∅ "") as Hl.
      rewrite Hempty, lookup_empty, decide_True in Hl by (by left). done.
    - destruct (Configurations makefile) as [|c r]; [done|].
      pose proof (configSuffix_lookup (c :: r) ∅ c) as Hl.
      rewrite Hempty, lookup_empty, decide_True in Hl by (by left). done. }
  assert (Hbody : ∀ A (body : M A),
            succeeds (fun _ w' => P w') body →
            ∀ w, ∃ a w', ScopePushPop body w = Done (a, w') ∧ P w').
  { intros A body Hb w0.
    destruct (Hb (with_scopes ∅ (CurrentScope w0 :: ParentScopes w0) w0))
      as (a & w1 & Hrun & HP).
    unfold ScopePushPop, PushScope, PopScope, mbind, M_bind, modify, mret,
      M_ret.
    rewrite Hrun. do 2 eexists. split; [reflexivity|].
    destruct (ParentScopes w1); [done|by apply Hscopes]. }
  unfold SetupAutoGenerateTarget. fold makefile.
  unfold AutogenMultiConfig. rewrite Hmulti.
  destruct (GetConfigurations makefile) as [configs config] eqn:Hconfigs.
  cbn [fst] in configSuffix. fold infoFile. fold configSuffix.
  rewrite (bool_decide_eq_true_2 _ Hne). cbn [orb].
  match goal with
  | |- ∃ w', ScopePushPop ?body w = _ ∧ _ =>
      destruct (Hbody _ body) with (w := w) as ([] & w' & Hrun & HP);
        [|by exists w']
  end.
  unfold SetupAcquireScanFiles, SetupAcquireScanFile, SetupAutoTargetMoc,
    MocExecutable.
  do 9 (apply (succeeds_bind_gen (reports infoFile) (fun _ w' => P w')
                                 (fun _ w' => P w'));
        [by intros ? ? ? _ ?
        |repeat reports_step;
           auto using reports_SetupAutoTargetUic, reports_SetupAutoTargetRcc
        |intros ?]).
  rewrite <- !string_append_assoc.
  rewrite !string_append_assoc.
  apply Hlast.
Qed.

(** X24.  On a multi-config generator [SetupAutoGenerateTarget] always
    opens the descriptor for appending; when that fails, the last error
    reported is the internal error that names the descriptor. *)
Theorem SetupAutoGenerateTarget_open_error (target : cmGeneratorTarget)
    (w : World) :
  let infoFile := GetAutogenTargetFilesDir target +:+ "/AutogenInfo.cmake" in
  UiFilesHaveOptions (Makefile target) →
  IsMultiConfig (Makefile target) = true →
  OpenForAppend (Makefile target) infoFile = false →
  ∃ w', SetupAutoGenerateTarget target w = Done (tt, w')
        ∧ last (ErrorLog w')
          = Some (c_str ("Internal CMake error when trying to open file: "
                         +:+ Quoted infoFile +:+ " for writing.")).
Proof.
  intros infoFile Hui Hmulti Hopen.
  apply (SetupAutoGenerateTarget_multiconfig target
           (fun w' => last (ErrorLog w')
                      = Some (c_str ("Internal CMake error when trying to "
                                     +:+ "open file: "
                                     +:+ Quoted infoFile
                                     +:+ " for writing."))));
    [done|done|done|].
  intros after. fold infoFile. rewrite Hopen.
  intros w0. do 2 eexists. split; [reflexivity|].
  cbn [ErrorLog with_ErrorLog]. by rewrite last_snoc.
Qed.

(** X25.  On a multi-config generator, when the descriptor can be opened
    for appending, the descriptor [SetupAutoGenerateTarget] leaves has the
    block of the configuration specific options in it: the heading,
    followed by the suffix line of every configuration, the suffix of a
    configuration being [_] and its name. *)
Theorem SetupAutoGenerateTarget_suffixes (target : cmGeneratorTarget)
    (w : World) :
  let makefile := Makefile target in
  let infoFile := GetAutogenTargetFilesDir target +:+ "/AutogenInfo.cmake" in
  UiFilesHaveOptions makefile →
  IsMultiConfig makefile = true →
  OpenForAppend makefile infoFile = true →
  ∃ (suffixes : gmap string string) (w' : World) (before after : string),
    SetupAutoGenerateTarget target w = Done (tt, w')
    ∧ (∀ li, suffixes !! li
             = if decide (li ∈ (GetConfigurations makefile).1)
               then Some ("_" +:+ li) else None)
    ∧ Files w' !! infoFile
      = Some (before +:+ "# Configuration specific options" +:+ nl
              +:+ setLines "AM_CONFIG_SUFFIX_" suffixes +:+ after).
Proof.
  intros makefile infoFile Hui Hmulti Hopen.
  set (suffixes := fold_left (fun (m : gmap string string) it =>
                                <[it:="_" +:+ it]> m)
                             (GetConfigurations makefile).1 ∅).
  destruct (SetupAutoGenerateTarget_multiconfig target
              (fun w' => ∃ before after,
                 Files w' !! infoFile
                 = Some (before +:+ "# Configuration specific options" +:+ nl
                         +:+ setLines "AM_CONFIG_SUFFIX_" suffixes
                         +:+ after))
              Hui Hmulti) with (w := w) as (w' & Hrun & before & after & HF).
  - intros w0 cur parents HP. exact HP.
  - intros after. fold makefile infoFile. rewrite Hopen.
    intros w0. do 2 eexists. split; [reflexivity|].
    exists (default "" (Files w0 !! infoFile)), after.
    cbn [Files with_Files]. by rewrite lookup_insert_eq.
  - exists suffixes, w', before, after. split; [exact Hrun|].
    split; [|exact HF].
    intros li. unfold suffixes. by rewrite configSuffix_lookup, lookup_empty.
Qed.

End Reports.


Lemma SetupAutoGenerateTarget_open_error_witness :
  let makefile := {|
    CurrentBinaryDirectory := "/build";
    CurrentSourceDirectory := "/src";
    CMakeFilesDirectory := "/CMakeFiles";
    Configurations := ["Debug"; "Release"];
    BuildType := "";
    IsMultiConfig := true;
    PolicyCMP0071 := NEW;
    ImportedTargets := Demo.qt5tools;
    KnownTargets := fun _ => false;
    QtUiFilesWithOptions := [];
    OpenForAppend := fun _ => false
  |} in
  let target := Demo.target makefile [Demo.a_cpp] Demo.incs Demo.defs in
  ∃ w',
    SetupAutoGenerateTarget (C:=Demo.collaborators) target Demo.world
    = Done (tt, w')
    ∧ last (ErrorLog w')
      = Some (c_str ("Internal CMake error when trying to open file: "
                     +:+ @Quoted Demo.collaborators
                           "/build/CMakeFiles/app_autogen.dir/AutogenInfo.cmake"
                     +:+ " for writing.")).
Proof.
  intros makefile target.
  apply (SetupAutoGenerateTarget_open_error (C:=Demo.collaborators) target
           Demo.world).
  - constructor.
  - reflexivity.
  - reflexivity.
Defined.

Lemma SetupAutoGenerateTarget_suffixes_witness :
  ∃ (suffixes : gmap string string) (w' : World) (before after : string),
    SetupAutoGenerateTarget (C:=Demo.collaborators) Demo.app Demo.world
    = Done (tt, w')
    ∧ (∀ li, suffixes !! li
             = if decide (li ∈ ["Debug"; "Release"])
               then Some ("_" +:+ li) else None)
    ∧ Files w' !! "/build/CMakeFiles/app_autogen.dir/AutogenInfo.cmake"
      = Some (before +:+ "# Configuration specific options" +:+ nl
              +:+ setLines (C:=Demo.collaborators) "AM_CONFIG_SUFFIX_" suffixes
              +:+ after).
Proof.
  apply (SetupAutoGenerateTarget_suffixes (C:=Demo.collaborators) Demo.app
           Demo.world).
  - repeat constructor. by eexists.
  - reflexivity.
  - reflexivity.
Defined.
